(** * ClickSpeak: the runtime provisioner and the native launcher

    A shallow embedding of [scripts/install_app.sh] (the runtime
    provisioner: [python_is_supported], [resolve_host_python],
    [runtime_is_ready], [ensure_runtime]; the bundle writer:
    [write_info_plist], [compile_launcher], [write_bundle]; and the
    script as a whole) and of [src/launcher.c] ([show_error],
    [find_project_dir], [get_runtime_dir], [main]), with the
    properties the specification states about them. *)

From Stdlib Require Import String Ascii List ZArith Lia Bool.
From stdpp Require Import base option list gmap strings.

Open Scope string_scope.
Open Scope list_scope.

(** ** Strings as the shell and C see them *)

Module Str.

Definition nl : string := String "010"%char "".
Definition dquote : string := String "034"%char "".

(** The trailing newlines of a text are removed. *)
Fixpoint strip_trailing_newlines (s : string) : string :=
  match s with
  | "" => ""
  | String c r =>
      let r' := strip_trailing_newlines r in
      if Ascii.eqb c "010"%char && String.eqb r' "" then "" else String c r'
  end.

(** A shell word holds no NUL byte: the ones of a captured output are
    left out. *)
Fixpoint drop_nul (s : string) : string :=
  match s with
  | "" => ""
  | String c r =>
      if Ascii.eqb c "000"%char then drop_nul r else String c (drop_nul r)
  end.

(** Command substitution [$(...)]: the captured output without its
    NUL bytes, then without its trailing newlines. *)
Definition command_substitution (output : string) : string :=
  strip_trailing_newlines (drop_nul output).

Fixpoint all_chars (p : ascii -> bool) (s : string) : bool :=
  match s with
  | "" => true
  | String c r => p c && all_chars p r
  end.

Fixpoint has_char (c : ascii) (s : string) : bool :=
  match s with
  | "" => false
  | String c' r => Ascii.eqb c c' || has_char c r
  end.

(** The option letters of the builtin [echo]. *)
Definition echo_flag (c : ascii) : bool :=
  Ascii.eqb c "n" || Ascii.eqb c "e" || Ascii.eqb c "E".

(** [echo] takes its first operand for options when it is a ['-']
    followed by one or more of the letters [n], [e], [E]. *)
Definition is_echo_option (w : string) : bool :=
  match w with
  | String c (String c' r) =>
      Ascii.eqb c "-" && all_chars echo_flag (String c' r)
  | _ => false
  end.

(** What [echo "${w}"] prints: the word and a newline, unless the
    word is taken for options; then nothing is left to print but
    the newline, and not even that with [-n]. *)
Definition echo_output (w : string) : string :=
  if is_echo_option w then (if has_char "n" w then "" else nl)
  else w +:+ nl.

(** A command word with a slash names a file; one without is looked
    up by the shell. *)
Definition has_slash (w : string) : bool := has_char "/" w.

(** [snprintf(buf, size, ...)] keeps at most [size - 1] bytes of the
    formatted text. [keep n s] is the first [n] bytes of [s]. *)
Fixpoint keep (n : nat) (s : string) : string :=
  match n, s with
  | S n', String c r => String c (keep n' r)
  | _, _ => ""
  end.

Definition snprintf (size : N) (formatted : string) : string :=
  keep (N.to_nat (size - 1)) formatted.

(** [contains needle s]: [needle] occurs in [s]. *)
Fixpoint contains (needle s : string) : bool :=
  String.prefix needle s ||
  match s with
  | "" => false
  | String _ r => contains needle r
  end.

(** [strrchr]-and-cut: drop the last ['/'] and what follows it. [None]
    when there is no ['/'] (the C code then leaves the buffer alone). *)
Fixpoint cut_last_slash (s : string) : option string :=
  match s with
  | "" => None
  | String c r =>
      match cut_last_slash r with
      | Some r' => Some (String c r')
      | None => if Ascii.eqb c "/"%char then Some "" else None
      end
  end.

End Str.

(** ** The file system both programs look at *)

Module FS.
Import Str.

(** A regular file: its execute bit, its bytes ([None] when it cannot
    be read), and, for a program, what it prints on standard output
    when run with the version one-liner of [python_version]
    and exits with status 0 ([None] when it cannot be run that way or
    exits non-zero). *)
Record file := File {
  f_exec : bool;
  f_data : option string;
  f_reports : option string
}.

Inductive node :=
| Dir
| Reg (f : file).

(** Files are known by the names the programs use for them. *)
Abbreviation t := (gmap string node).

(** [access(path, F_OK) == 0] *)
Definition access_F_OK (fs : t) (path : string) : bool :=
  bool_decide (is_Some (fs !! path)).

(** [[ -x path ]] : exists and has the execute (or search) bit. *)
Definition test_x (fs : t) (path : string) : bool :=
  match fs !! path with
  | Some Dir => true
  | Some (Reg f) => f_exec f
  | None => false
  end.

(** [[ -f path ]] : exists and is a regular file. *)
Definition test_f (fs : t) (path : string) : bool :=
  match fs !! path with
  | Some (Reg _) => true
  | _ => false
  end.

(** [cat path]: the bytes, or failure. *)
Definition cat (fs : t) (path : string) : option string :=
  match fs !! path with
  | Some (Reg f) => f_data f
  | _ => None
  end.

(** Running the file [path] with the version one-liner: its standard
    output when the exit status is 0. *)
Definition run_version (fs : t) (path : string) : option string :=
  match fs !! path with
  | Some (Reg f) => if f_exec f then f_reports f else None
  | _ => None
  end.

(** [path] is [dir] or lies below it. *)
Definition under (dir path : string) : bool :=
  String.eqb dir path || String.prefix (dir +:+ "/") path.

(** [rm -rf dir]: the directory and all that lies below it are gone.
    The model has no permissions other than the execute bit, so the
    removal succeeds. *)
Definition rm_rf (dir : string) (fs : t) : t :=
  filter (fun kv => under dir kv.1 = false) fs.

(** The names [mkdir -p path] goes through before [path] itself: what
    stands before each ['/'] of [path] (the leading one apart),
    shortest first. *)
Fixpoint ancestors_from (before rest : string) : list string :=
  match rest with
  | "" => []
  | String c r =>
      (if Ascii.eqb c "/" && negb (String.eqb before "") then [before] else [])
      ++ ancestors_from (before +:+ String c "") r
  end.

Definition ancestors (path : string) : list string := ancestors_from "" path.

(** Making the directories of a list, in order: a name that is a
    directory already is passed over, a missing one is made, and a
    regular file in the way ends the run, with what was made so far
    left in place. *)
Fixpoint mkdirs (dirs : list string) (fs : t) : bool * t :=
  match dirs with
  | [] => (true, fs)
  | d :: rest =>
      match fs !! d with
      | Some Dir => mkdirs rest fs
      | Some (Reg _) => (false, fs)
      | None => mkdirs rest (<[d := Dir]> fs)
      end
  end.

(** [mkdir -p path]: whether it succeeded, and the file system it
    leaves. *)
Definition mkdir_p (path : string) (fs : t) : bool * t :=
  mkdirs (ancestors path ++ [path]) fs.

(** A file can be created only in a directory that is there. A name
    without a slash lies in the working directory, and one whose only
    slash leads it in the root. *)
Definition parent_is_directory (fs : t) (path : string) : bool :=
  match cut_last_slash path with
  | None => true
  | Some dir =>
      String.eqb dir "" ||
      match fs !! dir with
      | Some Dir => true
      | _ => false
      end
  end.

(** [printf ... > path]: create or truncate, then write. Fails on a
    directory, and where there is no directory to create the file
    in. What the file did as a program is gone with its old bytes. *)
Definition write (path data : string) (fs : t) : option t :=
  if negb (parent_is_directory fs path) then None
  else
    match fs !! path with
    | Some Dir => None
    | Some (Reg f) =>
        Some (<[path := Reg (File (f_exec f) (Some data) None)]> fs)
    | None => Some (<[path := Reg (File false (Some data) None)]> fs)
    end.

End FS.

(** ** scripts/install_app.sh: the runtime provisioner *)

Module Provisioner.
Import Str FS.

Definition RUNTIME_MARKER_FILE : string := ".clickspeak-runtime".
Definition REQUIRED_PYTHON_MAJOR : string := "3".
Definition REQUIRED_PYTHON_MINOR : string := "12".

(** ["${REQUIRED_PYTHON_MAJOR}.${REQUIRED_PYTHON_MINOR}"] *)
Definition required_version : string :=
  REQUIRED_PYTHON_MAJOR +:+ "." +:+ REQUIRED_PYTHON_MINOR.

(** What the script reads from its surroundings. [$HOME] is the
    absolute path name of the home directory, and [PROJECT_DIR] is
    what [pwd] printed for the project root, an absolute path name as
    well: [home_path] and [project_path] are what follows their
    leading slash. [CLICKSPEAK_HOST_PYTHON] is the optional
    override. [command_search] is the shell's command search for a
    command word without a slash: the program file that is run for
    it, [None] when no program file is (nothing of that name is
    found; or the word names a builtin or a function of the script,
    which are taken not to answer the version one-liner with a
    version). *)
Record shell := Shell {
  home_path : string;
  project_path : string;
  CLICKSPEAK_HOST_PYTHON : option string;
  command_search : string -> option string
}.

(** ["${HOME}"] *)
Definition HOME (sh : shell) : string := "/" +:+ home_path sh.

(** [PROJECT_DIR]: the project root, as [pwd] prints it. *)
Definition PROJECT_DIR (sh : shell) : string := "/" +:+ project_path sh.

(** ["$(command -v name || true)"]: the path the search finds, as the
    command substitution leaves it; empty when nothing is found. *)
Definition command_v (sh : shell) (name : string) : string :=
  command_substitution
    (match command_search sh name with
     | Some path => path +:+ nl
     | None => ""
     end).

(** The file a command word stands for when it is run: the word
    itself when it has a slash, what the command search finds
    otherwise. *)
Definition program_of (sh : shell) (word : string) : option string :=
  if has_slash word then Some word else command_search sh word.

(** What the script does that can be observed from outside. *)
Inductive event :=
| EvCat (path : string)
| EvRun (prog : string) (args : list string)
| EvRmRf (dir : string)
| EvMkdirP (dir : string)
| EvWrite (path data : string)
| EvEcho (line : string).

Definition is_write (e : event) : bool :=
  match e with
  | EvRmRf _ | EvMkdirP _ | EvWrite _ _ => true
  | _ => false
  end.

Definition version_script : string :=
  "import sys; print(f" +:+ dquote
    +:+ "{sys.version_info.major}.{sys.version_info.minor}" +:+ dquote +:+ ")".

(** The one interpreter invocation of [python_version]. *)
Definition version_check (python_path : string) : event :=
  EvRun python_path ["-c"; version_script].

(** [python_version]: status 0 with the output, or failure. *)
Definition python_version (sh : shell) (fs : FS.t) (python_path : string)
  : option string * list event :=
  (match program_of sh python_path with
   | Some program => run_version fs program
   | None => None
   end,
   [version_check python_path]).

(** [python_is_supported] *)
Definition python_is_supported (sh : shell) (fs : FS.t) (python_path : string)
  : bool * list event :=
  if negb (test_x fs python_path) then (false, [])
  else
    match python_version sh fs python_path with
    | (None, tr) => (false, tr)
    | (Some out, tr) =>
        (String.eqb (command_substitution out) required_version, tr)
    end.

(** The array [candidates] of [resolve_host_python], built by the
    two appending steps of the function. *)
Definition candidates_override (sh : shell) : list string :=
  let v := default "" (CLICKSPEAK_HOST_PYTHON sh) in
  if negb (String.eqb v "") then [] ++ [v] else [].

Fixpoint candidates_discovered (found : list string) (acc : list string)
  : list string :=
  match found with
  | [] => acc
  | candidate :: rest =>
      candidates_discovered rest
        (if negb (String.eqb candidate "") then acc ++ [candidate] else acc)
  end.

Definition candidates (sh : shell) : list string :=
  candidates_discovered
    [command_v sh "python3.12"; command_v sh "python3"]
    (candidates_override sh).

(** The search loop: status and standard output (the [echo] of the
    accepted candidate). The loop over an array without elements
    runs no iteration. *)
Fixpoint first_supported (sh : shell) (fs : FS.t) (cands : list string)
  : (nat * string) * list event :=
  match cands with
  | [] => ((1, ""), [])
  | candidate :: rest =>
      let '(ok, tr) := python_is_supported sh fs candidate in
      if ok then ((0, echo_output candidate), tr)
      else
        let '(r, tr') := first_supported sh fs rest in
        (r, tr ++ tr')
  end.

Definition resolve_host_python (sh : shell) (fs : FS.t)
  : (nat * string) * list event :=
  first_supported sh fs (candidates sh).

Definition RUNTIME_DIR (sh : shell) : string :=
  HOME sh +:+ "/Library/Application Support/ClickSpeak/runtime".

Definition RUNTIME_PYTHON (sh : shell) : string :=
  RUNTIME_DIR sh +:+ "/bin/python3".

Definition marker_path (sh : shell) : string :=
  RUNTIME_DIR sh +:+ "/" +:+ RUNTIME_MARKER_FILE.

(** [runtime_is_ready] *)
Definition runtime_is_ready (sh : shell) (fs : FS.t) : bool * list event :=
  if negb (test_x fs (RUNTIME_PYTHON sh)) then (false, [])
  else if negb (test_f fs (marker_path sh)) then (false, [])
  else
    let runtime_version :=
      command_substitution (default "" (cat fs (marker_path sh))) in
    if negb (String.eqb runtime_version required_version)
    then (false, [EvCat (marker_path sh)])
    else
      let '(ok, tr) := python_is_supported sh fs (RUNTIME_PYTHON sh) in
      (ok, EvCat (marker_path sh) :: tr).

(** The simple commands of the rebuild part of [ensure_runtime]. *)
Inductive cmd :=
| CRmRf (dir : string)
| CMkdirP (dir : string)
| CEcho (line : string)
| CRun (prog : string) (args : list string)
| CPrintfTo (path data : string).

Definition rebuild_cmds (sh : shell) (bootstrap_python : string) : list cmd :=
  [ CRmRf (RUNTIME_DIR sh);
    CMkdirP (RUNTIME_DIR sh);
    CEcho ("[clickspeak] Bootstrapping app runtime at " +:+ RUNTIME_DIR sh
           +:+ " using " +:+ bootstrap_python);
    CRun bootstrap_python ["-m"; "venv"; RUNTIME_DIR sh];
    CRun (RUNTIME_PYTHON sh)
         ["-m"; "pip"; "install"; "--upgrade"; "pip"; "setuptools"; "wheel"];
    CRun (RUNTIME_PYTHON sh) ["-m"; "pip"; "install"; "-e"; PROJECT_DIR sh];
    CPrintfTo (marker_path sh) (required_version +:+ nl) ].

Definition unavailable_message : list string :=
  [ "[clickspeak] Could not locate a supported Python "
      +:+ REQUIRED_PYTHON_MAJOR +:+ "." +:+ REQUIRED_PYTHON_MINOR
      +:+ " runtime.";
    "[clickspeak] Install Python "
      +:+ REQUIRED_PYTHON_MAJOR +:+ "." +:+ REQUIRED_PYTHON_MINOR
      +:+ " and re-run." ].

Section Provision.

Variable sh : shell.

(** The external programs the rebuild runs ([python -m venv],
    [python -m pip ...]): the exit status, and the file system they
    leave behind. *)
Variable run_tool : string -> list string -> FS.t -> nat * FS.t.

(** A command: its exit status, the file system it leaves, and what
    was seen of it. *)
Definition exec_cmd (c : cmd) (fs : FS.t) : nat * FS.t * list event :=
  match c with
  | CRmRf dir => (0, rm_rf dir fs, [EvRmRf dir])
  | CMkdirP dir =>
      let '(ok, fs') := mkdir_p dir fs in
      ((if ok then 0 else 1), fs', [EvMkdirP dir])
  | CEcho line => (0, fs, [EvEcho line])
  | CRun prog args =>
      let '(status, fs') := run_tool prog args fs in
      (status, fs', [EvRun prog args])
  | CPrintfTo path data =>
      match write path data fs with
      | Some fs' => (0, fs', [EvWrite path data])
      | None => (1, fs, [])
      end
  end.

(** [set -e]: the first command with a status other than 0 ends the
    script, with that status. *)
Fixpoint run_cmds (cs : list cmd) (fs : FS.t) : nat * FS.t * list event :=
  match cs with
  | [] => (0, fs, [])
  | c :: rest =>
      let '(status, fs1, tr1) := exec_cmd c fs in
      match status with
      | 0 =>
          let '(status2, fs2, tr2) := run_cmds rest fs1 in
          (status2, fs2, tr1 ++ tr2)
      | _ => (status, fs1, tr1)
      end
  end.

(** [ensure_runtime]: exit status, file system and events. *)
Definition ensure_runtime (fs : FS.t) : nat * FS.t * list event :=
  let '(ready, tr0) := runtime_is_ready sh fs in
  if ready then (0, fs, tr0)
  else
    let '((_, out), tr1) := resolve_host_python sh fs in
    let bootstrap_python := command_substitution out in
    if String.eqb bootstrap_python "" then
      (1, fs, tr0 ++ tr1 ++ map EvEcho unavailable_message)
    else
      let '(status, fs', tr2) :=
        run_cmds (rebuild_cmds sh bootstrap_python) fs in
      (status, fs', tr0 ++ tr1 ++ tr2).

(** The state a run of the rebuild is in when it is cut after its
    first [k] commands (or earlier, at a command that failed). *)
Definition crash_state (bootstrap_python : string) (k : nat) (fs : FS.t)
  : nat * FS.t * list event :=
  run_cmds (firstn k (rebuild_cmds sh bootstrap_python)) fs.

End Provision.

End Provisioner.

(** ** src/launcher.c: the native launcher *)

Module Launcher.
Import Str FS.

(** [PATH_MAX] of [<limits.h>] on macOS, the platform the launcher is
    built for. *)
Definition PATH_MAX : N := 1024.

(** [PyStatus]: [PyStatus_Exception(status)] and [status.err_msg]. *)
Record PyStatus := Status {
  exception : bool;
  err_msg : option string
}.

(** The fields of [PyConfig] the launcher touches. *)
Record PyConfig := Config {
  executable : option string;
  parse_argv : Z;
  site_import : Z
}.

(** [PyConfig_InitPythonConfig] *)
Definition PyConfig_InitPythonConfig : PyConfig :=
  Config None 1 1.

Inductive PyObject :=
| PyUnicode (s : string).

(** A Python list under construction: [None] is a slot still NULL. *)
Abbreviation PyList := (list (option PyObject)).

Definition PyList_New (n : nat) : PyList := replicate n None.

(** [PyList_SetItem]: out of range the call fails (IndexError, -1)
    and the list is left as it was; the launcher ignores the result. *)
Definition PyList_SetItem (l : PyList) (i : nat) (o : PyObject) : PyList :=
  if decide (i < length l) then <[i := Some o]> l else l.

Definition PyUnicode_DecodeFSDefault (s : string) : PyObject := PyUnicode s.
Definition PyUnicode_FromString (s : string) : PyObject := PyUnicode s.

(** What [fork()] returns in the launcher. *)
Inductive fork_outcome :=
| ForkFailed
| Forked (child : positive).

Definition pid_of (f : fork_outcome) : Z :=
  match f with
  | ForkFailed => -1
  | Forked child => Z.pos child
  end.

(** How a call of [PyRun_SimpleString] comes out: it returns its
    result to the launcher (0, or -1 when an exception was raised);
    or the interpreter ends the process itself, as it does on a
    SystemExit that nothing handles, with the code the application
    asked for; or the code is still running. *)
Inductive py_run :=
| PyReturns (rc : Z)
| PyExits (code : Z)
| PyRunsOn.

(** How the process ends: [main] returns a status; or the process
    was ended from inside the interpreter; or it has not ended. *)
Inductive ending :=
| Returned (status : Z)
| Exited (code : Z)
| Running.

(** Everything the launcher gets from outside. *)
Record host := Host {
  environ : gmap string string;
  files : FS.t;
  argv : list string;
  fork : fork_outcome;
  own_executable : string;
  Py_DecodeLocale : string -> option string;
  PyConfig_SetString : string -> PyStatus;
  Py_InitializeFromConfig : PyConfig -> PyStatus;
  PyRun_SimpleString : string -> py_run
}.

(** What the launcher does that can be observed from outside.
    [EvFork pid file args] is a call of [fork] that returned [pid] to
    the launcher ([-1]: no child was made), the child being set to
    [execlp(file, args)]. [EvFinalize] is the call of [Py_FinalizeEx]
    in [main]. *)
Inductive event :=
| EvStderr (text : string)
| EvFork (pid : Z) (file : string) (args : list string)
| EvWaitpid (pid : Z)
| EvSetenv (name value : string)
| EvChdir (dir : string)
| EvInitialize (config : PyConfig)
| EvSetSysArgv (argv_list : PyList)
| EvRunString (code : string)
| EvFinalize.

(** The process while [main] runs: the environment as the launcher's
    own calls of [setenv] have made it, and what it has done so
    far. *)
Record proc := Proc {
  p_env : gmap string string;
  p_trace : list event
}.

Definition getenv (env : gmap string string) (name : string) : option string :=
  env !! name.

Definition setenv (name value : string) (p : proc) : proc :=
  Proc (<[name := value]> (p_env p)) (p_trace p ++ [EvSetenv name value]).

Definition chdir (dir : string) (p : proc) : proc :=
  Proc (p_env p) (p_trace p ++ [EvChdir dir]).

(** [_NSGetExecutablePath(buf, &size) == 0]: the path when it fits. *)
Definition _NSGetExecutablePath (h : host) (size : N) : option string :=
  if decide (N.of_nat (String.length (own_executable h)) < size)%N
  then Some (own_executable h) else None.

(** The AppleScript [show_error] formats into its 4096-byte buffer. *)
Definition dialog_script (message : string) : string :=
  snprintf 4096
    ("display dialog " +:+ dquote +:+ message +:+ dquote
     +:+ " with title " +:+ dquote +:+ "ClickSpeak Error" +:+ dquote
     +:+ " buttons " +:+ dquote +:+ "OK" +:+ dquote
     +:+ " default button " +:+ dquote +:+ "OK" +:+ dquote).

(** [show_error], seen from the launcher: the call of [fork] (with
    the program the child is to [execlp]) and, when a child was
    made, the wait for it. *)
Definition show_error (h : host) (message : string) : list event :=
  let script := dialog_script message in
  let pid := pid_of (fork h) in
  EvFork pid "osascript" ["osascript"; "-e"; script]
  :: (if (0 <? pid)%Z then [EvWaitpid pid] else []).

Definition suffixes : list string :=
  [ "/projects/clickspeak";
    "/clickspeak";
    "/work/clickspeak";
    "/Workspace/clickspeak";
    "/Documents/clickspeak" ].

Fixpoint probe (fs : FS.t) (home : string) (sfx : list string) : option string :=
  match sfx with
  | [] => None
  | s :: rest =>
      let buf := snprintf PATH_MAX (home +:+ s +:+ "/pyproject.toml") in
      if access_F_OK fs buf
      then Some (default buf (cut_last_slash buf))
      else probe fs home rest
  end.

(** [find_project_dir] *)
Definition find_project_dir (h : host) : option string :=
  let by_home :=
    match getenv (environ h) "HOME" with
    | None => None
    | Some home => probe (files h) home suffixes
    end in
  match getenv (environ h) "CLICKSPEAK_PROJECT_DIR" with
  | Some env => if negb (String.eqb env "") then Some env else by_home
  | None => by_home
  end.

(** [get_runtime_dir] *)
Definition get_runtime_dir (h : host) : option string :=
  let by_home :=
    match getenv (environ h) "HOME" with
    | None => None
    | Some home =>
        Some (snprintf PATH_MAX
                (home +:+ "/Library/Application Support/ClickSpeak/runtime"))
    end in
  match getenv (environ h) "CLICKSPEAK_RUNTIME_DIR" with
  | Some env => if negb (String.eqb env "") then Some env else by_home
  | None => by_home
  end.

(** The marker path [main] checks. *)
Definition marker_of (runtime_dir : string) : string :=
  snprintf PATH_MAX (runtime_dir +:+ "/.clickspeak-runtime").

(** "Verify runtime exists": the test of line 100 of [main]. *)
Definition runtime_exists (h : host) (runtime_dir : string) : bool :=
  access_F_OK (files h) (marker_of runtime_dir).

Definition msg_no_home : string :=
  "HOME environment variable is not set.".
Definition msg_no_runtime_dir : string :=
  "Could not determine ClickSpeak runtime directory.".
Definition msg_runtime_not_found : string :=
  "ClickSpeak runtime not found. Re-run: bash scripts/install_app.sh".
Definition msg_init_failed : string :=
  "Python initialization failed. Re-run: bash scripts/install_app.sh".

(** The value [main] gives to [PYTHONPATH]. *)
Definition pythonpath (project_dir : option string) (runtime_dir : string)
  : string :=
  match project_dir with
  | Some project_dir =>
      snprintf 8192
        (project_dir +:+ "/src:" +:+ runtime_dir
         +:+ "/lib/python3.12/site-packages")
  | None =>
      snprintf 8192 (runtime_dir +:+ "/lib/python3.12/site-packages")
  end.

(** Lines 105-138 of [main]: the process environment. *)
Definition build_environment (h : host) (runtime_dir : string)
    (project_dir : option string) (p : proc) : proc :=
  let p := setenv "PYTHONUNBUFFERED" "1" p in
  let p := setenv "PYTHONNOUSERSITE" "1" p in
  let p := setenv "PYTHONFAULTHANDLER" "1" p in
  let p := setenv "CLICKSPEAK_BUNDLE_IDENTIFIER" "com.lamosty.clickspeak" p in
  let p := setenv "CLICKSPEAK_APP_NAME" "ClickSpeak" p in
  let p := setenv "CLICKSPEAK_RUNTIME_DIR" runtime_dir p in
  let p :=
    match _NSGetExecutablePath h PATH_MAX with
    | Some exe_path => setenv "CLICKSPEAK_APP_PATH" exe_path p
    | None => p
    end in
  let old_path := getenv (p_env p) "PATH" in
  let new_path :=
    snprintf 8192
      ("/opt/homebrew/bin:/usr/local/bin:" +:+ default "/usr/bin:/bin" old_path) in
  let p := setenv "PATH" new_path p in
  let p :=
    match project_dir with
    | Some d => chdir d p
    | None => p
    end in
  setenv "PYTHONPATH" (pythonpath project_dir runtime_dir) p.

(** The body of the loop of lines 176-179, for index [i]. *)
Definition set_arg (argv : list string) (l : PyList) (i : nat) : PyList :=
  let arg := PyUnicode_DecodeFSDefault (default "" (argv !! i)) in
  PyList_SetItem l i arg.

(** Lines 172-186 of [main]: the list installed as [sys.argv]. *)
Definition build_sys_argv (argv : list string) : PyList :=
  let argc := length argv in
  let argv_list := PyList_New argc in
  let argv_list := fold_left (set_arg argv) (seq 0 argc) argv_list in
  let name := PyUnicode_FromString "ClickSpeak" in
  PyList_SetItem argv_list 0 name.

Definition entry_point : string :=
  "from clickspeak.__main__ import main" +:+ nl +:+ "main()" +:+ nl.

(** The interpreter of a runtime directory, at the sub-path the
    launcher expects. *)
Definition venv_python (runtime_dir : string) : string :=
  snprintf PATH_MAX (runtime_dir +:+ "/bin/python3").

(** The label [fail] of [main]. *)
Definition fail (h : host) (status : PyStatus) : ending * list event :=
  (Returned 1,
   EvStderr ("ClickSpeak: Python initialization failed: "
             +:+ default "(unknown error)" (err_msg status) +:+ nl)
   :: show_error h msg_init_failed).

(** How the process ends for an outcome of the entry point:
    [return rc ? 1 : 0] when it came back to [main]. *)
Definition ending_of_run (r : py_run) : ending :=
  match r with
  | PyReturns rc => Returned (if (rc =? 0)%Z then 0 else 1)
  | PyExits code => Exited code
  | PyRunsOn => Running
  end.

(** Lines 188-195 of [main]: the entry point is run; when it came
    back [Py_FinalizeEx] is called, which is taken to come back in
    its turn, and [main] returns. *)
Definition run_entry_point (h : host) : ending * list event :=
  let r := PyRun_SimpleString h entry_point in
  (ending_of_run r,
   EvRunString entry_point
   :: match r with
      | PyReturns _ => [EvFinalize]
      | _ => []
      end).

(** Lines 140-195 of [main]: configure, initialize, dispatch. *)
Definition embed_python (h : host) (runtime_dir : string)
  : ending * list event :=
  let config := PyConfig_InitPythonConfig in
  let venv_python := venv_python runtime_dir in
  let configured : PyConfig + PyStatus :=
    match Py_DecodeLocale h venv_python with
    | Some w_exe =>
        let status := PyConfig_SetString h w_exe in
        if exception status then inr status
        else inl (Config (Some w_exe) (parse_argv config) (site_import config))
    | None => inl config
    end in
  match configured with
  | inr status => fail h status
  | inl config =>
      let config := Config (executable config) 0 1 in
      let status := Py_InitializeFromConfig h config in
      if exception status then
        let '(e, tr) := fail h status in (e, EvInitialize config :: tr)
      else
        let '(e, tr) := run_entry_point h in
        (e,
         EvInitialize config :: EvSetSysArgv (build_sys_argv (argv h)) :: tr)
  end.

(** Lines 105-195 of [main]: what follows the runtime check. The
    environment given is the one the launcher has built by the time
    it initializes the interpreter; what the interpreter itself then
    does to the environment of the process is not the launcher's. *)
Definition launch (h : host) (runtime_dir : string)
    (project_dir : option string)
  : ending * gmap string string * list event :=
  let p :=
    build_environment h runtime_dir project_dir (Proc (environ h) []) in
  let '(e, tr) := embed_python h runtime_dir in
  (e, p_env p, p_trace p ++ tr).

(** [main]: how the process ends, the environment as the launcher's
    own calls of [setenv] leave it, and what was done. *)
Definition main (h : host) : ending * gmap string string * list event :=
  match getenv (environ h) "HOME" with
  | None =>
      (Returned 1, environ h, show_error h msg_no_home)
  | Some home =>
      let runtime_dir := get_runtime_dir h in
      let project_dir := find_project_dir h in
      match runtime_dir with
      | None =>
          (Returned 1, environ h, show_error h msg_no_runtime_dir)
      | Some runtime_dir =>
          if negb (runtime_exists h runtime_dir) then
            (Returned 1, environ h, show_error h msg_runtime_not_found)
          else launch h runtime_dir project_dir
      end
  end.

(** The messages written to the standard error stream. *)
Definition stderr_of (tr : list event) : list string :=
  omap (fun e => match e with EvStderr s => Some s | _ => None end) tr.

(** The dialogs shown and waited for: the arguments of the
    [osascript] children that were made and then waited on. *)
Fixpoint dialogs_of (tr : list event) : list (list string) :=
  match tr with
  | EvFork pid file args :: ((EvWaitpid pid' :: _) as rest) =>
      if (0 <? pid)%Z && (pid =? pid')%Z && String.eqb file "osascript"
      then args :: dialogs_of rest else dialogs_of rest
  | _ :: rest => dialogs_of rest
  | [] => []
  end.

(** The lists installed as [sys.argv]. *)
Definition installed_argv (tr : list event) : list PyList :=
  omap (fun e => match e with EvSetSysArgv l => Some l | _ => None end) tr.

(** The messages handed to [show_error], whether or not a child
    could be made for them. *)
Definition show_error_calls (tr : list event) : list string :=
  omap (fun e => match e with
                 | EvFork _ _ [_; _; script] => Some script
                 | _ => None
                 end) tr.

End Launcher.

(** ** The specification's words for the provisioner *)

Module ProvisionerSpec.
Import Str FS Provisioner.

(** The version a captured output stands for: the text as the shell
    holds it, with no NUL byte and no trailing newline. *)
Definition version_of (output : option string) : option string :=
  command_substitution <$> output.

(** The version recorded in the marker of the installation. *)
Definition recorded_version (sh : shell) (fs : FS.t) : option string :=
  version_of (cat fs (marker_path sh)).

(** The version the interpreter at [python_path] reports of itself:
    [None] when it is not an executable file or does not answer. *)
Definition reported_version (fs : FS.t) (python_path : string)
  : option string :=
  version_of (run_version fs python_path).

(** "The interpreter executable is present and executable." *)
Definition interpreter_executable (sh : shell) (fs : FS.t) : Prop :=
  exists f, fs !! RUNTIME_PYTHON sh = Some (Reg f) /\ f_exec f = true.

(** "The marker file exists." *)
Definition marker_exists (sh : shell) (fs : FS.t) : Prop :=
  is_Some (fs !! marker_path sh).

(** The ready invariant of a RuntimeInstallation, in the
    specification's words. *)
Definition ready (sh : shell) (fs : FS.t) : Prop :=
  interpreter_executable sh fs /\
  marker_exists sh fs /\
  recorded_version sh fs = Some required_version /\
  reported_version fs (RUNTIME_PYTHON sh) = Some required_version.

(** A bootstrap candidate qualifies when it is executable and the
    interpreter that is run under its name reports exactly the
    required major.minor. *)
Definition qualifies (sh : shell) (fs : FS.t) (candidate : string) : Prop :=
  test_x fs candidate = true /\
  exists program,
    program_of sh candidate = Some program /\
    reported_version fs program = Some required_version.

(** The fixed order of the candidates: the explicit override, the
    version-qualified interpreter found on the search path, the
    generically named one; those that are not there are left out. *)
Definition priority_order (sh : shell) : list string :=
  List.filter (fun c => negb (String.eqb c ""))
    [ default "" (CLICKSPEAK_HOST_PYTHON sh);
      command_v sh "python3.12";
      command_v sh "python3" ].

(** [c] is the first candidate of [l] that qualifies. *)
Definition first_qualifying (sh : shell) (fs : FS.t) (l : list string)
    (c : string) : Prop :=
  exists before after,
    l = before ++ c :: after /\
    Forall (fun c' => ~ qualifies sh fs c') before /\
    qualifies sh fs c.

(** The name of an accepted candidate as [ensure_runtime] gets it
    back from [resolve_host_python]: printed by [echo], captured by
    the command substitution. *)
Definition echoed (c : string) : string :=
  command_substitution (echo_output c).

(** A name that comes back as it is: it is not an option of [echo],
    and the command substitution leaves it alone. *)
Definition plain_word (c : string) : bool :=
  negb (is_echo_option c) && String.eqb (command_substitution c) c.

(** The bootstrap interpreter [ensure_runtime] goes on with; empty
    when it has none. *)
Definition bootstrap_python (sh : shell) (fs : FS.t) : string :=
  command_substitution (resolve_host_python sh fs).1.2.

(** The external programs of the rebuild (the venv creation and the
    two [pip] runs) do not create the marker: run where there is
    none, they leave none. *)
Definition tools_spare_marker (sh : shell)
    (run_tool : string -> list string -> FS.t -> nat * FS.t) : Prop :=
  forall prog args (fs : FS.t),
    fs !! marker_path sh = None ->
    (run_tool prog args fs).2 !! marker_path sh = None.

(** Commands that cannot create the marker. *)
Definition spares (sh : shell) (c : cmd) : Prop :=
  match c with
  | CMkdirP dir => ~ In (marker_path sh) (ancestors dir ++ [dir])
  | CPrintfTo path _ => path <> marker_path sh
  | _ => True
  end.

(** The commands of the rebuild between the deletion and the marker
    write. *)
Definition middle_cmds (sh : shell) (bootstrap_python : string) : list cmd :=
  removelast (tl (rebuild_cmds sh bootstrap_python)).

End ProvisionerSpec.

(** ** The specification's words for the launcher *)

Module LauncherSpec.
Import Str FS Launcher.

(** The launcher-level errors of the specification's taxonomy. *)
Inductive launcher_error :=
| NoHome
| RuntimeNotProvisioned
| RuntimeInitFailed.

(** The message [main] hands to [show_error] for each of them. *)
Definition message_of (e : launcher_error) : string :=
  match e with
  | NoHome => msg_no_home
  | RuntimeNotProvisioned => msg_runtime_not_found
  | RuntimeInitFailed => msg_init_failed
  end.

(** The launch fails with [e]: [main] returns 1 after handing the
    message of [e] to [show_error]. *)
Definition fails_with (h : host) (e : launcher_error) : Prop :=
  (main h).1.1 = Returned 1 /\
  In (dialog_script (message_of e)) (show_error_calls (main h).2).

(** What ValidateRuntime is said to require of a runtime directory
    for a required version [V]. *)
Definition claimed_valid (V : string) (fs : FS.t) (runtime_dir : string)
  : Prop :=
  ProvisionerSpec.version_of (cat fs (marker_of runtime_dir)) = Some V /\
  ProvisionerSpec.reported_version fs (venv_python runtime_dir) = Some V.

(** The marker file under a runtime directory. *)
Definition marker_under (runtime_dir : string) : string :=
  runtime_dir +:+ "/.clickspeak-runtime".

(** The launch got past the runtime check of [main]. *)
Definition validated (h : host) : bool :=
  match getenv (environ h) "HOME", get_runtime_dir h with
  | Some _, Some runtime_dir => runtime_exists h runtime_dir
  | _, _ => false
  end.

(** The status with which the embedded runtime rejected its
    configuration or its initialization, if it did: that of
    [PyConfig_SetString], which is called when the interpreter path
    could be decoded, or else that of [Py_InitializeFromConfig] for
    the configuration with that executable and no argument
    parsing. *)
Definition rejection (h : host) (runtime_dir : string) : option PyStatus :=
  let initialize config :=
    let status := Py_InitializeFromConfig h config in
    if exception status then Some status else None in
  match Py_DecodeLocale h (venv_python runtime_dir) with
  | Some w =>
      let status := PyConfig_SetString h w in
      if exception status then Some status
      else initialize (Config (Some w) 0 1)
  | None => initialize (Config None 0 1)
  end.

(** When each launcher-level error arises, and with which
    diagnostic of the runtime: NoHome when [HOME] is not set;
    RuntimeNotProvisioned when the marker the launcher looks for is
    not there; RuntimeInitFailed when the marker is there and the
    embedded runtime rejects its configuration or initialization. *)
Inductive arises (h : host) : launcher_error -> option PyStatus -> Prop :=
| NoHome_arises :
    getenv (environ h) "HOME" = None ->
    arises h NoHome None
| RuntimeNotProvisioned_arises home runtime_dir :
    getenv (environ h) "HOME" = Some home ->
    get_runtime_dir h = Some runtime_dir ->
    files h !! marker_of runtime_dir = None ->
    arises h RuntimeNotProvisioned None
| RuntimeInitFailed_arises home runtime_dir status :
    getenv (environ h) "HOME" = Some home ->
    get_runtime_dir h = Some runtime_dir ->
    is_Some (files h !! marker_of runtime_dir) ->
    rejection h runtime_dir = Some status ->
    arises h RuntimeInitFailed (Some status).

(** The line that carries the diagnostic of the runtime. *)
Definition diagnostic_line (status : PyStatus) : string :=
  "ClickSpeak: Python initialization failed: "
  +:+ default "(unknown error)" (err_msg status) +:+ nl.

(** How a run that ends with a launcher-level error is reported. *)
Definition reported (h : host) (msg : string) (lines : list string)
    (tr : list event) : Prop :=
  show_error_calls tr = [dialog_script msg] /\
  stderr_of tr = lines /\
  installed_argv tr = [] /\
  (forall child,
      fork h = Forked child ->
      dialogs_of tr = [["osascript"; "-e"; dialog_script msg]] /\
      last tr = Some (EvWaitpid (Z.pos child))) /\
  (fork h = ForkFailed -> dialogs_of tr = []).

(** The rejection of a launch: that of the runtime directory it
    resolved, once it is past the runtime check. *)
Definition rejected (h : host) : option PyStatus :=
  if validated h then
    match get_runtime_dir h with
    | Some runtime_dir => rejection h runtime_dir
    | None => None
    end
  else None.

(** The launch gets as far as Dispatch: it passes the runtime check
    and the embedded runtime accepts its configuration and
    initializes. *)
Definition dispatches (h : host) : bool :=
  validated h &&
  match rejected h with
  | None => true
  | Some _ => false
  end.

(** A name the system takes for a file or a directory is shorter than
    [PATH_MAX]. *)
Definition path_name (s : string) : Prop :=
  (N.of_nat (String.length s) < PATH_MAX)%N.

(** "Lists the project's source directory before the runtime's
    package directory." *)
Definition project_then_runtime (project_dir runtime_dir : string) : string :=
  (project_dir +:+ "/src") +:+ ":"
  +:+ (runtime_dir +:+ "/lib/python3.12/site-packages").

(** "Lists only the runtime's package directory." *)
Definition runtime_only (runtime_dir : string) : string :=
  runtime_dir +:+ "/lib/python3.12/site-packages".

(** The argument list the specification describes: the display name
    in place of element 0, the other elements as they came. *)
Definition marshalled (argv : list string) : list (option PyObject) :=
  match argv with
  | [] => []
  | _ :: rest =>
      Some (PyUnicode "ClickSpeak") :: map (fun a => Some (PyUnicode a)) rest
  end.

(** The three outcomes of the embedding part of [main]. *)
Inductive embed_outcome (h : host) (rt : string) : Prop :=
| SetStringFailed status :
    exception status = true ->
    rejection h rt = Some status ->
    embed_python h rt = fail h status ->
    embed_outcome h rt
| InitializeFailed config status :
    exception status = true ->
    rejection h rt = Some status ->
    embed_python h rt = (Returned 1, EvInitialize config :: (fail h status).2) ->
    embed_outcome h rt
| Dispatched config :
    rejection h rt = None ->
    embed_python h rt =
      ((run_entry_point h).1,
       EvInitialize config :: EvSetSysArgv (build_sys_argv (argv h))
       :: (run_entry_point h).2) ->
    embed_outcome h rt.

End LauncherSpec.

(** ** Sample machines *)

Module Samples.
Import Str FS Provisioner.

Definition python312 : node := Reg (File true None (Some ("3.12" +:+ nl))).
Definition python311 : node := Reg (File true None (Some ("3.11" +:+ nl))).
Definition marker_file (v : string) : node :=
  Reg (File false (Some (v +:+ nl)) None).

Definition sh0 : shell :=
  Shell "Users/me" "Users/me/clickspeak" None
    (fun name =>
       if String.eqb name "python3.12" then Some "/opt/homebrew/bin/python3.12"
       else if String.eqb name "python3" then Some "/usr/bin/python3"
       else None).

(** A machine with both interpreters on the search path and no
    runtime installed. *)
Definition fs_fresh : FS.t :=
  {[ "/opt/homebrew/bin/python3.12" := python312;
     "/usr/bin/python3" := python311 ]}.

(** A machine without a Python 3.12. *)
Definition fs_old_python : FS.t :=
  {[ "/usr/bin/python3" := python311 ]}.

(** A machine with a provisioned runtime. *)
Definition fs_ready : FS.t :=
  <[ RUNTIME_PYTHON sh0 := python312 ]>
    (<[ marker_path sh0 := marker_file "3.12" ]>
       (<[ RUNTIME_DIR sh0 := Dir ]> fs_fresh)).

(** A stand-in for [python -m venv] and [pip]: each call leaves a
    working interpreter in the runtime directory. *)
Definition tool0 (prog : string) (args : list string) (fs : FS.t)
  : nat * FS.t :=
  (0, <[ RUNTIME_PYTHON sh0 := python312 ]> fs).

(** A [pip] that gives up with status 2 on the application install. *)
Definition tool_pip_fails (prog : string) (args : list string) (fs : FS.t)
  : nat * FS.t :=
  if String.eqb (nth 3 args "") "-e" then (2, fs) else tool0 prog args fs.

(** A bootstrap interpreter whose venv creation restores a runtime
    directory that was saved earlier, marker included, on a machine
    where the [pip] runs then give up with status 2. *)
Definition tool_restores (prog : string) (args : list string) (fs : FS.t)
  : nat * FS.t :=
  if String.eqb (nth 1 args "") "venv"
  then (0, <[ marker_path sh0 := marker_file "3.12" ]>
             (<[ RUNTIME_PYTHON sh0 := python312 ]> fs))
  else (2, fs).

(** *** Launches *)

Definition runtime0 : string := RUNTIME_DIR sh0.

Definition ok_status : Launcher.PyStatus := Launcher.Status false None.

Definition mk_host (env : gmap string string) (fs : FS.t)
    (decode : string -> option string) : Launcher.host :=
  Launcher.Host env fs
    ["/Applications/ClickSpeak.app/Contents/MacOS/ClickSpeak";
     "--check-permissions"]
    (Launcher.Forked 4242)
    "/Applications/ClickSpeak.app/Contents/MacOS/ClickSpeak"
    decode
    (fun _ => ok_status)
    (fun _ => ok_status)
    (fun _ => Launcher.PyReturns 0).

Definition env_home : gmap string string :=
  {[ "HOME" := "/Users/me"; "PATH" := "/usr/bin:/bin" ]}.

(** A launch on a provisioned machine. *)
Definition host_ready : Launcher.host := mk_host env_home fs_ready Some.

(** The marker is there but records another version, and there is no
    interpreter in the runtime directory. *)
Definition fs_mismatch : FS.t :=
  {[ RUNTIME_DIR sh0 := Dir; marker_path sh0 := marker_file "3.11" ]}.

Definition host_mismatch : Launcher.host := mk_host env_home fs_mismatch Some.

(** [HOME] is unset; both overrides point at usable directories. *)
Definition env_overrides : gmap string string :=
  {[ "CLICKSPEAK_RUNTIME_DIR" := RUNTIME_DIR sh0;
     "CLICKSPEAK_PROJECT_DIR" := "/Users/me/clickspeak" ]}.

Definition host_no_home : Launcher.host :=
  mk_host env_overrides
    (<[ "/Users/me/clickspeak" := Dir ]> fs_ready) Some.

(** [Py_DecodeLocale] fails. *)
Definition host_no_decode : Launcher.host :=
  mk_host env_home fs_ready (fun _ => None).

(** The runtime directory was never provisioned. *)
Definition host_unprovisioned : Launcher.host :=
  mk_host env_home fs_fresh Some.

(** [Py_InitializeFromConfig] rejects the configuration. *)
Definition no_pyvenv : Launcher.PyStatus :=
  Launcher.Status true (Some "no pyvenv.cfg").

Definition host_init_fails : Launcher.host :=
  Launcher.Host env_home fs_ready [] (Launcher.Forked 4242)
    "/Applications/ClickSpeak.app/Contents/MacOS/ClickSpeak"
    Some (fun _ => ok_status)
    (fun _ => no_pyvenv)
    (fun _ => Launcher.PyReturns 0).

(** A project checked out under both [~/clickspeak] and
    [~/work/clickspeak]. *)
Definition manifest_file : node := Reg (File false (Some "") None).

Definition fs_two_projects : FS.t :=
  <[ "/Users/me/clickspeak/pyproject.toml" := manifest_file ]>
    (<[ "/Users/me/work/clickspeak/pyproject.toml" := manifest_file ]> fs_ready).

Definition host_two_projects : Launcher.host :=
  mk_host env_home fs_two_projects Some.

End Samples.

(** ** More of the launcher's vocabulary *)

Module LauncherNotions.
Import Str FS Launcher.

(** The file whose presence marks a project directory. *)
Definition project_manifest (project_dir : string) : string :=
  project_dir +:+ "/pyproject.toml".

(** An override variable counts only when it is set and not empty. *)
Definition no_override (h : host) (name : string) : Prop :=
  getenv (environ h) name = None \/ getenv (environ h) name = Some "".

(** The variables [main] sets. *)
Definition launcher_variables : list string :=
  [ "PYTHONUNBUFFERED"; "PYTHONNOUSERSITE"; "PYTHONFAULTHANDLER";
    "CLICKSPEAK_BUNDLE_IDENTIFIER"; "CLICKSPEAK_APP_NAME";
    "CLICKSPEAK_RUNTIME_DIR"; "CLICKSPEAK_APP_PATH"; "PATH"; "PYTHONPATH" ].

Definition homebrew_paths : string := "/opt/homebrew/bin:/usr/local/bin:".

(** The calls of [chdir] in a run. *)
Definition chdirs_of (tr : list event) : list string :=
  omap (fun e => match e with EvChdir d => Some d | _ => None end) tr.

(** The configurations handed to [Py_InitializeFromConfig]. *)
Definition initialized_with (tr : list event) : list PyConfig :=
  omap (fun e => match e with EvInitialize c => Some c | _ => None end) tr.

(** The code handed to [PyRun_SimpleString]. *)
Definition run_strings (tr : list event) : list string :=
  omap (fun e => match e with EvRunString c => Some c | _ => None end) tr.

(** The calls of [Py_FinalizeEx] by [main]. *)
Definition finalizations (tr : list event) : nat :=
  length (List.filter (fun e => match e with EvFinalize => true | _ => false end) tr).

(** Lines 168-195 of [main] for a finished configuration. *)
Definition initialize_and_run (h : host) (config : PyConfig)
  : ending * list event :=
  let status := Py_InitializeFromConfig h config in
  if exception status then
    (Returned 1, EvInitialize config :: (fail h status).2)
  else
    ((run_entry_point h).1,
     EvInitialize config :: EvSetSysArgv (build_sys_argv (argv h))
     :: (run_entry_point h).2).

(** The events of lines 105-138 of [main]. *)
Definition environment_events (h : host) (runtime_dir : string)
    (project_dir : option string) : list event :=
  p_trace (build_environment h runtime_dir project_dir (Proc (environ h) [])).

(** The ways the embedding part of [main] can go. *)
Inductive embedding (h : host) (rt : string) : ending * list event -> Prop :=
| SetStringRaised w :
    Py_DecodeLocale h (venv_python rt) = Some w ->
    exception (PyConfig_SetString h w) = true ->
    embedding h rt (fail h (PyConfig_SetString h w))
| Configured config :
    executable config = Py_DecodeLocale h (venv_python rt) ->
    parse_argv config = 0%Z ->
    site_import config = 1%Z ->
    embedding h rt (initialize_and_run h config).

(** The environment after the six fixed settings of lines 106-111 and
    the executable path of lines 114-118. *)
Definition identity_env (h : host) (runtime_dir : string)
  : gmap string string :=
  let env :=
    <["CLICKSPEAK_RUNTIME_DIR" := runtime_dir]>
      (<["CLICKSPEAK_APP_NAME" := "ClickSpeak"]>
         (<["CLICKSPEAK_BUNDLE_IDENTIFIER" := "com.lamosty.clickspeak"]>
            (<["PYTHONFAULTHANDLER" := "1"]>
               (<["PYTHONNOUSERSITE" := "1"]>
                  (<["PYTHONUNBUFFERED" := "1"]> (environ h)))))) in
  match _NSGetExecutablePath h PATH_MAX with
  | Some exe_path => <["CLICKSPEAK_APP_PATH" := exe_path]> env
  | None => env
  end.

(** The same machine started with another environment. *)
Definition with_environ (h : host) (env : gmap string string) : host :=
  Host env (files h) (argv h) (fork h) (own_executable h)
    (Py_DecodeLocale h) (PyConfig_SetString h) (Py_InitializeFromConfig h)
    (PyRun_SimpleString h).

(** The waits for a child in a run. *)
Definition waits_of (tr : list event) : list Z :=
  omap (fun e => match e with EvWaitpid pid => Some pid | _ => None end) tr.

End LauncherNotions.

(** ** More of the provisioner's vocabulary *)

Module ProvisionerNotions.
Import Str FS Provisioner ProvisionerSpec.

(** The version checks a search over [cands] makes when it probes all
    of them: one for each candidate that passes [[ -x ]]. *)
Definition probes (fs : FS.t) (cands : list string) : list event :=
  flat_map (fun c => if test_x fs c then [version_check c] else []) cands.

(** A [python -m venv] of the runtime directory that exits with status
    0 has put a working interpreter of the required version there. *)
Definition venv_installs (sh : shell)
    (run_tool : string -> list string -> FS.t -> nat * FS.t) : Prop :=
  forall bootstrap (fs fs' : FS.t),
    run_tool bootstrap ["-m"; "venv"; RUNTIME_DIR sh] fs = (0, fs') ->
    reported_version fs' (RUNTIME_PYTHON sh) = Some required_version.

(** A [pip] run of the runtime's interpreter that exits with status 0
    leaves that interpreter working and the runtime directory in
    place. *)
Definition pip_preserves (sh : shell)
    (run_tool : string -> list string -> FS.t -> nat * FS.t) : Prop :=
  forall args (fs fs' : FS.t),
    run_tool (RUNTIME_PYTHON sh) ("-m" :: "pip" :: args) fs = (0, fs') ->
    reported_version fs (RUNTIME_PYTHON sh) = Some required_version ->
    reported_version fs' (RUNTIME_PYTHON sh) = Some required_version.

(** The event a command leaves when it runs. *)
Definition cmd_event (c : cmd) : event :=
  match c with
  | CRmRf dir => EvRmRf dir
  | CMkdirP dir => EvMkdirP dir
  | CEcho line => EvEcho line
  | CRun prog args => EvRun prog args
  | CPrintfTo path data => EvWrite path data
  end.

(** An empty directory at [dir], directories at the names that lead
    to it, everything else as in [fs]. *)
Definition emptied (dir : string) (fs : FS.t) (path : string) : option node :=
  if String.eqb dir path then Some Dir
  else if under dir path then None
  else if bool_decide (path ∈ ancestors dir) then Some Dir
  else fs !! path.

(** Everything [ensure_runtime] itself may do: read the marker, ask an
    interpreter for its version, print a line, delete or create the
    runtime directory, create the venv in it, run [pip] with the
    runtime's interpreter, and write the marker. *)
Inductive provisioning_event (sh : shell) : event -> Prop :=
| PE_cat : provisioning_event sh (EvCat (marker_path sh))
| PE_check_runtime :
    provisioning_event sh (version_check (RUNTIME_PYTHON sh))
| PE_check_candidate c :
    In c (candidates sh) -> provisioning_event sh (version_check c)
| PE_echo line : provisioning_event sh (EvEcho line)
| PE_rm : provisioning_event sh (EvRmRf (RUNTIME_DIR sh))
| PE_mkdir : provisioning_event sh (EvMkdirP (RUNTIME_DIR sh))
| PE_venv bootstrap :
    provisioning_event sh (EvRun bootstrap ["-m"; "venv"; RUNTIME_DIR sh])
| PE_pip_upgrade :
    provisioning_event sh
      (EvRun (RUNTIME_PYTHON sh)
         ["-m"; "pip"; "install"; "--upgrade"; "pip"; "setuptools"; "wheel"])
| PE_pip_install :
    provisioning_event sh
      (EvRun (RUNTIME_PYTHON sh) ["-m"; "pip"; "install"; "-e"; PROJECT_DIR sh])
| PE_marker :
    provisioning_event sh (EvWrite (marker_path sh) (required_version +:+ nl)).

End ProvisionerNotions.

(** ** scripts/install_app.sh: the bundle and the script as a whole *)

Module Installer.
Import Str FS Provisioner.

Definition APP_NAME : string := "ClickSpeak".
Definition APP_BUNDLE : string := "/Applications/" +:+ APP_NAME +:+ ".app".
Definition LEGACY_APP_BUNDLE : string := "/Applications/clickspeak.app".

(** [[ -d path ]] *)
Definition test_d (fs : FS.t) (path : string) : bool :=
  match fs !! path with
  | Some Dir => true
  | _ => false
  end.

(** [cp -n src dst]: copy a regular file unless the destination is
    there already. *)
Definition cp_n (src dst : string) (fs : FS.t) : FS.t :=
  match fs !! src, fs !! dst with
  | Some (Reg f), None => <[dst := Reg f]> fs
  | _, _ => fs
  end.

(** The external programs the script runs: for a command run for its
    effect, its exit status and the file system it leaves; for a
    command run inside [$(...)], its exit status and what it
    prints. *)
Record tools := Tools {
  run_tool : string -> list string -> FS.t -> nat * FS.t;
  capture : string -> list string -> FS.t -> nat * string
}.

(** A script under [set -e]: every step either goes on with a value or
    ends the script with an exit status. The state is the file system
    and the events so far. *)
Inductive step (A : Type) :=
| Next (a : A)
| Exit (status : nat).
Arguments Next {A} a.
Arguments Exit {A} status.

Definition state : Type := FS.t * list event.
Definition M (A : Type) : Type := state -> step A * state.

Definition ret {A} (a : A) : M A := fun st => (Next a, st).

Definition bind {A B} (c : M A) (k : A -> M B) : M B :=
  fun st =>
    match c st with
    | (Next a, st') => k a st'
    | (Exit status, st') => (Exit status, st')
    end.

Notation "x <- c ;; k" := (bind c (fun x => k))
  (at level 100, c at next level, right associativity).
Notation "c ;; k" := (bind c (fun _ => k))
  (at level 100, right associativity).

Definition exit {A} (status : nat) : M A := fun st => (Exit status, st).

(** A command that has come back with [status]: under [set -e] a
    status other than 0 ends the script with it. *)
Definition errexit (status : nat) : step unit :=
  match status with
  | 0 => Next tt
  | _ => Exit status
  end.

Definition echo (line : string) : M unit :=
  fun '(fs, tr) => (Next tt, (fs, tr ++ [EvEcho line])).

Definition do_mkdir_p (dir : string) : M unit :=
  fun '(fs, tr) =>
    let '(ok, fs') := mkdir_p dir fs in
    (errexit (if ok then 0 else 1), (fs', tr ++ [EvMkdirP dir])).

Definition do_rm_rf (dir : string) : M unit :=
  fun '(fs, tr) => (Next tt, (rm_rf dir fs, tr ++ [EvRmRf dir])).

(** [cat > path <<'EOF' ...] *)
Definition write_file (path data : string) : M unit :=
  fun '(fs, tr) =>
    match write path data fs with
    | Some fs' => (Next tt, (fs', tr ++ [EvWrite path data]))
    | None => (Exit 1, (fs, tr))
    end.

Definition test (t : FS.t -> bool) : M bool :=
  fun '(fs, tr) => (Next (t fs), (fs, tr)).

Section Script.

Variable sh : shell.
Variable ext : tools.

(** A simple command. *)
Definition run (prog : string) (args : list string) : M unit :=
  fun '(fs, tr) =>
    let '(status, fs') := run_tool ext prog args fs in
    (errexit status, (fs', tr ++ [EvRun prog args])).

(** [command || true] *)
Definition run_or_true (prog : string) (args : list string) : M unit :=
  fun '(fs, tr) =>
    let '(_, fs') := run_tool ext prog args fs in
    (Next tt, (fs', tr ++ [EvRun prog args])).

(** [var="$(command)"]: the status of the assignment is the status of
    the command. *)
Definition assign (prog : string) (args : list string) : M string :=
  fun '(fs, tr) =>
    let '(status, out) := capture ext prog args fs in
    (match status with
     | 0 => Next (command_substitution out)
     | _ => Exit status
     end,
     (fs, tr ++ [EvRun prog args])).

(** [$(command)] inside the words of another command: its status is
    lost. *)
Definition substitute (prog : string) (args : list string) : M string :=
  fun '(fs, tr) =>
    let '(_, out) := capture ext prog args fs in
    (Next (command_substitution out), (fs, tr ++ [EvRun prog args])).

(** [cp -n src dst 2>/dev/null || true] *)
Definition cp_n_or_true (src dst_dir name : string) : M unit :=
  fun '(fs, tr) =>
    (Next tt,
     (cp_n src (dst_dir +:+ name) fs, tr ++ [EvRun "cp" ["-n"; src; dst_dir]])).

(** The call of [ensure_runtime] at the top level of the script. *)
Definition do_ensure_runtime : M unit :=
  fun '(fs, tr) =>
    let '(status, fs', tr') := ensure_runtime sh (run_tool ext) fs in
    (errexit status, (fs', tr ++ tr')).

Definition lines (ls : list string) : string :=
  fold_right (fun l rest => l +:+ nl +:+ rest) "" ls.

(** The here-document of [write_info_plist]. *)
Definition info_plist : string :=
  lines
    [ "<?xml version=" +:+ dquote +:+ "1.0" +:+ dquote +:+ " encoding="
        +:+ dquote +:+ "UTF-8" +:+ dquote +:+ "?>";
      "<!DOCTYPE plist PUBLIC " +:+ dquote +:+ "-//Apple//DTD PLIST 1.0//EN"
        +:+ dquote +:+ " " +:+ dquote
        +:+ "http://www.apple.com/DTDs/PropertyList-1.0.dtd" +:+ dquote +:+ ">";
      "<plist version=" +:+ dquote +:+ "1.0" +:+ dquote +:+ ">";
      "<dict>";
      "    <key>CFBundleName</key>";
      "    <string>ClickSpeak</string>";
      "    <key>CFBundleDisplayName</key>";
      "    <string>ClickSpeak</string>";
      "    <key>CFBundleIdentifier</key>";
      "    <string>com.lamosty.clickspeak</string>";
      "    <key>CFBundleVersion</key>";
      "    <string>0.1.0</string>";
      "    <key>CFBundleShortVersionString</key>";
      "    <string>0.1.0</string>";
      "    <key>CFBundleExecutable</key>";
      "    <string>ClickSpeak</string>";
      "    <key>CFBundleIconFile</key>";
      "    <string>ClickSpeak.icns</string>";
      "    <key>CFBundlePackageType</key>";
      "    <string>APPL</string>";
      "    <key>LSUIElement</key>";
      "    <true/>";
      "    <key>LSApplicationCategoryType</key>";
      "    <string>public.app-category.productivity</string>";
      "    <key>NSMicrophoneUsageDescription</key>";
      "    <string>ClickSpeak needs microphone access for voice-to-text transcription.</string>";
      "    <key>NSAppleEventsUsageDescription</key>";
      "    <string>ClickSpeak needs accessibility access to paste transcribed text into other apps.</string>";
      "    <key>NSInputMonitoringUsageDescription</key>";
      "    <string>ClickSpeak needs input monitoring permission to use the global hotkey (Option+Space).</string>";
      "    <key>NSHighResolutionCapable</key>";
      "    <true/>";
      "</dict>";
      "</plist>" ].

(** [write_info_plist] *)
Definition write_info_plist (bundle_path : string) : M unit :=
  write_file (bundle_path +:+ "/Contents/Info.plist") info_plist.

Definition sysconfig_include : string :=
  "import sysconfig; print(sysconfig.get_path('include'))".
Definition sysconfig_framework : string :=
  "import sysconfig; print(sysconfig.get_config_var('PYTHONFRAMEWORKPREFIX') or '')".
Definition sysconfig_libdir : string :=
  "import sysconfig; print(sysconfig.get_config_var('LIBDIR'))".
Definition sysconfig_ldversion : string :=
  "import sysconfig; print(sysconfig.get_config_var('LDVERSION') or sysconfig.get_config_var('VERSION'))".

(** The two linking shapes of [compile_launcher]. *)
Definition cc_framework (binary source include_dir framework_prefix : string)
  : list string :=
  [ "-o"; binary; source; "-I" +:+ include_dir; "-F" +:+ framework_prefix;
    "-framework"; "Python"; "-Wl,-rpath," +:+ framework_prefix; "-O2" ].

Definition cc_library (binary source include_dir libdir ldversion : string)
  : list string :=
  [ "-o"; binary; source; "-I" +:+ include_dir; "-L" +:+ libdir;
    "-lpython" +:+ ldversion; "-Wl,-rpath," +:+ libdir; "-O2" ].

(** [compile_launcher] *)
Definition compile_launcher (bundle_path python_path : string) : M unit :=
  let source := PROJECT_DIR sh +:+ "/src/launcher.c" in
  let binary := bundle_path +:+ "/Contents/MacOS/ClickSpeak" in
  do_mkdir_p (bundle_path +:+ "/Contents/MacOS") ;;
  echo "[clickspeak] Compiling native launcher..." ;;
  include_dir <- assign python_path ["-c"; sysconfig_include] ;;
  is_dir <- test (fun fs => test_d fs include_dir) ;;
  if negb is_dir then
    echo ("[clickspeak] ERROR: Python include directory not found: "
          +:+ include_dir) ;;
    echo "[clickspeak] Install Python 3.12 development headers." ;;
    exit 1
  else
    framework_prefix <- assign python_path ["-c"; sysconfig_framework] ;;
    (if negb (String.eqb framework_prefix "") then
       echo ("[clickspeak] Using framework Python at " +:+ framework_prefix) ;;
       run "cc" (cc_framework binary source include_dir framework_prefix)
     else
       libdir <- assign python_path ["-c"; sysconfig_libdir] ;;
       ldversion <- assign python_path ["-c"; sysconfig_ldversion] ;;
       echo ("[clickspeak] Using non-framework Python: libdir=" +:+ libdir) ;;
       run "cc" (cc_library binary source include_dir libdir ldversion)) ;;
    echo ("[clickspeak] Native launcher compiled: " +:+ binary) ;;
    binary_type <- substitute "file" [binary] ;;
    echo ("[clickspeak] Binary type: " +:+ binary_type).

(** [write_bundle] *)
Definition write_bundle (bundle_path : string) : M unit :=
  do_mkdir_p (bundle_path +:+ "/Contents/MacOS") ;;
  do_mkdir_p (bundle_path +:+ "/Contents/Resources") ;;
  write_info_plist bundle_path ;;
  compile_launcher bundle_path (RUNTIME_PYTHON sh) ;;
  has_icon <- test (fun fs => test_f fs (PROJECT_DIR sh +:+ "/ClickSpeak.icns")) ;;
  (if has_icon then
     cp_n_or_true (PROJECT_DIR sh +:+ "/ClickSpeak.icns")
       (bundle_path +:+ "/Contents/Resources/") "ClickSpeak.icns"
   else ret tt) ;;
  echo ("[clickspeak] Wrote bundle " +:+ bundle_path).

(** Lines 202-214: the script itself. *)
Definition install_app : M unit :=
  echo "[clickspeak] Building launch bundles..." ;;
  do_ensure_runtime ;;
  legacy <- test (fun fs => test_d fs LEGACY_APP_BUNDLE) ;;
  (if legacy then do_rm_rf LEGACY_APP_BUNDLE else ret tt) ;;
  write_bundle APP_BUNDLE ;;
  run "codesign" ["--force"; "--deep"; "--sign"; "-"; APP_BUNDLE] ;;
  echo "[clickspeak] Launch bundles ready" ;;
  echo "[clickspeak] Quick permissions check:" ;;
  run_or_true (APP_BUNDLE +:+ "/Contents/MacOS/ClickSpeak") ["--check-permissions"].

(** The exit status of the script, the file system it leaves and what
    it did. *)
Definition run_script (fs : FS.t) : nat * FS.t * list event :=
  match install_app (fs, []) with
  | (Next _, (fs', tr)) => (0, fs', tr)
  | (Exit status, (fs', tr)) => (status, fs', tr)
  end.

End Script.

End Installer.

(** ** The specification's words for the bundle *)

Module InstallerNotions.
Import Str FS Provisioner Installer.

(** The runs of the C compiler in a trace, by their arguments. *)
Definition compiles (tr : list event) : list (list string) :=
  omap (fun e =>
          match e with
          | EvRun prog args => if String.eqb prog "cc" then Some args else None
          | _ => None
          end) tr.

Definition binary_of (bundle_path : string) : string :=
  bundle_path +:+ "/Contents/MacOS/ClickSpeak".

Definition source_of (sh : shell) : string :=
  PROJECT_DIR sh +:+ "/src/launcher.c".

(** The arguments of a compiler run have one of the two linking
    shapes: against the framework at a non-empty prefix, or against
    the versioned library of a library directory. *)
Definition link_shape (sh : shell) (bundle_path : string) (args : list string)
  : Prop :=
  exists include_dir,
    (exists framework_prefix,
        framework_prefix <> "" /\
        args = cc_framework (binary_of bundle_path) (source_of sh)
                 include_dir framework_prefix) \/
    (exists libdir ldversion,
        args = cc_library (binary_of bundle_path) (source_of sh)
                 include_dir libdir ldversion).

(** A step only adds events: what it does from a state with events
    [tr] is what it does from the same file system with no events,
    after [tr]. *)
Definition appends {A} (c : M A) : Prop :=
  forall fs tr,
    c (fs, tr) = (let '(r, (fs', evs)) := c (fs, []) in (r, (fs', tr ++ evs))).

(** The arguments of the permissions check that ends the script. *)
Definition is_permissions_check (args : list string) : bool :=
  match args with
  | [a] => String.eqb a "--check-permissions"
  | _ => false
  end.

(** The same external programs, except that every run with the
    arguments of the permissions check comes back with [status]. *)
Definition with_check_result (ext : tools) (status : nat) : tools :=
  Tools
    (fun prog args fs =>
       if is_permissions_check args
       then (status, (run_tool ext prog args fs).2)
       else run_tool ext prog args fs)
    (capture ext).

End InstallerNotions.

(** ** More sample machines *)

Module MoreSamples.
Import Str FS Provisioner Installer Samples.

(** Both overrides and [HOME] are set. *)
Definition host_overrides : Launcher.host :=
  mk_host (<[ "HOME" := "/Users/me" ]> env_overrides)
    (<[ "/Users/me/clickspeak" := Dir ]> fs_ready) Some.

(** No runtime, and [fork] fails. *)
Definition host_no_fork : Launcher.host :=
  Launcher.Host env_home fs_fresh [] Launcher.ForkFailed
    "/Applications/ClickSpeak.app/Contents/MacOS/ClickSpeak"
    Some (fun _ => ok_status) (fun _ => ok_status)
    (fun _ => Launcher.PyReturns 0).

(** The application leaves through [sys.exit(3)]. *)
Definition host_sys_exit : Launcher.host :=
  Launcher.Host env_home fs_ready
    ["/Applications/ClickSpeak.app/Contents/MacOS/ClickSpeak"; "--version"]
    (Launcher.Forked 4242)
    "/Applications/ClickSpeak.app/Contents/MacOS/ClickSpeak"
    Some (fun _ => ok_status) (fun _ => ok_status)
    (fun _ => Launcher.PyExits 3).

(** The development headers of the runtime. *)
Definition include_dir : string := "/opt/homebrew/include/python3.12".
Definition framework_dir : string := "/opt/homebrew/Frameworks".

(** External programs of a machine with a framework build of Python:
    the venv and pip runs leave a working interpreter, [cc] leaves the
    binary it was asked for, everything else succeeds and changes
    nothing. *)
Definition ext_framework : tools :=
  Tools
    (fun prog args fs =>
       if String.eqb prog "cc" then
         (0, <[ nth 1 args "" := Reg (File true None None) ]> fs)
       else if String.eqb prog "codesign" then (0, fs)
       else if String.eqb (nth 0 args "") "-m" then tool0 prog args fs
       else (1, fs))
    (fun prog args fs =>
       if String.eqb (nth 1 args "") sysconfig_include
       then (0, include_dir +:+ nl)
       else if String.eqb (nth 1 args "") sysconfig_framework
       then (0, framework_dir +:+ nl)
       else (0, "Mach-O 64-bit executable arm64" +:+ nl)).

(** The same programs with a C compiler that gives up with status 4. *)
Definition ext_cc_fails : tools :=
  Tools
    (fun prog args fs =>
       if String.eqb prog "cc" then (4, fs)
       else run_tool ext_framework prog args fs)
    (capture ext_framework).

(** A machine with the headers and the directories the bundle and
    the runtime go into. *)
Definition fs_with_headers : FS.t :=
  <[ include_dir := Dir ]>
    (<[ "/Applications" := Dir ]> fs_fresh).

(** A machine that still has the bundle under its old name. *)
Definition fs_legacy : FS.t :=
  <[ LEGACY_APP_BUNDLE := Dir ]>
    (<[ LEGACY_APP_BUNDLE +:+ "/Contents/Info.plist" := manifest_file ]>
       fs_with_headers).

(** A machine where a regular file stands where the bundle is to
    go. *)
Definition fs_bundle_blocked : FS.t :=
  <[ APP_BUNDLE := manifest_file ]> fs_with_headers.

End MoreSamples.

(** * Properties *)

(** ** Strings and files *)

Module StrFacts.
Import Str.

Lemma keep_all n s : String.length s <= n -> keep n s = s.
Proof.
  revert n; induction s as [|c r IH]; intros [|n] Hn; simpl in *;
    try reflexivity; try lia.
  f_equal. apply IH. lia.
Qed.

Lemma keep_length n s : String.length (keep n s) <= n.
Proof.
  revert s; induction n as [|n IH]; intros [|c r]; simpl; try lia.
  specialize (IH r). lia.
Qed.

Lemma snprintf_fits size s :
  (N.of_nat (String.length s) < size)%N -> snprintf size s = s.
Proof. intros H. unfold snprintf. apply keep_all. lia. Qed.

Lemma length_append (s1 s2 : string) :
  String.length (s1 +:+ s2) = String.length s1 + String.length s2.
Proof. induction s1 as [|c r IH]; simpl; [reflexivity|]. rewrite IH. lia. Qed.

Lemma append_assoc (a b c : string) : (a +:+ b) +:+ c = a +:+ (b +:+ c).
Proof.
  induction a as [|x a IH]; [reflexivity|].
  change (String x ((a +:+ b) +:+ c) = String x (a +:+ b +:+ c)).
  rewrite IH. reflexivity.
Qed.

Lemma append_cons c (r s : string) : String c r +:+ s = String c (r +:+ s).
Proof. reflexivity. Qed.

Lemma append_nil_l (s : string) : "" +:+ s = s.
Proof. reflexivity. Qed.

Lemma strip_no_newline_end s :
  strip_trailing_newlines (s +:+ nl) = strip_trailing_newlines s.
Proof.
  induction s as [|c r IH]; [reflexivity|].
  rewrite append_cons. simpl. rewrite IH. reflexivity.
Qed.

Lemma drop_nul_app (a b : string) :
  drop_nul (a +:+ b) = drop_nul a +:+ drop_nul b.
Proof.
  induction a as [|c r IH]; [reflexivity|].
  rewrite append_cons. simpl. destruct (Ascii.eqb c "000"); [exact IH|].
  rewrite append_cons, IH. reflexivity.
Qed.

(** The newline [echo] adds is gone after the command substitution. *)
Lemma command_substitution_nl s :
  command_substitution (s +:+ nl) = command_substitution s.
Proof.
  unfold command_substitution. rewrite drop_nul_app.
  change (drop_nul nl) with nl. apply strip_no_newline_end.
Qed.

Lemma has_char_app c (a b : string) :
  has_char c (a +:+ b) = has_char c a || has_char c b.
Proof.
  induction a as [|x a IH]; [reflexivity|].
  rewrite append_cons. simpl. rewrite IH. apply orb_assoc.
Qed.

End StrFacts.

Module FSFacts.
Import Str FS StrFacts.

Lemma under_child dir name : under dir (dir +:+ "/" +:+ name) = true.
Proof.
  unfold under. apply orb_true_iff. right.
  induction dir as [|c r IH]; simpl.
  - destruct (ascii_dec "/" "/"); [|congruence].
    destruct name; reflexivity.
  - destruct (ascii_dec c c); [|congruence]. exact IH.
Qed.

Lemma under_refl dir : under dir dir = true.
Proof. unfold under. rewrite String.eqb_refl. reflexivity. Qed.

Lemma prefix_length (p s : string) :
  String.prefix p s = true -> String.length p <= String.length s.
Proof.
  revert s. induction p as [|c p IH]; intros [|c' s]; simpl; try lia;
    try discriminate.
  destruct (ascii_dec c c'); [|discriminate]. intros H. apply IH in H. lia.
Qed.

(** What lies under a directory has a name at least as long. *)
Lemma under_length dir path :
  under dir path = true -> String.length dir <= String.length path.
Proof.
  unfold under. intros H. apply orb_true_iff in H as [H|H].
  - apply String.eqb_eq in H. subst. lia.
  - apply prefix_length in H. rewrite length_append in H. simpl in H. lia.
Qed.

Lemma rm_rf_lookup_under dir path fs :
  under dir path = true -> rm_rf dir fs !! path = None.
Proof.
  intros H. unfold rm_rf. apply map_lookup_filter_None. right.
  intros x _. simpl. rewrite H. discriminate.
Qed.

Lemma rm_rf_lookup_outside dir path (fs : FS.t) :
  under dir path = false -> rm_rf dir fs !! path = fs !! path.
Proof.
  intros H. unfold rm_rf. destruct (fs !! path) as [n|] eqn:Hn.
  - apply map_lookup_filter_Some. split; [exact Hn|exact H].
  - apply map_lookup_filter_None. left. exact Hn.
Qed.

Lemma rm_rf_lookup_absent dir path (fs : FS.t) :
  fs !! path = None -> rm_rf dir fs !! path = None.
Proof. intros H. apply map_lookup_filter_None. left. exact H. Qed.

(** *** [mkdir -p] *)

(** The names that lead to a path are shorter than the path. *)
Lemma ancestors_from_length before rest a :
  In a (ancestors_from before rest) ->
  String.length a < String.length before + String.length rest.
Proof.
  revert before. induction rest as [|c r IH]; intros before; simpl;
    [intros []|].
  intros H. apply in_app_or in H as [H|H].
  - destruct (Ascii.eqb c "/" && negb (String.eqb before "")); [|destruct H].
    destruct H as [<-|[]]. lia.
  - apply IH in H. rewrite length_append in H. simpl in H. lia.
Qed.

Lemma ancestors_length path a :
  In a (ancestors path) -> String.length a < String.length path.
Proof. intros H. apply ancestors_from_length in H. exact H. Qed.

Lemma mkdirs_lookup_other dirs (fs : FS.t) path :
  ~ In path dirs -> (mkdirs dirs fs).2 !! path = fs !! path.
Proof.
  revert fs. induction dirs as [|d dirs IH]; intros fs Hp; [reflexivity|].
  simpl. assert (Hd : d <> path) by (intros ->; apply Hp; left; reflexivity).
  assert (Hrest : ~ In path dirs) by (intros H; apply Hp; right; exact H).
  destruct (fs !! d) as [[|f]|].
  - apply IH. exact Hrest.
  - reflexivity.
  - rewrite IH by exact Hrest. apply lookup_insert_ne. exact Hd.
Qed.

Lemma mkdirs_made dirs (fs : FS.t) d :
  (mkdirs dirs fs).1 = true -> In d dirs -> (mkdirs dirs fs).2 !! d = Some Dir.
Proof.
  revert fs. induction dirs as [|d' dirs IH]; intros fs Hok Hd; [destruct Hd|].
  simpl in *.
  destruct (in_dec string_dec d dirs) as [Hin|Hout].
  - destruct (fs !! d') as [[|f]|]; [|discriminate|]; apply IH; assumption.
  - destruct Hd as [->|Hd]; [|contradiction].
    destruct (fs !! d) as [[|f]|] eqn:E; [|discriminate|].
    + rewrite mkdirs_lookup_other by exact Hout. exact E.
    + rewrite mkdirs_lookup_other by exact Hout. apply lookup_insert_eq.
Qed.

(** [mkdir -p] fails exactly when a regular file is in its way. *)
Lemma mkdirs_ok dirs (fs : FS.t) :
  (mkdirs dirs fs).1 = true <-> Forall (fun d => test_f fs d = false) dirs.
Proof.
  revert fs. induction dirs as [|d dirs IH]; intros fs; simpl.
  - split; [constructor|reflexivity].
  - unfold test_f at 1.
    destruct (fs !! d) as [[|f]|] eqn:E.
    + rewrite IH. split.
      * intros H. constructor; [unfold test_f; rewrite E; reflexivity|exact H].
      * intros H. inversion H. assumption.
    + split; [discriminate|]. intros H. inversion H as [|? ? Hd _]; subst.
      unfold test_f in Hd. rewrite E in Hd. discriminate.
    + rewrite IH. split.
      * intros H. constructor; [unfold test_f; rewrite E; reflexivity|].
        eapply Forall_impl; [exact H|]. intros d' Hd'. simpl in Hd'.
        unfold test_f in *. destruct (decide (d = d')) as [->|Hne].
        -- rewrite E. reflexivity.
        -- rewrite lookup_insert_ne in Hd' by exact Hne. exact Hd'.
      * intros H. inversion H as [|? ? _ Hrest]; subst.
        eapply Forall_impl; [exact Hrest|]. intros d' Hd'. simpl in *.
        unfold test_f in *. destruct (decide (d = d')) as [->|Hne].
        -- rewrite lookup_insert_eq. reflexivity.
        -- rewrite lookup_insert_ne by exact Hne. exact Hd'.
Qed.

Lemma mkdir_p_lookup_other dir path (fs : FS.t) :
  ~ In path (ancestors dir ++ [dir]) ->
  (mkdir_p dir fs).2 !! path = fs !! path.
Proof. apply mkdirs_lookup_other. Qed.

(** A name longer than [dir] is not touched by [mkdir -p dir]. *)
Lemma mkdir_p_spares_longer dir path :
  String.length dir < String.length path ->
  ~ In path (ancestors dir ++ [dir]).
Proof.
  intros Hlen H. apply in_app_or in H as [H|[<-|[]]]; [|lia].
  apply ancestors_length in H. lia.
Qed.

Lemma write_lookup path data (fs fs' : FS.t) :
  write path data fs = Some fs' ->
  cat fs' path = Some data /\
  test_f fs' path = true /\
  forall q, q <> path -> fs' !! q = fs !! q.
Proof.
  unfold write, cat, test_f.
  destruct (negb (parent_is_directory fs path)); [discriminate|].
  destruct (fs !! path) as [[|f]|]; [discriminate| |];
    intros H; injection H as <-; rewrite lookup_insert_eq;
    (split; [reflexivity|]); (split; [reflexivity|]);
    intros q Hq; apply lookup_insert_ne; congruence.
Qed.

End FSFacts.

(** ** The provisioner *)

Module ProvisionerProofs.
Import Str FS Provisioner ProvisionerSpec StrFacts FSFacts.

Lemma runtime_python_has_slash sh : has_slash (RUNTIME_PYTHON sh) = true.
Proof.
  unfold has_slash, RUNTIME_PYTHON. rewrite has_char_app.
  apply orb_true_iff. right. reflexivity.
Qed.

Lemma program_of_runtime_python sh :
  program_of sh (RUNTIME_PYTHON sh) = Some (RUNTIME_PYTHON sh).
Proof. unfold program_of. rewrite runtime_python_has_slash. reflexivity. Qed.

Lemma python_is_supported_qualifies sh fs p :
  (python_is_supported sh fs p).1 = true <-> qualifies sh fs p.
Proof.
  unfold python_is_supported, qualifies, python_version.
  destruct (test_x fs p); simpl;
    [|split; [discriminate|intros [? _]; discriminate]].
  destruct (program_of sh p) as [program|]; simpl.
  - unfold reported_version, version_of.
    destruct (run_version fs program) as [out|] eqn:Hrun; simpl.
    + rewrite String.eqb_eq. split.
      * intros H. split; [reflexivity|]. exists program.
        split; [reflexivity|]. rewrite Hrun. simpl. rewrite H. reflexivity.
      * intros [_ (program' & E & H)]. injection E as <-.
        rewrite Hrun in H. simpl in H. congruence.
    + split; [discriminate|]. intros [_ (program' & E & H)].
      injection E as <-. rewrite Hrun in H. discriminate.
  - split; [discriminate|]. intros [_ (program' & E & _)]. discriminate.
Qed.

Lemma reported_executable fs p v :
  reported_version fs p = Some v -> test_x fs p = true.
Proof.
  unfold reported_version, version_of, run_version, test_x.
  destruct (fs !! p) as [[|f]|]; try discriminate.
  destruct (f_exec f); [reflexivity|discriminate].
Qed.

(** For the runtime's own interpreter, whose name has a slash, to
    qualify is to report the required version. *)
Lemma qualifies_runtime_python sh fs :
  qualifies sh fs (RUNTIME_PYTHON sh) <->
  reported_version fs (RUNTIME_PYTHON sh) = Some required_version.
Proof.
  unfold qualifies. rewrite program_of_runtime_python. split.
  - intros [_ (program & E & H)]. injection E as <-. exact H.
  - intros H. split; [eapply reported_executable; exact H|]. eauto.
Qed.

Lemma python_is_supported_probe sh fs c :
  (python_is_supported sh fs c).2 = if test_x fs c then [version_check c] else [].
Proof.
  unfold python_is_supported, python_version.
  destruct (test_x fs c); simpl; [|reflexivity].
  destruct (match program_of sh c with Some p => run_version fs p | None => None end);
    reflexivity.
Qed.

Lemma runtime_is_ready_bool sh fs :
  (runtime_is_ready sh fs).1 =
  test_x fs (RUNTIME_PYTHON sh) && test_f fs (marker_path sh)
  && String.eqb
       (command_substitution (default "" (cat fs (marker_path sh))))
       required_version
  && (python_is_supported sh fs (RUNTIME_PYTHON sh)).1.
Proof.
  unfold runtime_is_ready.
  destruct (test_x fs (RUNTIME_PYTHON sh)); simpl; [|reflexivity].
  destruct (test_f fs (marker_path sh)); simpl; [|reflexivity].
  destruct (String.eqb _ required_version); simpl; [|reflexivity].
  destruct (python_is_supported sh fs (RUNTIME_PYTHON sh)); reflexivity.
Qed.

Lemma ready_runtime_is_ready sh fs :
  ready sh fs -> (runtime_is_ready sh fs).1 = true.
Proof.
  rewrite runtime_is_ready_bool, !andb_true_iff, String.eqb_eq,
    python_is_supported_qualifies, qualifies_runtime_python.
  unfold ready, interpreter_executable, marker_exists, recorded_version,
    version_of, test_x, test_f, cat.
  intros ([f [Hpy Hx]] & [m Hm] & Hrec & Hrep).
  rewrite Hpy, Hm in *. rewrite Hx in *.
  destruct m as [|m]; simpl in *; [discriminate|].
  destruct (f_data m); simpl in *; [|discriminate].
  repeat split; congruence.
Qed.

Lemma runtime_is_ready_sound sh fs :
  (runtime_is_ready sh fs).1 = true -> ready sh fs.
Proof.
  rewrite runtime_is_ready_bool, !andb_true_iff, String.eqb_eq,
    python_is_supported_qualifies, qualifies_runtime_python.
  unfold ready, interpreter_executable, marker_exists, recorded_version,
    reported_version, version_of, run_version, test_x, test_f, cat.
  intros [[[Hx Hf] Hv] Hq].
  destruct (fs !! RUNTIME_PYTHON sh) as [[|f]|]; simpl in *; try discriminate.
  destruct (fs !! marker_path sh) as [[|m]|]; simpl in *; try discriminate.
  destruct (f_exec f) eqn:Hfx; simpl in *; [|discriminate].
  destruct (f_data m); simpl in *; [|vm_compute in Hv; discriminate].
  repeat split; eauto. congruence.
Qed.

Lemma marker_absent_not_ready sh (fs : FS.t) :
  fs !! marker_path sh = None -> (runtime_is_ready sh fs).1 = false.
Proof.
  intros H. rewrite runtime_is_ready_bool. unfold test_f. rewrite H.
  rewrite andb_false_r. reflexivity.
Qed.

Lemma runtime_is_ready_trace sh fs :
  (runtime_is_ready sh fs).1 = true ->
  (runtime_is_ready sh fs).2 =
    [EvCat (marker_path sh); version_check (RUNTIME_PYTHON sh)].
Proof.
  unfold runtime_is_ready.
  pose proof (python_is_supported_probe sh fs (RUNTIME_PYTHON sh)) as Hp.
  destruct (test_x fs (RUNTIME_PYTHON sh)); simpl; [|discriminate].
  destruct (test_f fs (marker_path sh)); simpl; [|discriminate].
  destruct (String.eqb _ required_version); simpl; [|discriminate].
  destruct (python_is_supported sh fs (RUNTIME_PYTHON sh)) as [ok tr].
  simpl in *. subst tr. reflexivity.
Qed.

(** C3. The readiness predicate of the provisioner holds exactly when
    the interpreter executable is present and executable, the marker
    file exists, the version recorded in the marker is the required
    major.minor version, and the version the interpreter reports of
    itself is that same version. *)
Theorem runtime_is_ready_iff_ready sh fs :
  (runtime_is_ready sh fs).1 = true <->
  (interpreter_executable sh fs /\
   marker_exists sh fs /\
   recorded_version sh fs = Some required_version /\
   reported_version fs (RUNTIME_PYTHON sh) = Some required_version).
Proof.
  split; [apply runtime_is_ready_sound|apply ready_runtime_is_ready].
Qed.

Lemma runtime_is_ready_iff_ready_witness :
  (runtime_is_ready Samples.sh0 Samples.fs_ready).1 = true /\
  recorded_version Samples.sh0 Samples.fs_ready = Some required_version.
Proof.
  assert (H : (runtime_is_ready Samples.sh0 Samples.fs_ready).1 = true)
    by (vm_compute; reflexivity).
  split; [exact H|].
  apply (proj1 (runtime_is_ready_iff_ready Samples.sh0 Samples.fs_ready) H).
Defined.

(** C4. On an installation that satisfies the ready invariant,
    [ensure_runtime] returns status 0 and leaves the file system as it
    was; it writes nothing, and the only program it runs is the
    version check of the runtime's interpreter. Running it again gives
    the same result. *)
Theorem ensure_runtime_ready_noop sh run_tool fs :
  ready sh fs ->
  exists tr,
    ensure_runtime sh run_tool fs = (0, fs, tr) /\
    Forall (fun e => is_write e = false) tr /\
    (forall prog args,
        In (EvRun prog args) tr ->
        EvRun prog args = version_check (RUNTIME_PYTHON sh)) /\
    ensure_runtime sh run_tool (ensure_runtime sh run_tool fs).1.2
      = (0, fs, tr).
Proof.
  intros Hready. apply ready_runtime_is_ready in Hready.
  pose proof (runtime_is_ready_trace sh fs Hready) as Htr.
  assert (Hrun : ensure_runtime sh run_tool fs =
            (0, fs, [EvCat (marker_path sh);
                     version_check (RUNTIME_PYTHON sh)])).
  { unfold ensure_runtime.
    destruct (runtime_is_ready sh fs) as [r tr0]. simpl in *.
    subst. reflexivity. }
  eexists. split; [exact Hrun|]. split; [|split].
  - repeat constructor.
  - intros prog args [H|[H|[]]]; [discriminate | symmetry; exact H].
  - rewrite Hrun. simpl. exact Hrun.
Qed.

Lemma ensure_runtime_ready_noop_witness :
  ready Samples.sh0 Samples.fs_ready /\
  exists tr,
    ensure_runtime Samples.sh0 Samples.tool0 Samples.fs_ready
      = (0, Samples.fs_ready, tr).
Proof.
  assert (Hready : ready Samples.sh0 Samples.fs_ready).
  { repeat split; try (vm_compute; reflexivity).
    - eexists. split; vm_compute; reflexivity.
    - eexists. vm_compute. reflexivity. }
  split; [exact Hready|].
  destruct (ensure_runtime_ready_noop Samples.sh0 Samples.tool0
              Samples.fs_ready Hready) as (tr & H & _).
  exists tr. exact H.
Defined.

(** *** The ways [ensure_runtime] can go *)

Lemma ensure_runtime_cases sh run_tool fs :
  ((runtime_is_ready sh fs).1 = true /\
   ensure_runtime sh run_tool fs = (0, fs, (runtime_is_ready sh fs).2)) \/
  ((runtime_is_ready sh fs).1 = false /\
   bootstrap_python sh fs = "" /\
   ensure_runtime sh run_tool fs =
   (1, fs, (runtime_is_ready sh fs).2 ++ (resolve_host_python sh fs).2
           ++ map EvEcho unavailable_message)) \/
  ((runtime_is_ready sh fs).1 = false /\
   bootstrap_python sh fs <> "" /\
   ensure_runtime sh run_tool fs =
   ((run_cmds run_tool (rebuild_cmds sh (bootstrap_python sh fs)) fs).1.1,
    (run_cmds run_tool (rebuild_cmds sh (bootstrap_python sh fs)) fs).1.2,
    (runtime_is_ready sh fs).2 ++ (resolve_host_python sh fs).2
    ++ (run_cmds run_tool (rebuild_cmds sh (bootstrap_python sh fs)) fs).2)).
Proof.
  unfold ensure_runtime, bootstrap_python.
  destruct (runtime_is_ready sh fs) as [ready tr0]. cbn [fst snd].
  destruct ready; [left; auto|right].
  destruct (resolve_host_python sh fs) as [[st out] tr1]. cbn [fst snd].
  destruct (String.eqb (command_substitution out) "") eqn:E.
  - left. apply String.eqb_eq in E. auto.
  - right. apply String.eqb_neq in E. split; [reflexivity|].
    split; [exact E|].
    destruct (run_cmds run_tool (rebuild_cmds sh (command_substitution out)) fs)
      as [[status fs'] tr2]. reflexivity.
Qed.

(** What [ensure_runtime] does before it changes anything only
    reads. *)
Lemma first_supported_events sh fs l e :
  In e (first_supported sh fs l).2 -> exists c, In c l /\ e = version_check c.
Proof.
  induction l as [|c l IH]; simpl; [intros []|].
  pose proof (python_is_supported_probe sh fs c) as Hp.
  destruct (python_is_supported sh fs c) as [ok tr]. simpl in Hp. subst tr.
  assert (Hc : In e (if test_x fs c then [version_check c] else []) ->
               exists c', In c' (c :: l) /\ e = version_check c').
  { destruct (test_x fs c); [|intros []].
    intros [<-|[]]. exists c. split; [left|]; reflexivity. }
  destruct ok; [exact Hc|].
  destruct (first_supported sh fs l) as [r tr']. simpl in *.
  intros Hin. apply in_app_or in Hin as [Hin|Hin]; [exact (Hc Hin)|].
  destruct (IH Hin) as (c' & Hc' & ->). exists c'. split; [right|]; auto.
Qed.

Lemma runtime_is_ready_events sh fs e :
  In e (runtime_is_ready sh fs).2 ->
  e = EvCat (marker_path sh) \/ e = version_check (RUNTIME_PYTHON sh).
Proof.
  unfold runtime_is_ready.
  destruct (negb (test_x fs (RUNTIME_PYTHON sh))); [intros []|].
  destruct (negb (test_f fs (marker_path sh))); [intros []|].
  destruct (negb _); [intros [<-|[]]; auto|].
  pose proof (python_is_supported_probe sh fs (RUNTIME_PYTHON sh)) as Hp.
  destruct (python_is_supported sh fs (RUNTIME_PYTHON sh)) as [ok tr].
  simpl in Hp. subst tr. intros [<-|Hin]; [auto|].
  destruct (test_x fs (RUNTIME_PYTHON sh)); [|destruct Hin].
  destruct Hin as [<-|[]]. auto.
Qed.

Lemma read_only_checks sh fs :
  Forall (fun e => is_write e = false)
    ((runtime_is_ready sh fs).2 ++ (resolve_host_python sh fs).2).
Proof.
  apply Forall_app. split; apply List.Forall_forall; intros e Hin.
  - apply runtime_is_ready_events in Hin as [-> | ->]; reflexivity.
  - apply first_supported_events in Hin as (c & _ & ->). reflexivity.
Qed.

(** *** The rebuild *)

Lemma marker_under_runtime sh : under (RUNTIME_DIR sh) (marker_path sh) = true.
Proof. apply under_child. Qed.

Lemma marker_longer sh :
  String.length (RUNTIME_DIR sh) < String.length (marker_path sh).
Proof. unfold marker_path. rewrite !length_append. simpl. lia. Qed.

Lemma runtime_dir_ne_marker sh : RUNTIME_DIR sh <> marker_path sh.
Proof.
  intros H. apply (f_equal String.length) in H.
  pose proof (marker_longer sh). lia.
Qed.

Lemma marker_ne_python sh : marker_path sh <> RUNTIME_PYTHON sh.
Proof.
  unfold marker_path, RUNTIME_PYTHON. intros H.
  apply (inj (String.append (RUNTIME_DIR sh))) in H.
  vm_compute in H. discriminate.
Qed.

Lemma run_cmds_app run_tool cs1 cs2 (fs : FS.t) :
  run_cmds run_tool (cs1 ++ cs2) fs =
  let '(status, fs1, tr1) := run_cmds run_tool cs1 fs in
  match status with
  | 0 =>
      let '(status2, fs2, tr2) := run_cmds run_tool cs2 fs1 in
      (status2, fs2, tr1 ++ tr2)
  | _ => (status, fs1, tr1)
  end.
Proof.
  revert fs. induction cs1 as [|c cs1 IH]; intros fs; simpl.
  - destruct (run_cmds run_tool cs2 fs) as [[st2 fs2] tr2]. reflexivity.
  - destruct (exec_cmd run_tool c fs) as [[st fs1] tr1].
    destruct st; [|reflexivity].
    rewrite IH.
    destruct (run_cmds run_tool cs1 fs1) as [[st1 fs1'] tr1'].
    destruct st1; [|reflexivity].
    destruct (run_cmds run_tool cs2 fs1') as [[st2 fs2] tr2].
    rewrite app_assoc. reflexivity.
Qed.

Lemma run_cmds_rm_first run_tool d rest (fs : FS.t) :
  run_cmds run_tool (CRmRf d :: rest) fs
  = ((run_cmds run_tool rest (rm_rf d fs)).1.1,
     (run_cmds run_tool rest (rm_rf d fs)).1.2,
     EvRmRf d :: (run_cmds run_tool rest (rm_rf d fs)).2).
Proof.
  cbn [run_cmds exec_cmd].
  destruct (run_cmds run_tool rest (rm_rf d fs)) as [[st fs1] tr1]. reflexivity.
Qed.

Section Rebuild.
Variable sh : shell.
Variable run_tool : string -> list string -> FS.t -> nat * FS.t.
Hypothesis tools_ok : tools_spare_marker sh run_tool.

Lemma exec_cmd_spares c (fs : FS.t) :
  spares sh c ->
  fs !! marker_path sh = None ->
  (exec_cmd run_tool c fs).1.2 !! marker_path sh = None.
Proof.
  destruct c as [dir|dir|line|prog args|path data]; simpl; intros Hc Hfs.
  - apply rm_rf_lookup_absent. exact Hfs.
  - pose proof (mkdir_p_lookup_other dir (marker_path sh) fs Hc) as H.
    destruct (mkdir_p dir fs) as [ok fs']. simpl in *. congruence.
  - exact Hfs.
  - specialize (tools_ok prog args fs Hfs).
    destruct (run_tool prog args fs). exact tools_ok.
  - destruct (write path data fs) as [fs'|] eqn:W; [|exact Hfs].
    apply write_lookup in W as (_ & _ & W). simpl.
    rewrite W by congruence. exact Hfs.
Qed.

Lemma run_cmds_spares cs (fs : FS.t) :
  Forall (spares sh) cs ->
  fs !! marker_path sh = None ->
  (run_cmds run_tool cs fs).1.2 !! marker_path sh = None.
Proof.
  intros Hcs. revert fs.
  induction Hcs as [|c cs Hc Hcs IH]; intros fs Hfs; simpl; [exact Hfs|].
  pose proof (exec_cmd_spares c fs Hc Hfs) as H1.
  destruct (exec_cmd run_tool c fs) as [[st fs1] tr1]. simpl in H1.
  destruct st; [|exact H1].
  specialize (IH fs1 H1).
  destruct (run_cmds run_tool cs fs1) as [[st2 fs2] tr2]. exact IH.
Qed.

Lemma rebuild_cmds_shape b :
  rebuild_cmds sh b =
  CRmRf (RUNTIME_DIR sh) ::
    middle_cmds sh b ++ [CPrintfTo (marker_path sh) (required_version +:+ nl)].
Proof. reflexivity. Qed.

Lemma middle_cmds_spare b : Forall (spares sh) (middle_cmds sh b).
Proof.
  unfold middle_cmds. simpl.
  repeat constructor. apply mkdir_p_spares_longer, marker_longer.
Qed.

Lemma firstn_spares n cs : Forall (spares sh) cs -> Forall (spares sh) (firstn n cs).
Proof.
  intros H. revert n. induction H; intros [|n]; simpl; constructor; auto.
Qed.

(** After the deletion and any part of the middle commands the
    marker is absent. *)
Lemma partial_rebuild_no_marker b n (fs : FS.t) :
  (run_cmds run_tool (CRmRf (RUNTIME_DIR sh) :: firstn n (middle_cmds sh b)) fs).1.2
    !! marker_path sh = None.
Proof.
  rewrite run_cmds_rm_first. cbn [fst snd].
  apply run_cmds_spares.
  - apply firstn_spares, middle_cmds_spare.
  - apply rm_rf_lookup_under, marker_under_runtime.
Qed.

Lemma crash_state_cut b k (fs : FS.t) :
  1 <= k -> k < length (rebuild_cmds sh b) ->
  crash_state sh run_tool b k fs =
  run_cmds run_tool
    (CRmRf (RUNTIME_DIR sh) :: firstn (k - 1) (middle_cmds sh b)) fs.
Proof.
  intros H1 H2. unfold crash_state. simpl in H2.
  do 7 (destruct k as [|k]; [first [lia | reflexivity]|]). lia.
Qed.

Lemma crash_state_full b k (fs : FS.t) :
  length (rebuild_cmds sh b) <= k ->
  crash_state sh run_tool b k fs = run_cmds run_tool (rebuild_cmds sh b) fs.
Proof. intros H. unfold crash_state. rewrite firstn_all2; [reflexivity|exact H]. Qed.

(** A complete run either failed, and then the marker is absent, or
    succeeded and recorded the required version in a marker that is
    a regular file. *)
Lemma full_rebuild b (fs : FS.t) :
  let '(status, fs', _) := run_cmds run_tool (rebuild_cmds sh b) fs in
  match status with
  | 0 => recorded_version sh fs' = Some required_version /\
         test_f fs' (marker_path sh) = true
  | _ => fs' !! marker_path sh = None
  end.
Proof.
  rewrite rebuild_cmds_shape.
  change (CRmRf (RUNTIME_DIR sh) :: middle_cmds sh b ++ [CPrintfTo (marker_path sh) (required_version +:+ nl)])
    with ((CRmRf (RUNTIME_DIR sh) :: middle_cmds sh b) ++ [CPrintfTo (marker_path sh) (required_version +:+ nl)]).
  rewrite run_cmds_app.
  pose proof (partial_rebuild_no_marker b (length (middle_cmds sh b)) fs) as H.
  rewrite firstn_all in H.
  destruct (run_cmds run_tool (CRmRf (RUNTIME_DIR sh) :: middle_cmds sh b) fs)
    as [[st fs1] tr1]. simpl in H.
  destruct st; [|exact H].
  cbn [run_cmds exec_cmd].
  destruct (write (marker_path sh) (required_version +:+ nl) fs1) as [fs2|] eqn:W;
    [|exact H].
  apply write_lookup in W as (Hcat & Hf & _).
  split; [|exact Hf].
  unfold recorded_version, version_of. rewrite Hcat. reflexivity.
Qed.

Lemma crash_state_marker b k (fs : FS.t) :
  is_Some ((crash_state sh run_tool b (S k) fs).1.2 !! marker_path sh) ->
  6 <= k /\ (crash_state sh run_tool b (S k) fs).1.1 = 0.
Proof.
  intros [n Hn].
  destruct (decide (S k < length (rebuild_cmds sh b))) as [Hlt|Hge].
  - exfalso. rewrite crash_state_cut in Hn by lia.
    rewrite partial_rebuild_no_marker in Hn. discriminate.
  - simpl in Hge. split; [lia|].
    rewrite crash_state_full in * by (simpl; lia).
    pose proof (full_rebuild b fs) as H.
    destruct (run_cmds run_tool (rebuild_cmds sh b) fs) as [[st fs'] tr].
    simpl in *. destruct st; [reflexivity|congruence].
Qed.

Lemma crash_state_not_ready b k (fs : FS.t) :
  (runtime_is_ready sh fs).1 = false ->
  k < 7 ->
  (runtime_is_ready sh (crash_state sh run_tool b k fs).1.2).1 = false.
Proof.
  intros Hnot Hk. destruct k as [|k]; [exact Hnot|].
  apply marker_absent_not_ready.
  rewrite crash_state_cut by (simpl; lia).
  apply partial_rebuild_no_marker.
Qed.

End Rebuild.

Lemma tool0_spares_marker : tools_spare_marker Samples.sh0 Samples.tool0.
Proof.
  intros prog args fs H. unfold Samples.tool0. simpl.
  rewrite lookup_insert_ne; [exact H|]. vm_compute. discriminate.
Qed.




(** *** The bootstrap interpreter *)

Lemma candidates_priority_order sh : candidates sh = priority_order sh.
Proof.
  unfold candidates, candidates_override, priority_order. simpl.
  destruct (String.eqb (default "" (CLICKSPEAK_HOST_PYTHON sh)) "");
    destruct (String.eqb (command_v sh "python3.12") "");
    destruct (String.eqb (command_v sh "python3") ""); reflexivity.
Qed.

Lemma priority_order_nonempty sh c : In c (priority_order sh) -> c <> "".
Proof.
  unfold priority_order. intros H. apply filter_In in H as [_ H].
  intros ->. discriminate.
Qed.

Lemma first_supported_found sh fs l c :
  first_qualifying sh fs l c ->
  (first_supported sh fs l).1 = (0, echo_output c).
Proof.
  intros (before & after & -> & Hbefore & Hc).
  induction Hbefore as [|c' before Hc' _ IH]; simpl.
  - apply python_is_supported_qualifies in Hc.
    destruct (python_is_supported sh fs c) as [ok tr]. simpl in Hc. subst ok.
    reflexivity.
  - rewrite <- python_is_supported_qualifies in Hc'.
    destruct (python_is_supported sh fs c') as [ok tr]. simpl in Hc'.
    destruct ok; [congruence|].
    destruct (first_supported sh fs (before ++ c :: after)) as [r tr'].
    exact IH.
Qed.

Lemma first_supported_none sh fs l :
  Forall (fun c => ~ qualifies sh fs c) l ->
  (first_supported sh fs l).1 = (1, "").
Proof.
  induction 1 as [|c l Hc _ IH]; simpl; [reflexivity|].
  rewrite <- python_is_supported_qualifies in Hc.
  destruct (python_is_supported sh fs c) as [ok tr]. simpl in Hc.
  destruct ok; [congruence|].
  destruct (first_supported sh fs l) as [r tr']. exact IH.
Qed.

(** A plain name comes back from [echo] and the command substitution
    as it went in. *)
Lemma echoed_plain c : plain_word c = true -> echoed c = c.
Proof.
  unfold plain_word, echoed, echo_output. intros H.
  apply andb_true_iff in H as [Ho Hs].
  apply negb_true_iff in Ho. rewrite Ho.
  rewrite command_substitution_nl. apply String.eqb_eq. exact Hs.
Qed.

Lemma bootstrap_of_first sh fs c :
  first_qualifying sh fs (candidates sh) c ->
  bootstrap_python sh fs = echoed c.
Proof.
  intros Hc. unfold bootstrap_python, resolve_host_python.
  rewrite (first_supported_found sh fs _ c Hc). reflexivity.
Qed.



End ProvisionerProofs.

(** ** The launcher *)

Module LauncherProofs.
Import Str FS Launcher LauncherSpec StrFacts FSFacts.

(** *** The paths through [main] *)

Lemma get_runtime_dir_with_home h home :
  getenv (environ h) "HOME" = Some home ->
  exists rt, get_runtime_dir h = Some rt.
Proof.
  intros H. unfold get_runtime_dir. rewrite H.
  destruct (getenv (environ h) "CLICKSPEAK_RUNTIME_DIR") as [env|]; eauto.
  destruct (negb (String.eqb env "")); eauto.
Qed.

Lemma main_no_home h :
  getenv (environ h) "HOME" = None ->
  main h = (Returned 1, environ h, show_error h msg_no_home).
Proof. intros H. unfold main. rewrite H. reflexivity. Qed.

Lemma main_with_home h home rt :
  getenv (environ h) "HOME" = Some home ->
  get_runtime_dir h = Some rt ->
  main h =
  if runtime_exists h rt then launch h rt (find_project_dir h)
  else (Returned 1, environ h, show_error h msg_runtime_not_found).
Proof.
  intros H Hrt. unfold main. rewrite H, Hrt.
  destruct (runtime_exists h rt); reflexivity.
Qed.

Lemma runtime_exists_lookup h rt :
  runtime_exists h rt = true <-> is_Some (files h !! marker_of rt).
Proof. unfold runtime_exists, access_F_OK. apply bool_decide_eq_true. Qed.

Lemma runtime_exists_absent h rt :
  runtime_exists h rt = false <-> files h !! marker_of rt = None.
Proof.
  unfold runtime_exists, access_F_OK. rewrite bool_decide_eq_false.
  rewrite <- eq_None_not_Some. reflexivity.
Qed.

Lemma main_validated h :
  validated h = true ->
  exists rt, get_runtime_dir h = Some rt /\ runtime_exists h rt = true /\
             main h = launch h rt (find_project_dir h).
Proof.
  unfold validated, main.
  destruct (getenv (environ h) "HOME"); [|discriminate].
  destruct (get_runtime_dir h) as [rt|]; [|discriminate].
  intros H. exists rt. rewrite H. auto.
Qed.

Lemma main_not_validated h :
  validated h = false ->
  exists msg,
    In msg [msg_no_home; msg_no_runtime_dir; msg_runtime_not_found] /\
    main h = (Returned 1, environ h, show_error h msg).
Proof.
  unfold validated, main.
  destruct (getenv (environ h) "HOME"); [|simpl; eauto].
  destruct (get_runtime_dir h) as [rt|]; [|simpl; eauto 6].
  intros ->. simpl. eauto 6.
Qed.

(** *** What a run lets the user see *)

Lemma show_error_exit_calls h msg :
  show_error_calls (show_error h msg) = [dialog_script msg].
Proof. unfold show_error. destruct (0 <? pid_of (fork h))%Z; reflexivity. Qed.

Lemma show_error_stderr h msg : stderr_of (show_error h msg) = [].
Proof. unfold show_error. destruct (0 <? pid_of (fork h))%Z; reflexivity. Qed.

Lemma show_error_installs h msg : installed_argv (show_error h msg) = [].
Proof. unfold show_error. destruct (0 <? pid_of (fork h))%Z; reflexivity. Qed.

Lemma show_error_dialogs h msg child :
  fork h = Forked child ->
  dialogs_of (show_error h msg) = [["osascript"; "-e"; dialog_script msg]] /\
  last (show_error h msg) = Some (EvWaitpid (Z.pos child)).
Proof.
  intros H. unfold show_error. rewrite H. simpl.
  rewrite Pos.eqb_refl. split; reflexivity.
Qed.

Lemma show_error_no_child h msg :
  fork h = ForkFailed -> dialogs_of (show_error h msg) = [].
Proof. intros H. unfold show_error. rewrite H. reflexivity. Qed.

(** What the label [fail] lets the user see. *)
Lemma fail_observed h status :
  (fail h status).1 = Returned 1 /\
  stderr_of (fail h status).2 = [diagnostic_line status] /\
  show_error_calls (fail h status).2 = [dialog_script msg_init_failed] /\
  installed_argv (fail h status).2 = [] /\
  (forall child, fork h = Forked child ->
     dialogs_of (fail h status).2
     = [["osascript"; "-e"; dialog_script msg_init_failed]] /\
     last (fail h status).2 = Some (EvWaitpid (Z.pos child))) /\
  (fork h = ForkFailed -> dialogs_of (fail h status).2 = []).
Proof.
  unfold fail. cbn [fst snd]. split; [reflexivity|].
  change (stderr_of (EvStderr ?t :: ?tr)) with (t :: stderr_of tr).
  rewrite show_error_stderr.
  change (show_error_calls (EvStderr ?t :: ?tr)) with (show_error_calls tr).
  rewrite show_error_exit_calls.
  change (installed_argv (EvStderr ?t :: ?tr)) with (installed_argv tr).
  rewrite show_error_installs.
  split; [reflexivity|]. split; [reflexivity|]. split; [reflexivity|].
  split.
  - intros child Hf. unfold show_error. rewrite Hf. simpl.
    rewrite Pos.eqb_refl. split; reflexivity.
  - intros Hf. unfold show_error. rewrite Hf. reflexivity.
Qed.

Lemma run_entry_point_observed h :
  stderr_of (run_entry_point h).2 = [] /\
  show_error_calls (run_entry_point h).2 = [] /\
  installed_argv (run_entry_point h).2 = [] /\
  dialogs_of (run_entry_point h).2 = [] /\
  In (EvRunString entry_point) (run_entry_point h).2.
Proof.
  unfold run_entry_point. cbn [snd].
  destruct (PyRun_SimpleString h entry_point); repeat split;
    left; reflexivity.
Qed.

(** The embedding part of [main] goes one of three ways, by what the
    embedded runtime says to its configuration. *)
Lemma embed_python_outcome h rt : embed_outcome h rt.
Proof.
  destruct (Py_DecodeLocale h (venv_python rt)) as [w|] eqn:Hd.
  - destruct (exception (PyConfig_SetString h w)) eqn:Hs.
    + eapply SetStringFailed; [exact Hs| |].
      * unfold rejection. rewrite Hd. cbv zeta. rewrite Hs. reflexivity.
      * unfold embed_python. rewrite Hd, Hs. reflexivity.
    + destruct (exception (Py_InitializeFromConfig h (Config (Some w) 0 1)))
        eqn:Hi.
      * eapply InitializeFailed; [exact Hi| |].
        -- unfold rejection. rewrite Hd. cbv zeta. rewrite Hs, Hi. reflexivity.
        -- unfold embed_python. rewrite Hd, Hs. simpl. rewrite Hi. reflexivity.
      * eapply Dispatched.
        -- unfold rejection. rewrite Hd. cbv zeta. rewrite Hs, Hi. reflexivity.
        -- unfold embed_python. rewrite Hd, Hs. simpl. rewrite Hi.
           destruct (run_entry_point h). reflexivity.
  - destruct (exception (Py_InitializeFromConfig h (Config None 0 1))) eqn:Hi.
    + eapply InitializeFailed; [exact Hi| |].
      * unfold rejection. rewrite Hd. cbv zeta. rewrite Hi. reflexivity.
      * unfold embed_python. rewrite Hd. simpl. rewrite Hi. reflexivity.
    + eapply Dispatched.
      * unfold rejection. rewrite Hd. cbv zeta. rewrite Hi. reflexivity.
      * unfold embed_python. rewrite Hd. simpl. rewrite Hi.
        destruct (run_entry_point h). reflexivity.
Qed.

Lemma launch_trace h rt pd :
  exists pre, (launch h rt pd).2 = pre ++ (embed_python h rt).2.
Proof.
  unfold launch. destruct (embed_python h rt) as [rc tr]. simpl. eauto.
Qed.

(** What [launch] adds before the embedding part is neither a
    message nor a dialog. *)
Lemma launch_observed h rt pd :
  (launch h rt pd).1.1 = (embed_python h rt).1 /\
  stderr_of (launch h rt pd).2 = stderr_of (embed_python h rt).2 /\
  show_error_calls (launch h rt pd).2 = show_error_calls (embed_python h rt).2 /\
  dialogs_of (launch h rt pd).2 = dialogs_of (embed_python h rt).2 /\
  installed_argv (launch h rt pd).2 = installed_argv (embed_python h rt).2 /\
  (forall e, last (embed_python h rt).2 = Some e ->
             last (launch h rt pd).2 = Some e).
Proof.
  split; [|split; [|split; [|split; [|split]]]].
  1-5: unfold launch, build_environment;
    destruct (embed_python h rt) as [rc tr];
    destruct (_NSGetExecutablePath h PATH_MAX), pd; reflexivity.
  intros e He. destruct (launch_trace h rt pd) as [pre ->].
  rewrite last_app, He. reflexivity.
Qed.

Lemma show_error_reported h msg : reported h msg [] (show_error h msg).
Proof.
  unfold reported.
  rewrite show_error_exit_calls, show_error_stderr, show_error_installs.
  split; [reflexivity|]. split; [reflexivity|]. split; [reflexivity|].
  split; [apply show_error_dialogs|apply show_error_no_child].
Qed.

Lemma launch_rejected h rt pd status :
  rejection h rt = Some status ->
  (launch h rt pd).1.1 = Returned 1 /\
  reported h msg_init_failed [diagnostic_line status] (launch h rt pd).2.
Proof.
  intros Hrej.
  destruct (launch_observed h rt pd) as (He & Hs & Hc & Hd & Hi & Hl).
  destruct (fail_observed h status) as (F1 & F2 & F3 & F4 & F5 & F6).
  unfold reported. rewrite He, Hs, Hc, Hd, Hi.
  assert (Hcase : embed_python h rt = fail h status \/
                  exists cfg, embed_python h rt
                              = (Returned 1, EvInitialize cfg :: (fail h status).2)).
  { destruct (embed_python_outcome h rt)
      as [st _ Hst E|cfg st _ Hst E|cfg Hnone _]; [| |congruence];
      assert (st = status) as -> by congruence; eauto. }
  destruct Hcase as [E|[cfg E]]; rewrite E in *.
  - split; [exact F1|]. split; [exact F3|]. split; [exact F2|].
    split; [exact F4|]. split; [|exact F6].
    intros child Hf. destruct (F5 child Hf) as [D L].
    split; [exact D|]. apply Hl. exact L.
  - cbn [fst snd] in *.
    change (stderr_of (EvInitialize cfg :: ?tr)) with (stderr_of tr).
    change (show_error_calls (EvInitialize cfg :: ?tr))
      with (show_error_calls tr).
    change (installed_argv (EvInitialize cfg :: ?tr)) with (installed_argv tr).
    assert (Hdia : dialogs_of (EvInitialize cfg :: (fail h status).2)
                   = dialogs_of (fail h status).2) by reflexivity.
    rewrite Hdia.
    split; [reflexivity|]. split; [exact F3|]. split; [exact F2|].
    split; [exact F4|]. split; [|exact F6].
    intros child Hf. destruct (F5 child Hf) as [D L].
    split; [exact D|]. apply Hl.
    change (EvInitialize cfg :: (fail h status).2)
      with ([EvInitialize cfg] ++ (fail h status).2).
    rewrite last_app, L. reflexivity.
Qed.

Lemma launch_accepted h rt pd :
  rejection h rt = None ->
  (launch h rt pd).1.1 = (run_entry_point h).1 /\
  stderr_of (launch h rt pd).2 = [] /\
  show_error_calls (launch h rt pd).2 = [] /\
  dialogs_of (launch h rt pd).2 = [] /\
  installed_argv (launch h rt pd).2 = [build_sys_argv (argv h)].
Proof.
  intros Hrej.
  destruct (launch_observed h rt pd) as (He & Hs & Hc & Hd & Hi & _).
  destruct (run_entry_point_observed h) as (R1 & R2 & R3 & R4 & _).
  rewrite He, Hs, Hc, Hd, Hi.
  destruct (embed_python_outcome h rt)
    as [st _ Hst _|cfg st _ Hst _|cfg _ E]; [congruence|congruence|].
  rewrite E. cbn [fst snd].
  change (stderr_of (EvInitialize cfg :: EvSetSysArgv ?l :: ?tr))
    with (stderr_of tr).
  change (show_error_calls (EvInitialize cfg :: EvSetSysArgv ?l :: ?tr))
    with (show_error_calls tr).
  change (installed_argv (EvInitialize cfg :: EvSetSysArgv ?l :: ?tr))
    with (l :: installed_argv tr).
  assert (Hdia : forall l tr,
             dialogs_of (EvInitialize cfg :: EvSetSysArgv l :: tr)
             = dialogs_of tr) by reflexivity.
  rewrite Hdia, R1, R2, R3, R4. repeat split.
Qed.

Lemma message_of_inj e1 e2 :
  dialog_script (message_of e1) = dialog_script (message_of e2) -> e1 = e2.
Proof.
  intros H. apply String.eqb_eq in H.
  destruct e1, e2; try reflexivity; vm_compute in H; discriminate.
Qed.

(** *** ValidateRuntime *)

(** C1, as stated, fails. The marker of this machine records 3.11 and
    its runtime directory holds no interpreter, so the directory is
    not valid for the required version 3.12 in the claim's sense; the
    launcher accepts it all the same and the launch ends with status
    0, not with RuntimeNotProvisioned. *)
Lemma mismatched_marker_accepted :
  cat (files Samples.host_mismatch) (marker_of Samples.runtime0)
    = Some ("3.11" +:+ nl) /\
  ~ claimed_valid "3.12" (files Samples.host_mismatch) Samples.runtime0 /\
  get_runtime_dir Samples.host_mismatch = Some Samples.runtime0 /\
  runtime_exists Samples.host_mismatch Samples.runtime0 = true /\
  (main Samples.host_mismatch).1.1 = Returned 0 /\
  show_error_calls (main Samples.host_mismatch).2 = [] /\
  ~ fails_with Samples.host_mismatch RuntimeNotProvisioned.
Proof.
  split; [vm_compute; reflexivity|].
  split; [intros [H _]; vm_compute in H; discriminate|].
  split; [vm_compute; reflexivity|].
  split; [vm_compute; reflexivity|].
  split; [vm_compute; reflexivity|].
  split; [vm_compute; reflexivity|].
  intros [H _]. vm_compute in H. discriminate.
Qed.

Lemma marker_of_fits rt :
  (N.of_nat (String.length rt) + 20 < PATH_MAX)%N ->
  marker_of rt = marker_under rt.
Proof.
  intros H. unfold marker_of, marker_under. apply snprintf_fits.
  rewrite length_append. simpl String.length at 2. lia.
Qed.

(** C1, amended. With the home directory known, ValidateRuntime
    accepts the resolved runtime directory exactly when something
    exists at the marker path the launcher formats, whatever it
    holds and whether or not there is an interpreter. That path is
    the first 1023 bytes of the name of the marker under the runtime
    directory: the marker itself whenever the name of the runtime
    directory is at most 1003 bytes long. Without it the launch
    fails with RuntimeNotProvisioned (dialog, status 1); with it the
    launch goes on to build the environment and embed the runtime. *)
Theorem validate_runtime_checks_presence h home :
  getenv (environ h) "HOME" = Some home ->
  exists rt,
    get_runtime_dir h = Some rt /\
    marker_of rt = keep (N.to_nat 1023) (marker_under rt) /\
    ((N.of_nat (String.length rt) + 20 < PATH_MAX)%N ->
     marker_of rt = marker_under rt) /\
    (validated h = true <-> is_Some (files h !! marker_of rt)) /\
    (files h !! marker_of rt = None ->
       main h = (Returned 1, environ h, show_error h msg_runtime_not_found)) /\
    (is_Some (files h !! marker_of rt) ->
       main h = launch h rt (find_project_dir h)) /\
    (fails_with h RuntimeNotProvisioned <-> files h !! marker_of rt = None).
Proof.
  intros Hhome.
  destruct (get_runtime_dir_with_home h home Hhome) as [rt Hrt].
  exists rt. split; [exact Hrt|].
  pose proof (main_with_home h home rt Hhome Hrt) as Hmain.
  split; [reflexivity|]. split; [apply marker_of_fits|].
  split; [unfold validated; rewrite Hhome, Hrt; apply runtime_exists_lookup|].
  assert (Habsent : files h !! marker_of rt = None ->
            main h = (Returned 1, environ h, show_error h msg_runtime_not_found)).
  { intros H. apply runtime_exists_absent in H. rewrite H in Hmain.
    exact Hmain. }
  assert (Hpresent : is_Some (files h !! marker_of rt) ->
            main h = launch h rt (find_project_dir h)).
  { intros H. apply runtime_exists_lookup in H. rewrite H in Hmain.
    exact Hmain. }
  split; [exact Habsent|]. split; [exact Hpresent|]. split.
  - intros Hfail.
    destruct (files h !! marker_of rt) as [n|] eqn:Hm; [exfalso|reflexivity].
    destruct Hfail as [_ Hin].
    rewrite Hpresent in Hin by eauto.
    destruct (rejection h rt) as [status|] eqn:Hrej.
    + destruct (launch_rejected h rt (find_project_dir h) status Hrej)
        as (_ & Hc & _).
      rewrite Hc in Hin. destruct Hin as [Hin|[]].
      apply (message_of_inj RuntimeInitFailed RuntimeNotProvisioned) in Hin.
      discriminate.
    + destruct (launch_accepted h rt (find_project_dir h) Hrej)
        as (_ & _ & Hc & _).
      rewrite Hc in Hin. destruct Hin.
  - intros Hm. unfold fails_with. rewrite (Habsent Hm). cbn [fst snd].
    split; [reflexivity|].
    rewrite show_error_exit_calls. left. reflexivity.
Qed.

Lemma validate_runtime_checks_presence_witness :
  getenv (environ Samples.host_unprovisioned) "HOME" = Some "/Users/me" /\
  exists rt,
    get_runtime_dir Samples.host_unprovisioned = Some rt /\
    marker_of rt = marker_under rt /\
    (fails_with Samples.host_unprovisioned RuntimeNotProvisioned
     <-> files Samples.host_unprovisioned !! marker_of rt = None).
Proof.
  split; [reflexivity|].
  destruct (validate_runtime_checks_presence Samples.host_unprovisioned
              "/Users/me") as (rt & H1 & _ & H3 & _ & _ & _ & H7).
  - reflexivity.
  - exists rt. split; [exact H1|]. split; [|exact H7].
    apply H3. vm_compute in H1. injection H1 as <-. vm_compute. reflexivity.
Defined.

(** *** Failure reporting *)

(** C2, as stated, fails. With [HOME] unset the launch ends with the
    NoHome error, and the dialog is shown and waited for, but nothing
    is written to the standard error stream. *)
Lemma no_home_is_silent_on_stderr :
  fails_with Samples.host_no_home NoHome /\
  stderr_of (main Samples.host_no_home).2 = [] /\
  dialogs_of (main Samples.host_no_home).2
    = [["osascript"; "-e"; dialog_script msg_no_home]].
Proof.
  split; [|split]; [|vm_compute; reflexivity|vm_compute; reflexivity].
  split; [vm_compute; reflexivity|]. vm_compute. left. reflexivity.
Qed.

(** C2, amended. Whenever a launcher-level error arises (NoHome,
    RuntimeNotProvisioned, RuntimeInitFailed), [main] returns 1 after
    one call of [show_error] with the message of the error, which
    forks an [osascript] child for the dialog and, when the fork gave
    a child, waits for it as the last thing the launcher does. On
    the standard error stream there is one line for
    RuntimeInitFailed, which carries the diagnostic of the status
    the runtime rejected its configuration with ("(unknown error)"
    when it has none), and nothing for NoHome and
    RuntimeNotProvisioned. *)
Theorem launcher_errors_reported h e diagnostic :
  arises h e diagnostic ->
  (main h).1.1 = Returned 1 /\
  show_error_calls (main h).2 = [dialog_script (message_of e)] /\
  (forall child,
      fork h = Forked child ->
      dialogs_of (main h).2
      = [["osascript"; "-e"; dialog_script (message_of e)]] /\
      last (main h).2 = Some (EvWaitpid (Z.pos child))) /\
  (fork h = ForkFailed -> dialogs_of (main h).2 = []) /\
  stderr_of (main h).2 =
    match diagnostic with
    | Some status =>
        [ "ClickSpeak: Python initialization failed: "
          +:+ default "(unknown error)" (err_msg status) +:+ nl ]
    | None => []
    end /\
  (e = RuntimeInitFailed <-> is_Some diagnostic).
Proof.
  intros Harises.
  assert (H : (main h).1.1 = Returned 1 /\
              reported h (message_of e)
                match diagnostic with
                | Some status => [diagnostic_line status]
                | None => []
                end (main h).2 /\
              (e = RuntimeInitFailed <-> is_Some diagnostic)).
  { destruct Harises as [Hhome|home rt Hhome Hrt Hm|home rt status Hhome Hrt Hm Hrej].
    - rewrite (main_no_home h Hhome). cbn [fst snd message_of].
      split; [reflexivity|]. split; [apply show_error_reported|].
      split; [discriminate|]. intros [? ?]. discriminate.
    - apply runtime_exists_absent in Hm.
      rewrite (main_with_home h home rt Hhome Hrt), Hm.
      cbn [fst snd message_of].
      split; [reflexivity|]. split; [apply show_error_reported|].
      split; [discriminate|]. intros [? ?]. discriminate.
    - apply runtime_exists_lookup in Hm.
      rewrite (main_with_home h home rt Hhome Hrt), Hm.
      destruct (launch_rejected h rt (find_project_dir h) status Hrej)
        as [H1 H2].
      split; [exact H1|]. split; [exact H2|]. split; eauto. }
  destruct H as (H1 & (H2 & H3 & _ & H4 & H5) & H6).
  split; [exact H1|]. split; [exact H2|]. split; [exact H4|].
  split; [exact H5|]. split; [|exact H6].
  rewrite H3. destruct diagnostic; reflexivity.
Qed.

Lemma launcher_errors_reported_witness :
  arises Samples.host_init_fails RuntimeInitFailed (Some Samples.no_pyvenv) /\
  (main Samples.host_init_fails).1.1 = Returned 1 /\
  stderr_of (main Samples.host_init_fails).2
    = ["ClickSpeak: Python initialization failed: no pyvenv.cfg" +:+ nl].
Proof.
  assert (H : arises Samples.host_init_fails RuntimeInitFailed
                (Some Samples.no_pyvenv)).
  { apply (RuntimeInitFailed_arises Samples.host_init_fails "/Users/me"
             Samples.runtime0).
    - reflexivity.
    - vm_compute. reflexivity.
    - vm_compute. eauto.
    - vm_compute. reflexivity. }
  split; [exact H|].
  destruct (launcher_errors_reported Samples.host_init_fails
              RuntimeInitFailed _ H) as (H1 & _ & _ & _ & H5 & _).
  split; [exact H1|exact H5].
Defined.

(** *** The home directory *)

(** C9. When [HOME] is unset the launch fails with the NoHome error
    and status 1, whatever else the environment holds: the overrides
    [CLICKSPEAK_RUNTIME_DIR] and [CLICKSPEAK_PROJECT_DIR] are not
    looked at, and the environment is left as it was. *)
Theorem no_home_before_overrides h :
  getenv (environ h) "HOME" = None ->
  main h = (Returned 1, environ h, show_error h msg_no_home) /\
  fails_with h NoHome /\
  (forall runtime_dir project_dir,
      getenv (environ h) "CLICKSPEAK_RUNTIME_DIR" = Some runtime_dir ->
      getenv (environ h) "CLICKSPEAK_PROJECT_DIR" = Some project_dir ->
      (main h).1.1 = Returned 1 /\
      show_error_calls (main h).2 = [dialog_script msg_no_home]).
Proof.
  intros Hhome. pose proof (main_no_home h Hhome) as Hmain.
  assert (Hcalls : show_error_calls (main h).2 = [dialog_script msg_no_home]).
  { rewrite Hmain. apply show_error_exit_calls. }
  split; [exact Hmain|]. split.
  - split; [rewrite Hmain; reflexivity|]. rewrite Hcalls. left. reflexivity.
  - intros _ _ _ _. split; [rewrite Hmain; reflexivity|exact Hcalls].
Qed.

Lemma no_home_before_overrides_witness :
  getenv (environ Samples.host_no_home) "CLICKSPEAK_RUNTIME_DIR"
    = Some Samples.runtime0 /\
  getenv (environ Samples.host_no_home) "CLICKSPEAK_PROJECT_DIR"
    = Some "/Users/me/clickspeak" /\
  (main Samples.host_no_home).1.1 = Returned 1 /\
  show_error_calls (main Samples.host_no_home).2 = [dialog_script msg_no_home].
Proof.
  split; [vm_compute; reflexivity|]. split; [vm_compute; reflexivity|].
  refine (proj2 (proj2 (no_home_before_overrides Samples.host_no_home _))
            Samples.runtime0 "/Users/me/clickspeak" _ _);
    vm_compute; reflexivity.
Defined.

(** *** The module search path *)

Lemma pythonpath_project_fits pd rt :
  (N.of_nat (String.length (project_then_runtime pd rt)) < 8192)%N ->
  pythonpath (Some pd) rt = project_then_runtime pd rt.
Proof.
  intros H. unfold pythonpath.
  replace (pd +:+ "/src:" +:+ rt +:+ "/lib/python3.12/site-packages")
    with (project_then_runtime pd rt).
  - apply snprintf_fits. exact H.
  - unfold project_then_runtime. rewrite append_assoc. reflexivity.
Qed.

Lemma pythonpath_runtime_fits rt :
  (N.of_nat (String.length (runtime_only rt)) < 8192)%N ->
  pythonpath None rt = runtime_only rt.
Proof. intros H. unfold pythonpath. apply snprintf_fits. exact H. Qed.

(** Two path names and what the launcher puts around them always fit
    the buffer of [PYTHONPATH]. *)
Lemma path_names_fit pd rt :
  path_name pd -> path_name rt ->
  (N.of_nat (String.length (project_then_runtime pd rt)) < 8192)%N /\
  (N.of_nat (String.length (runtime_only rt)) < 8192)%N.
Proof.
  unfold path_name, project_then_runtime, runtime_only, PATH_MAX.
  intros Hpd Hrt. rewrite !length_append. simpl String.length. lia.
Qed.

Lemma launch_pythonpath h rt pd :
  (launch h rt pd).1.2 !! "PYTHONPATH" = Some (pythonpath pd rt).
Proof.
  unfold launch. destruct (embed_python h rt) as [rc tr].
  cbn [fst snd]. unfold build_environment. unfold setenv at 1.
  cbn [p_env]. apply lookup_insert_eq.
Qed.

(** C7. On a launch that passes the runtime check, with the runtime
    directory and the project location named by path names, the
    [PYTHONPATH] the launcher sets is the project's source directory,
    a colon, then the runtime's package directory whenever a project
    location is resolved, and the runtime's package directory alone
    when none is. *)
Theorem pythonpath_order h rt :
  validated h = true ->
  get_runtime_dir h = Some rt ->
  path_name rt ->
  (forall pd,
      find_project_dir h = Some pd ->
      path_name pd ->
      (main h).1.2 !! "PYTHONPATH" = Some (project_then_runtime pd rt)) /\
  (find_project_dir h = None ->
   (main h).1.2 !! "PYTHONPATH" = Some (runtime_only rt)).
Proof.
  intros Hv Hrt Hname.
  destruct (main_validated h Hv) as (rt' & Hrt' & _ & ->).
  assert (rt' = rt) as -> by congruence.
  rewrite launch_pythonpath. split.
  - intros pd -> Hpd. rewrite pythonpath_project_fits; [reflexivity|].
    apply path_names_fit; assumption.
  - intros ->. rewrite pythonpath_runtime_fits; [reflexivity|].
    apply (path_names_fit rt rt); assumption.
Qed.

Lemma pythonpath_order_witness :
  find_project_dir Samples.host_two_projects = Some "/Users/me/clickspeak" /\
  (main Samples.host_two_projects).1.2 !! "PYTHONPATH"
    = Some ("/Users/me/clickspeak/src:"
            +:+ Samples.runtime0 +:+ "/lib/python3.12/site-packages").
Proof.
  split; [vm_compute; reflexivity|].
  refine (proj1 (pythonpath_order Samples.host_two_projects Samples.runtime0
                   _ _ _) "/Users/me/clickspeak" _ _);
    vm_compute; reflexivity.
Defined.

(** *** Argument marshalling *)

Lemma fill_prefix (argv : list string) k :
  k <= length argv ->
  fold_left (set_arg argv) (seq 0 k) (PyList_New (length argv)) =
  map (fun a => Some (PyUnicode a)) (take k argv)
  ++ replicate (length argv - k) None.
Proof.
  induction k as [|k IH]; intros Hk.
  - simpl. rewrite Nat.sub_0_r. reflexivity.
  - rewrite seq_S, fold_left_app, IH by lia. simpl.
    destruct (lookup_lt_is_Some_2 argv k) as [a Ha]; [lia|].
    rewrite (take_S_r argv k a Ha), map_app, <- app_assoc. simpl.
    unfold set_arg, PyList_SetItem, PyUnicode_DecodeFSDefault.
    rewrite Ha. simpl.
    assert (Hlen : length (map (fun a => Some (PyUnicode a)) (take k argv)) = k).
    { rewrite length_map, length_take. lia. }
    rewrite decide_True
      by (rewrite length_app, Hlen, length_replicate; lia).
    rewrite insert_app_r_alt by lia. rewrite Hlen, Nat.sub_diag.
    replace (length argv - k) with (S (length argv - S k)) by lia.
    reflexivity.
Qed.

Lemma build_sys_argv_marshalled argv : build_sys_argv argv = marshalled argv.
Proof.
  unfold build_sys_argv. cbv zeta.
  rewrite fill_prefix by lia.
  rewrite take_ge, Nat.sub_diag, app_nil_r by lia.
  destruct argv as [|a rest]; reflexivity.
Qed.

Lemma main_installed_argv h :
  installed_argv (main h).2 =
  if dispatches h then [build_sys_argv (argv h)] else [].
Proof.
  unfold dispatches, rejected. destruct (validated h) eqn:Hv.
  - destruct (main_validated h Hv) as (rt & Hrt & _ & ->). rewrite Hrt.
    cbn [andb]. destruct (rejection h rt) as [status|] eqn:Hrej.
    + destruct (launch_rejected h rt (find_project_dir h) status Hrej)
        as (_ & _ & _ & Hi & _). exact Hi.
    + destruct (launch_accepted h rt (find_project_dir h) Hrej)
        as (_ & _ & _ & _ & Hi). exact Hi.
  - destruct (main_not_validated h Hv) as (msg & _ & ->). cbn [snd andb].
    apply show_error_installs.
Qed.

(** C8. On every launch that gets as far as Dispatch the launcher
    installs one argument list, and on no other launch does it
    install any. For every argument vector [argv], of any length [n],
    that list has length [n], and at every index [i] below [n] it
    holds the display name "ClickSpeak" when [i] is 0, whatever the
    binary path was, and the original argument [argv[i]] when [i] is
    1 or more. *)
Theorem sys_argv_marshalling h :
  installed_argv (main h).2 =
    (if dispatches h then [build_sys_argv (argv h)] else []) /\
  length (build_sys_argv (argv h)) = length (argv h) /\
  (forall i a,
      argv h !! i = Some a ->
      build_sys_argv (argv h) !! i
      = Some (Some (if decide (i = 0) then PyUnicode "ClickSpeak"
                    else PyUnicode a))).
Proof.
  split; [apply main_installed_argv|].
  rewrite build_sys_argv_marshalled; split.
  - destruct (argv h); simpl; [reflexivity|].
    rewrite length_map. reflexivity.
  - intros i a Ha. destruct (argv h) as [|a0 rest]; [discriminate|].
    destruct i as [|i]; simpl in *; [reflexivity|].
    rewrite list_lookup_fmap, Ha. reflexivity.
Qed.

(** *** The executable of the embedded runtime *)

(** C10. When [Py_DecodeLocale] returns NULL for the interpreter path
    of the runtime, the launcher does not fail for it: it leaves the
    executable of the configuration unset and goes on to
    [Py_InitializeFromConfig]; if that succeeds it installs the
    arguments, runs the entry point and ends as the entry point
    ends, with no dialog and nothing on the standard error
    stream. *)
Theorem decode_failure_skips_executable h home rt :
  getenv (environ h) "HOME" = Some home ->
  get_runtime_dir h = Some rt ->
  runtime_exists h rt = true ->
  Py_DecodeLocale h (venv_python rt) = None ->
  let config := Config None 0 1 in
  In (EvInitialize config) (main h).2 /\
  (forall config', In (EvInitialize config') (main h).2 -> config' = config) /\
  (exception (Py_InitializeFromConfig h config) = false ->
   (main h).1.1 = ending_of_run (PyRun_SimpleString h entry_point) /\
   In (EvRunString entry_point) (main h).2 /\
   installed_argv (main h).2 = [build_sys_argv (argv h)] /\
   show_error_calls (main h).2 = [] /\
   stderr_of (main h).2 = []).
Proof.
  intros Hhome Hrt Hex Hdec config.
  rewrite (main_with_home h home rt Hhome Hrt), Hex.
  unfold launch, build_environment, embed_python.
  rewrite Hdec. cbn [fst snd parse_argv site_import executable
                       PyConfig_InitPythonConfig].
  fold config.
  destruct (exception (Py_InitializeFromConfig h config)) eqn:Hinit.
  - split; [|split; [|discriminate]].
    + destruct (_NSGetExecutablePath h PATH_MAX), (find_project_dir h);
        simpl; auto 20.
    + intros config'. unfold fail, show_error.
      destruct (_NSGetExecutablePath h PATH_MAX), (find_project_dir h),
        (0 <? pid_of (fork h))%Z; simpl; intros Hin;
        repeat (destruct Hin as [Hin|Hin]; [congruence|]); destruct Hin.
  - unfold run_entry_point.
    split; [|split].
    + destruct (_NSGetExecutablePath h PATH_MAX), (find_project_dir h);
        simpl; auto 20.
    + intros config' Hin.
      destruct (_NSGetExecutablePath h PATH_MAX), (find_project_dir h),
        (PyRun_SimpleString h entry_point);
        simpl in Hin;
        repeat (destruct Hin as [Hin|Hin]; [congruence|]); destruct Hin.
    + intros _.
      destruct (_NSGetExecutablePath h PATH_MAX), (find_project_dir h),
        (PyRun_SimpleString h entry_point);
        simpl; repeat split; auto 20.
Qed.

Lemma decode_failure_skips_executable_witness :
  Py_DecodeLocale Samples.host_no_decode (venv_python Samples.runtime0) = None /\
  (main Samples.host_no_decode).1.1 = Returned 0 /\
  In (EvInitialize (Config None 0 1)) (main Samples.host_no_decode).2.
Proof.
  split; [reflexivity|].
  destruct (decode_failure_skips_executable Samples.host_no_decode
              "/Users/me" Samples.runtime0) as (H1 & _ & H3);
    try (vm_compute; reflexivity).
  split; [|exact H1].
  destruct H3 as (H3 & _); [reflexivity|]. exact H3.
Defined.

End LauncherProofs.

(** ** More about the launcher *)

Module LauncherMore.
Import Str FS Launcher LauncherSpec LauncherNotions StrFacts FSFacts LauncherProofs.

(** *** Resolving the project directory *)

Lemma cut_manifest (x : string) :
  cut_last_slash (project_manifest x) = Some x.
Proof.
  unfold project_manifest. induction x as [|c r IH]; [reflexivity|].
  change (String c r +:+ "/pyproject.toml")
    with (String c (r +:+ "/pyproject.toml")).
  simpl. rewrite IH. reflexivity.
Qed.

Lemma probe_buffer home s :
  (N.of_nat (String.length (home +:+ s)) + 15 < PATH_MAX)%N ->
  snprintf PATH_MAX (home +:+ s +:+ "/pyproject.toml")
  = project_manifest (home +:+ s).
Proof.
  intros H. unfold project_manifest. rewrite <- append_assoc.
  apply snprintf_fits.
  rewrite length_append. simpl String.length at 2. lia.
Qed.

Lemma probe_first_match fs home before s after :
  Forall (fun s' => (N.of_nat (String.length (home +:+ s')) + 15 < PATH_MAX)%N)
    (before ++ [s]) ->
  Forall (fun s' => fs !! project_manifest (home +:+ s') = None) before ->
  is_Some (fs !! project_manifest (home +:+ s)) ->
  probe fs home (before ++ s :: after) = Some (home +:+ s).
Proof.
  intros Hfit Habsent Hs. induction before as [|s' before IH]; simpl.
  - rewrite probe_buffer by (inversion Hfit; assumption).
    unfold access_F_OK. rewrite bool_decide_eq_true_2 by exact Hs.
    rewrite cut_manifest. reflexivity.
  - inversion Hfit as [|? ? Hs' Hfit']; subst.
    inversion Habsent as [|? ? Ha Habsent']; subst.
    rewrite probe_buffer by exact Hs'.
    unfold access_F_OK. rewrite bool_decide_eq_false_2
      by (rewrite Ha; intros [? ?]; discriminate).
    apply IH; assumption.
Qed.

Lemma probe_no_match fs home sfx :
  Forall (fun s' => (N.of_nat (String.length (home +:+ s')) + 15 < PATH_MAX)%N)
    sfx ->
  Forall (fun s' => fs !! project_manifest (home +:+ s') = None) sfx ->
  probe fs home sfx = None.
Proof.
  intros Hfit Habsent. induction sfx as [|s sfx IH]; [reflexivity|]. simpl.
  inversion Hfit; subst. inversion Habsent as [|? ? Ha ?]; subst.
  rewrite probe_buffer by assumption.
  unfold access_F_OK. rewrite bool_decide_eq_false_2
    by (rewrite Ha; intros [? ?]; discriminate).
  apply IH; assumption.
Qed.

Lemma find_project_dir_by_home h home :
  no_override h "CLICKSPEAK_PROJECT_DIR" ->
  getenv (environ h) "HOME" = Some home ->
  find_project_dir h = probe (files h) home suffixes.
Proof.
  intros [Ho|Ho] Hhome; unfold find_project_dir; rewrite Ho, Hhome; reflexivity.
Qed.

Lemma suffixes_fit home :
  (N.of_nat (String.length home) + 36 < PATH_MAX)%N ->
  Forall (fun s' => (N.of_nat (String.length (home +:+ s')) + 15 < PATH_MAX)%N)
    suffixes.
Proof.
  intros H. unfold suffixes.
  repeat constructor; rewrite length_append; simpl; lia.
Qed.

(** X1. Without a project override (unset, or set to the empty
    string), and with a home directory short enough for the probe
    buffer, [find_project_dir] returns the first candidate directory, in
    the fixed order of [suffixes], that holds a [pyproject.toml]:
    candidates later in the order are not considered, whatever they
    hold. *)
Theorem find_project_dir_first_match h home i s :
  no_override h "CLICKSPEAK_PROJECT_DIR" ->
  getenv (environ h) "HOME" = Some home ->
  (N.of_nat (String.length home) + 36 < PATH_MAX)%N ->
  suffixes !! i = Some s ->
  (forall j s', j < i -> suffixes !! j = Some s' ->
     files h !! project_manifest (home +:+ s') = None) ->
  is_Some (files h !! project_manifest (home +:+ s)) ->
  find_project_dir h = Some (home +:+ s).
Proof.
  intros Ho Hhome Hfit Hi Hbefore Hs.
  rewrite (find_project_dir_by_home h home Ho Hhome).
  pose proof (suffixes_fit home Hfit) as Hall.
  rewrite <- (take_drop_middle suffixes i s Hi) in Hall |- *.
  apply probe_first_match.
  - apply Forall_app in Hall as [H1 H2]. apply Forall_app. split; [exact H1|].
    inversion H2; subst. repeat constructor. assumption.
  - apply Forall_lookup. intros j s' Hj.
    pose proof (lookup_lt_Some _ _ _ Hj) as Hlt.
    rewrite length_take in Hlt.
    rewrite lookup_take_lt in Hj by lia.
    apply (Hbefore j s'); [lia|exact Hj].
  - exact Hs.
Qed.

Lemma probe_none_absent fs home sfx :
  Forall (fun s' => (N.of_nat (String.length (home +:+ s')) + 15 < PATH_MAX)%N)
    sfx ->
  probe fs home sfx = None ->
  Forall (fun s' => fs !! project_manifest (home +:+ s') = None) sfx.
Proof.
  intros Hfit. induction Hfit as [|s sfx Hs Hfit IH]; intros Hp; constructor.
  - simpl in Hp. rewrite probe_buffer in Hp by exact Hs.
    unfold access_F_OK in Hp. case_bool_decide as Hd; [discriminate|].
    apply eq_None_not_Some. exact Hd.
  - apply IH. simpl in Hp. destruct (access_F_OK _ _); [discriminate|exact Hp].
Qed.

(** X2. With a home directory short enough for the probe buffer,
    [find_project_dir] finds no project exactly when there is no
    project override (it is unset or empty) and either [HOME] is unset
    or none of the candidate directories holds a [pyproject.toml]. *)
Theorem find_project_dir_none h :
  (forall home, getenv (environ h) "HOME" = Some home ->
     (N.of_nat (String.length home) + 36 < PATH_MAX)%N) ->
  (find_project_dir h = None <->
   no_override h "CLICKSPEAK_PROJECT_DIR" /\
   forall home s,
     getenv (environ h) "HOME" = Some home -> In s suffixes ->
     files h !! project_manifest (home +:+ s) = None).
Proof.
  intros Hfit. split.
  - intros Hnone.
    assert (Ho : no_override h "CLICKSPEAK_PROJECT_DIR").
    { unfold find_project_dir, no_override in *.
      destruct (getenv (environ h) "CLICKSPEAK_PROJECT_DIR") as [d|]; [|auto].
      destruct (String.eqb d "") eqn:E; [|discriminate].
      apply String.eqb_eq in E. subst. auto. }
    split; [exact Ho|]. intros home s Hhome Hs.
    rewrite (find_project_dir_by_home h home Ho Hhome) in Hnone.
    apply probe_none_absent in Hnone; [|apply suffixes_fit, Hfit, Hhome].
    rewrite List.Forall_forall in Hnone. apply Hnone. exact Hs.
  - intros [Ho Habsent].
    destruct (getenv (environ h) "HOME") as [home|] eqn:Hhome.
    + rewrite (find_project_dir_by_home h home Ho Hhome).
      apply probe_no_match; [apply suffixes_fit, Hfit; reflexivity|].
      apply List.Forall_forall. intros s Hs. apply (Habsent home s eq_refl Hs).
    + destruct Ho as [Ho|Ho]; unfold find_project_dir; rewrite Ho, Hhome;
        reflexivity.
Qed.

(** *** The shape of a run *)

Lemma embed_python_eq h rt :
  embed_python h rt =
  match Py_DecodeLocale h (venv_python rt) with
  | Some w =>
      if exception (PyConfig_SetString h w)
      then fail h (PyConfig_SetString h w)
      else initialize_and_run h (Config (Some w) 0 1)
  | None => initialize_and_run h (Config None 0 1)
  end.
Proof.
  unfold embed_python, initialize_and_run.
  destruct (Py_DecodeLocale h (venv_python rt)) as [w|]; simpl.
  - destruct (exception (PyConfig_SetString h w)); simpl; [reflexivity|].
    destruct (exception (Py_InitializeFromConfig h _)); [reflexivity|].
    destruct (run_entry_point h); reflexivity.
  - destruct (exception (Py_InitializeFromConfig h _)); [reflexivity|].
    destruct (run_entry_point h); reflexivity.
Qed.

Lemma launch_parts h rt pd :
  launch h rt pd =
  ((embed_python h rt).1,
   p_env (build_environment h rt pd (Proc (environ h) [])),
   environment_events h rt pd ++ (embed_python h rt).2).
Proof. unfold launch. destruct (embed_python h rt). reflexivity. Qed.

Lemma environment_events_seen h rt pd :
  chdirs_of (environment_events h rt pd) = option_list pd /\
  initialized_with (environment_events h rt pd) = [] /\
  run_strings (environment_events h rt pd) = [] /\
  show_error_calls (environment_events h rt pd) = [] /\
  stderr_of (environment_events h rt pd) = [].
Proof.
  unfold environment_events, build_environment.
  destruct (_NSGetExecutablePath h PATH_MAX), pd; simpl; repeat split.
Qed.

Lemma show_error_seen h msg :
  chdirs_of (show_error h msg) = [] /\
  initialized_with (show_error h msg) = [] /\
  run_strings (show_error h msg) = [].
Proof.
  unfold show_error. destruct (0 <? pid_of (fork h))%Z; repeat split.
Qed.

Lemma fail_seen h status :
  chdirs_of (fail h status).2 = [] /\
  initialized_with (fail h status).2 = [] /\
  run_strings (fail h status).2 = [].
Proof.
  unfold fail, show_error. destruct (0 <? pid_of (fork h))%Z; repeat split.
Qed.

Lemma run_entry_point_seen h :
  chdirs_of (run_entry_point h).2 = [] /\
  initialized_with (run_entry_point h).2 = [] /\
  run_strings (run_entry_point h).2 = [entry_point] /\
  show_error_calls (run_entry_point h).2 = [] /\
  stderr_of (run_entry_point h).2 = [] /\
  waits_of (run_entry_point h).2 = [] /\
  finalizations (run_entry_point h).2 =
    match PyRun_SimpleString h entry_point with
    | PyReturns _ => 1
    | _ => 0
    end.
Proof.
  unfold run_entry_point. cbn [snd].
  destruct (PyRun_SimpleString h entry_point); repeat split.
Qed.

Lemma initialize_and_run_seen h config :
  chdirs_of (initialize_and_run h config).2 = [] /\
  initialized_with (initialize_and_run h config).2 = [config] /\
  (run_strings (initialize_and_run h config).2 =
   if exception (Py_InitializeFromConfig h config) then [] else [entry_point]) /\
  (show_error_calls (initialize_and_run h config).2 =
   if exception (Py_InitializeFromConfig h config)
   then [dialog_script msg_init_failed] else []).
Proof.
  unfold initialize_and_run.
  destruct (exception (Py_InitializeFromConfig h config)).
  - unfold fail, show_error. destruct (0 <? pid_of (fork h))%Z; repeat split.
  - destruct (run_entry_point_seen h) as (H1 & H2 & H3 & H4 & _).
    cbn [snd].
    change (chdirs_of (EvInitialize config :: EvSetSysArgv ?l :: ?tr))
      with (chdirs_of tr).
    change (initialized_with (EvInitialize config :: EvSetSysArgv ?l :: ?tr))
      with (config :: initialized_with tr).
    change (run_strings (EvInitialize config :: EvSetSysArgv ?l :: ?tr))
      with (run_strings tr).
    change (show_error_calls (EvInitialize config :: EvSetSysArgv ?l :: ?tr))
      with (show_error_calls tr).
    rewrite H1, H2, H3, H4. repeat split.
Qed.

(** X3. A launch that does not get past the runtime check (no home
    directory, or no marker under the resolved runtime directory)
    exits with status 1 and has touched nothing: the environment is as
    it was, the working directory was not changed, and the embedded
    runtime was neither initialized nor run. *)
Theorem unvalidated_launch_touches_nothing h :
  validated h = false ->
  (main h).1.1 = Returned 1 /\
  (main h).1.2 = environ h /\
  chdirs_of (main h).2 = [] /\
  initialized_with (main h).2 = [] /\
  run_strings (main h).2 = [].
Proof.
  intros Hv. destruct (main_not_validated h Hv) as (msg & _ & ->). cbn [fst snd].
  destruct (show_error_seen h msg) as (H1 & H2 & H3). auto.
Qed.

(** X4. The working directory is changed only on a launch that got
    past the runtime check, only once, and only to the resolved
    project directory; with no project directory it is left alone. *)
Theorem chdir_only_to_project h :
  chdirs_of (main h).2 =
  if validated h then option_list (find_project_dir h) else [].
Proof.
  destruct (validated h) eqn:Hv.
  - destruct (main_validated h Hv) as (rt & Hrt & Hex & ->).
    rewrite launch_parts. cbn [fst snd]. unfold chdirs_of.
    rewrite omap_app. fold (chdirs_of (environment_events h rt (find_project_dir h))).
    destruct (environment_events_seen h rt (find_project_dir h)) as (-> & _).
    fold (chdirs_of (embed_python h rt).2). rewrite embed_python_eq.
    destruct (Py_DecodeLocale h (venv_python rt)) as [w|].
    + destruct (exception (PyConfig_SetString h w)).
      * destruct (fail_seen h (PyConfig_SetString h w)) as (-> & _).
        apply app_nil_r.
      * destruct (initialize_and_run_seen h (Config (Some w) 0 1)) as (-> & _).
        apply app_nil_r.
    + destruct (initialize_and_run_seen h (Config None 0 1)) as (-> & _).
      apply app_nil_r.
  - destruct (main_not_validated h Hv) as (msg & _ & ->). cbn [fst snd].
    apply show_error_seen.
Qed.

Lemma embed_python_embedding h rt : embedding h rt (embed_python h rt).
Proof.
  rewrite embed_python_eq.
  destruct (Py_DecodeLocale h (venv_python rt)) as [w|] eqn:Hd.
  - destruct (exception (PyConfig_SetString h w)) eqn:Hs.
    + apply SetStringRaised; assumption.
    + apply Configured; [symmetry; exact Hd|reflexivity|reflexivity].
  - apply Configured; [symmetry; exact Hd|reflexivity|reflexivity].
Qed.

Lemma fail_exit h status :
  (fail h status).1 = Returned 1 /\
  show_error_calls (fail h status).2 = [dialog_script msg_init_failed] /\
  stderr_of (fail h status).2 = [diagnostic_line status] /\
  finalizations (fail h status).2 = 0.
Proof.
  unfold fail, show_error, diagnostic_line.
  destruct (0 <? pid_of (fork h))%Z; repeat split.
Qed.

Lemma initialize_and_run_exit h config :
  (initialize_and_run h config).1 =
  (if exception (Py_InitializeFromConfig h config) then Returned 1
   else ending_of_run (PyRun_SimpleString h entry_point)) /\
  stderr_of (initialize_and_run h config).2 =
  (if exception (Py_InitializeFromConfig h config)
   then [diagnostic_line (Py_InitializeFromConfig h config)] else []) /\
  finalizations (initialize_and_run h config).2 =
  (if exception (Py_InitializeFromConfig h config) then 0
   else match PyRun_SimpleString h entry_point with
        | PyReturns _ => 1
        | _ => 0
        end).
Proof.
  unfold initialize_and_run.
  destruct (exception (Py_InitializeFromConfig h config)).
  - unfold fail, show_error, diagnostic_line.
    destruct (0 <? pid_of (fork h))%Z; repeat split.
  - destruct (run_entry_point_seen h) as (_ & _ & _ & _ & H5 & _ & H7).
    cbn [fst snd].
    change (stderr_of (EvInitialize config :: EvSetSysArgv ?l :: ?tr))
      with (stderr_of tr).
    change (finalizations (EvInitialize config :: EvSetSysArgv ?l :: ?tr))
      with (finalizations tr).
    rewrite H5, H7. repeat split.
Qed.

Lemma launch_seen h rt pd :
  initialized_with (launch h rt pd).2 = initialized_with (embed_python h rt).2 /\
  run_strings (launch h rt pd).2 = run_strings (embed_python h rt).2 /\
  finalizations (launch h rt pd).2 = finalizations (embed_python h rt).2.
Proof.
  rewrite launch_parts. cbn [snd].
  unfold initialized_with, run_strings, finalizations.
  rewrite !omap_app, List.filter_app, length_app.
  destruct (environment_events_seen h rt pd) as (_ & H1 & H2 & _).
  unfold initialized_with in H1. unfold run_strings in H2.
  rewrite H1, H2. split; [reflexivity|]. split; [reflexivity|].
  unfold environment_events, build_environment.
  destruct (_NSGetExecutablePath h PATH_MAX), pd; reflexivity.
Qed.

Lemma ending_of_run_status r status :
  ending_of_run r = Returned status -> (status = 0 \/ status = 1)%Z.
Proof.
  destruct r as [rc|code|]; simpl; try discriminate.
  intros H. injection H as <-. destruct (rc =? 0)%Z; auto.
Qed.


(** X6. [Py_InitializeFromConfig] is called at most once in a launch.
    When it is called, the configuration has argument parsing switched
    off ([parse_argv = 0]) and site import on, and its executable is
    what [Py_DecodeLocale] gave for the runtime's interpreter path
    (unset when that was NULL); the entry point is then run exactly
    when the initialization raised no exception, and never without an
    initialization. *)
Theorem initialized_at_most_once h :
  (initialized_with (main h).2 = [] /\ run_strings (main h).2 = []) \/
  exists rt config,
    get_runtime_dir h = Some rt /\
    initialized_with (main h).2 = [config] /\
    parse_argv config = 0%Z /\
    site_import config = 1%Z /\
    executable config = Py_DecodeLocale h (venv_python rt) /\
    run_strings (main h).2 =
      if exception (Py_InitializeFromConfig h config) then [] else [entry_point].
Proof.
  destruct (validated h) eqn:Hv.
  - destruct (main_validated h Hv) as (rt & Hrt & Hex & Hmain).
    destruct (launch_seen h rt (find_project_dir h)) as (Hi & Hr & _).
    rewrite Hmain, Hi, Hr.
    destruct (embed_python_embedding h rt) as [w Hd Hs|config Hx Hp Hsi].
    + left. destruct (fail_seen h (PyConfig_SetString h w)) as (_ & -> & ->).
      auto.
    + right. exists rt, config.
      destruct (initialize_and_run_seen h config) as (_ & -> & -> & _).
      auto 10.
  - left. destruct (main_not_validated h Hv) as (msg & _ & ->). cbn [fst snd].
    destruct (show_error_seen h msg) as (_ & -> & ->). auto.
Qed.


(** *** The environment of the embedded runtime *)

Lemma prefix_keep pre x n :
  String.length pre <= n -> String.prefix pre (keep n (pre +:+ x)) = true.
Proof.
  revert n. induction pre as [|c r IH]; intros n Hn.
  - destruct (keep n ("" +:+ x)); reflexivity.
  - destruct n as [|n]; [simpl in Hn; lia|].
    change (String c r +:+ x) with (String c (r +:+ x)). simpl.
    destruct (ascii_dec c c); [|congruence]. apply IH. simpl in Hn. lia.
Qed.

Lemma launch_env h rt pd :
  (launch h rt pd).1.2 =
  <["PYTHONPATH" := pythonpath pd rt]>
    (<["PATH" := snprintf 8192
                   (homebrew_paths
                    +:+ default "/usr/bin:/bin" (identity_env h rt !! "PATH"))]>
       (identity_env h rt)).
Proof.
  rewrite launch_parts. cbn [fst snd].
  unfold build_environment, identity_env, setenv, chdir, getenv.
  destruct (_NSGetExecutablePath h PATH_MAX), pd; reflexivity.
Qed.

Lemma identity_env_frame h rt name :
  ~ In name launcher_variables ->
  identity_env h rt !! name = environ h !! name.
Proof.
  intros Hname.
  assert (forall k, In k launcher_variables -> k <> name)
    by (intros k Hk ->; contradiction).
  unfold identity_env. destruct (_NSGetExecutablePath h PATH_MAX);
    rewrite !lookup_insert_ne by (apply H; simpl; auto 10); reflexivity.
Qed.

Lemma identity_env_path h rt : identity_env h rt !! "PATH" = environ h !! "PATH".
Proof.
  unfold identity_env. destruct (_NSGetExecutablePath h PATH_MAX);
    rewrite !lookup_insert_ne by done; reflexivity.
Qed.

Lemma launch_env_frame h rt pd name :
  ~ In name launcher_variables ->
  (launch h rt pd).1.2 !! name = environ h !! name.
Proof.
  intros Hname. rewrite launch_env.
  rewrite !lookup_insert_ne by (intros <-; apply Hname; simpl; auto 10).
  apply identity_env_frame. exact Hname.
Qed.

(** X8. On a launch that got past the runtime check, whether or not
    the embedded runtime then initializes, the environment the
    launcher has built with its own calls of [setenv] holds the fixed
    settings (unbuffered output, no user site, fault handler, bundle
    identifier, application name) and [CLICKSPEAK_RUNTIME_DIR] is the
    runtime directory that was checked; the launcher itself leaves
    every variable that is not one of the nine it sets at the value
    it had at start. What the embedded runtime does to the
    environment once it is handed over is not part of this. *)
Theorem launch_environment h :
  validated h = true ->
  exists rt,
    get_runtime_dir h = Some rt /\
    (main h).1.2 !! "PYTHONUNBUFFERED" = Some "1" /\
    (main h).1.2 !! "PYTHONNOUSERSITE" = Some "1" /\
    (main h).1.2 !! "PYTHONFAULTHANDLER" = Some "1" /\
    (main h).1.2 !! "CLICKSPEAK_BUNDLE_IDENTIFIER"
      = Some "com.lamosty.clickspeak" /\
    (main h).1.2 !! "CLICKSPEAK_APP_NAME" = Some "ClickSpeak" /\
    (main h).1.2 !! "CLICKSPEAK_RUNTIME_DIR" = Some rt /\
    (forall name,
        ~ In name launcher_variables ->
        (main h).1.2 !! name = environ h !! name).
Proof.
  intros Hv. destruct (main_validated h Hv) as (rt & Hrt & Hex & ->).
  exists rt. split; [exact Hrt|].
  assert (Hfixed : forall k v,
            In (k, v) [ ("PYTHONUNBUFFERED", "1"); ("PYTHONNOUSERSITE", "1");
                        ("PYTHONFAULTHANDLER", "1");
                        ("CLICKSPEAK_BUNDLE_IDENTIFIER", "com.lamosty.clickspeak");
                        ("CLICKSPEAK_APP_NAME", "ClickSpeak");
                        ("CLICKSPEAK_RUNTIME_DIR", rt) ] ->
            (launch h rt (find_project_dir h)).1.2 !! k = Some v).
  { intros k v Hk. rewrite launch_env. unfold identity_env.
    destruct (_NSGetExecutablePath h PATH_MAX);
      repeat (destruct Hk as [Hk|Hk];
              [injection Hk as <- <-;
               rewrite !lookup_insert_ne by done; apply lookup_insert_eq|]);
      destruct Hk. }
  repeat (split; [apply Hfixed; simpl; auto 10|]).
  intros name. apply launch_env_frame.
Qed.

(** X9. On a launch that got past the runtime check, [PATH] always
    begins with the two Homebrew directories. When the text fits the
    8192-byte buffer they are followed by the [PATH] the process was
    started with, or by "/usr/bin:/bin" when it was started with
    none. *)
Theorem path_prepends_homebrew h :
  validated h = true ->
  exists new_path,
    (main h).1.2 !! "PATH" = Some new_path /\
    String.prefix homebrew_paths new_path = true /\
    let old_path := default "/usr/bin:/bin" (environ h !! "PATH") in
    ((N.of_nat (String.length (homebrew_paths +:+ old_path)) < 8192)%N ->
     new_path = homebrew_paths +:+ old_path).
Proof.
  intros Hv. destruct (main_validated h Hv) as (rt & Hrt & Hex & ->).
  exists (snprintf 8192
            (homebrew_paths +:+ default "/usr/bin:/bin" (environ h !! "PATH"))).
  split; [|split].
  - rewrite launch_env, identity_env_path.
    rewrite lookup_insert_ne by done. apply lookup_insert_eq.
  - unfold snprintf. apply prefix_keep. vm_compute. lia.
  - intros old_path Hfit. apply snprintf_fits. exact Hfit.
Qed.

(** *** Overrides and the home directory *)

Lemma environment_events_path h rt pd :
  environment_events h rt pd =
  [ EvSetenv "PYTHONUNBUFFERED" "1"; EvSetenv "PYTHONNOUSERSITE" "1";
    EvSetenv "PYTHONFAULTHANDLER" "1";
    EvSetenv "CLICKSPEAK_BUNDLE_IDENTIFIER" "com.lamosty.clickspeak";
    EvSetenv "CLICKSPEAK_APP_NAME" "ClickSpeak";
    EvSetenv "CLICKSPEAK_RUNTIME_DIR" rt ]
  ++ match _NSGetExecutablePath h PATH_MAX with
     | Some exe => [EvSetenv "CLICKSPEAK_APP_PATH" exe]
     | None => []
     end
  ++ [ EvSetenv "PATH"
         (snprintf 8192
            (homebrew_paths
             +:+ default "/usr/bin:/bin" (environ h !! "PATH"))) ]
  ++ match pd with Some d => [EvChdir d] | None => [] end
  ++ [ EvSetenv "PYTHONPATH" (pythonpath pd rt) ].
Proof.
  rewrite <- (identity_env_path h rt).
  unfold environment_events, build_environment, identity_env, setenv, chdir,
    getenv.
  destruct (_NSGetExecutablePath h PATH_MAX), pd; reflexivity.
Qed.

(** X22. With both overrides set to non-empty values, [HOME] has to be
    set but its value does not matter: started with any other value of
    [HOME], the same machine exits with the same status and does
    exactly the same things. *)
Theorem home_value_irrelevant_with_overrides h home home' d p :
  getenv (environ h) "HOME" = Some home ->
  getenv (environ h) "CLICKSPEAK_RUNTIME_DIR" = Some d -> d <> "" ->
  getenv (environ h) "CLICKSPEAK_PROJECT_DIR" = Some p -> p <> "" ->
  let h' := with_environ h (<["HOME" := home']> (environ h)) in
  (main h').1.1 = (main h).1.1 /\ (main h').2 = (main h).2.
Proof.
  intros Hhome Hd Hdne Hp Hpne h'.
  apply String.eqb_neq in Hdne, Hpne.
  assert (Hhome' : getenv (environ h') "HOME" = Some home')
    by apply lookup_insert_eq.
  assert (Hd' : getenv (environ h') "CLICKSPEAK_RUNTIME_DIR" = Some d)
    by (unfold getenv, h'; cbn [environ with_environ];
        rewrite lookup_insert_ne by done; exact Hd).
  assert (Hp' : getenv (environ h') "CLICKSPEAK_PROJECT_DIR" = Some p)
    by (unfold getenv, h'; cbn [environ with_environ];
        rewrite lookup_insert_ne by done; exact Hp).
  assert (Hrt : get_runtime_dir h = Some d)
    by (unfold get_runtime_dir; rewrite Hd, Hdne; reflexivity).
  assert (Hrt' : get_runtime_dir h' = Some d)
    by (unfold get_runtime_dir; rewrite Hd', Hdne; reflexivity).
  assert (Hpd : find_project_dir h = Some p)
    by (unfold find_project_dir; rewrite Hp, Hpne; reflexivity).
  assert (Hpd' : find_project_dir h' = Some p)
    by (unfold find_project_dir; rewrite Hp', Hpne; reflexivity).
  rewrite (main_with_home h home d Hhome Hrt),
    (main_with_home h' home' d Hhome' Hrt'), Hpd, Hpd'.
  change (runtime_exists h' d) with (runtime_exists h d).
  destruct (runtime_exists h d); [|split; reflexivity].
  rewrite !launch_parts. cbn [fst snd].
  change (embed_python h' d) with (embed_python h d).
  split; [reflexivity|]. f_equal.
  rewrite !environment_events_path.
  change (_NSGetExecutablePath h' PATH_MAX) with (_NSGetExecutablePath h PATH_MAX).
  replace (environ h' !! "PATH") with (environ h !! "PATH"); [reflexivity|].
  unfold h'. cbn [environ with_environ]. rewrite lookup_insert_ne by done.
  reflexivity.
Qed.

(** X23. When [fork] fails, [show_error] shows no dialog and waits for
    nothing; a launch that ends with a launcher-level error still exits
    with status 1. *)
Theorem fork_failure_shows_nothing h e :
  fork h = ForkFailed ->
  fails_with h e ->
  (main h).1.1 = Returned 1 /\
  dialogs_of (main h).2 = [] /\
  waits_of (main h).2 = [].
Proof.
  intros Hfork [Hexit _]. split; [exact Hexit|].
  assert (Hshow : forall msg, waits_of (show_error h msg) = [])
    by (intros msg; unfold show_error; rewrite Hfork; reflexivity).
  destruct (validated h) eqn:Hv.
  - destruct (main_validated h Hv) as (rt & Hrt & Hex & ->). split.
    + destruct (rejection h rt) as [status|] eqn:Hrej.
      * destruct (launch_rejected h rt (find_project_dir h) status Hrej)
          as (_ & Hrep). destruct Hrep as (_ & _ & _ & _ & Hd).
        apply Hd. exact Hfork.
      * destruct (launch_accepted h rt (find_project_dir h) Hrej)
          as (_ & _ & _ & Hd & _). exact Hd.
    + rewrite launch_parts. cbn [snd]. unfold waits_of. rewrite omap_app.
      fold (waits_of (embed_python h rt).2).
      replace (omap _ (environment_events h rt (find_project_dir h)))
        with (@nil Z).
      * destruct (embed_python_embedding h rt) as [w _ _|config _ _ _].
        -- unfold fail. cbn [snd]. apply (Hshow msg_init_failed).
        -- unfold initialize_and_run, fail.
           destruct (exception (Py_InitializeFromConfig h config)).
           ++ cbn [snd]. apply (Hshow msg_init_failed).
           ++ unfold run_entry_point.
              destruct (PyRun_SimpleString h entry_point); reflexivity.
      * rewrite environment_events_path.
        destruct (_NSGetExecutablePath h PATH_MAX), (find_project_dir h);
          reflexivity.
  - destruct (main_not_validated h Hv) as (msg & _ & ->). cbn [snd].
    split; [|apply Hshow].
    apply show_error_no_child. exact Hfork.
Qed.

(** *** The theorems at work on the sample machines *)

Lemma find_project_dir_first_match_witness :
  is_Some (files Samples.host_two_projects
             !! project_manifest ("/Users/me" +:+ "/work/clickspeak")) /\
  find_project_dir Samples.host_two_projects
    = Some ("/Users/me" +:+ "/clickspeak").
Proof.
  split; [vm_compute; eauto|].
  apply (find_project_dir_first_match Samples.host_two_projects
           "/Users/me" 1 "/clickspeak").
  - left. vm_compute. reflexivity.
  - vm_compute. reflexivity.
  - vm_compute. reflexivity.
  - reflexivity.
  - intros j s' Hj Hs'. destruct j as [|j]; [|lia].
    injection Hs' as <-. vm_compute. reflexivity.
  - vm_compute. eauto.
Defined.

Lemma find_project_dir_none_witness :
  find_project_dir Samples.host_ready = None.
Proof.
  apply (find_project_dir_none Samples.host_ready).
  - intros home H. vm_compute in H. injection H as <-. vm_compute. reflexivity.
  - split; [left; vm_compute; reflexivity|].
    intros home s H Hs. vm_compute in H. injection H as <-.
    repeat (destruct Hs as [<-|Hs]; [vm_compute; reflexivity|]). destruct Hs.
Defined.

Lemma unvalidated_launch_touches_nothing_witness :
  validated Samples.host_unprovisioned = false /\
  (main Samples.host_unprovisioned).1.2 = environ Samples.host_unprovisioned.
Proof.
  assert (H : validated Samples.host_unprovisioned = false)
    by (vm_compute; reflexivity).
  split; [exact H|].
  apply (unvalidated_launch_touches_nothing Samples.host_unprovisioned H).
Defined.



Lemma launch_environment_witness :
  validated Samples.host_ready = true /\
  (main Samples.host_ready).1.2 !! "HOME" = Some "/Users/me".
Proof.
  assert (H : validated Samples.host_ready = true) by (vm_compute; reflexivity).
  split; [exact H|].
  destruct (launch_environment Samples.host_ready H)
    as (rt & _ & _ & _ & _ & _ & _ & _ & Hframe).
  rewrite Hframe; [vm_compute; reflexivity|].
  intros Hin. repeat (destruct Hin as [Hin|Hin]; [discriminate|]). destruct Hin.
Defined.

Lemma path_prepends_homebrew_witness :
  validated Samples.host_ready = true /\
  (main Samples.host_ready).1.2 !! "PATH"
    = Some (homebrew_paths +:+ "/usr/bin:/bin").
Proof.
  assert (H : validated Samples.host_ready = true) by (vm_compute; reflexivity).
  split; [exact H|].
  destruct (path_prepends_homebrew Samples.host_ready H)
    as (new_path & H1 & _ & H3).
  rewrite H1. f_equal. apply H3. vm_compute. reflexivity.
Defined.

Lemma home_value_irrelevant_with_overrides_witness :
  (main (with_environ MoreSamples.host_overrides
           (<["HOME" := "/nowhere"]> (environ MoreSamples.host_overrides)))).2
  = (main MoreSamples.host_overrides).2.
Proof.
  refine (proj2 (home_value_irrelevant_with_overrides MoreSamples.host_overrides
                   "/Users/me" "/nowhere" (Provisioner.RUNTIME_DIR Samples.sh0)
                   "/Users/me/clickspeak" _ _ _ _ _)).
  - vm_compute. reflexivity.
  - vm_compute. reflexivity.
  - vm_compute. discriminate.
  - vm_compute. reflexivity.
  - discriminate.
Defined.

Lemma fork_failure_shows_nothing_witness :
  fork MoreSamples.host_no_fork = ForkFailed /\
  (main MoreSamples.host_no_fork).1.1 = Returned 1 /\
  dialogs_of (main MoreSamples.host_no_fork).2 = [].
Proof.
  split; [reflexivity|].
  assert (H : fails_with MoreSamples.host_no_fork RuntimeNotProvisioned).
  { split; [vm_compute; reflexivity|]. vm_compute. left. reflexivity. }
  destruct (fork_failure_shows_nothing MoreSamples.host_no_fork
              RuntimeNotProvisioned eq_refl H) as (H1 & H2 & _).
  split; assumption.
Defined.

End LauncherMore.

(** ** More about the provisioner *)

Module ProvisionerMore.
Import Str FS Provisioner ProvisionerSpec ProvisionerNotions.
Import StrFacts FSFacts ProvisionerProofs.

(** *** The search for a bootstrap interpreter *)

Lemma first_supported_all_probed sh fs l :
  Forall (fun c => ~ qualifies sh fs c) l ->
  (first_supported sh fs l).2 = probes fs l.
Proof.
  induction 1 as [|c l Hc _ IH]; simpl; [reflexivity|].
  pose proof (python_is_supported_probe sh fs c) as Hp.
  rewrite <- python_is_supported_qualifies in Hc.
  destruct (python_is_supported sh fs c) as [ok tr]. simpl in *.
  destruct ok; [congruence|].
  destruct (first_supported sh fs l) as [r tr']. simpl in *. congruence.
Qed.

(** X10. [resolve_host_python] probes the candidates in order and
    stops at the first one it accepts: the version checks it runs are
    exactly those of the executable candidates up to and including
    the accepted one, each once, and no candidate after it is run. A
    candidate that fails [[ -x ]] is never run. When no candidate is
    accepted, every executable candidate has been run once. *)
Theorem resolve_stops_at_first sh fs :
  (forall before c after,
      candidates sh = before ++ c :: after ->
      Forall (fun c' => ~ qualifies sh fs c') before ->
      qualifies sh fs c ->
      (resolve_host_python sh fs).2 = probes fs (before ++ [c])) /\
  (Forall (fun c => ~ qualifies sh fs c) (candidates sh) ->
   (resolve_host_python sh fs).2 = probes fs (candidates sh)).
Proof.
  unfold resolve_host_python. split.
  - intros before c after -> Hbefore Hc.
    induction Hbefore as [|c' before Hc' _ IH]; simpl.
    + pose proof (python_is_supported_probe sh fs c) as Hp.
      apply python_is_supported_qualifies in Hc.
      destruct (python_is_supported sh fs c) as [ok tr]. simpl in *. subst ok.
      simpl. rewrite Hp, app_nil_r. reflexivity.
    + pose proof (python_is_supported_probe sh fs c') as Hp.
      rewrite <- python_is_supported_qualifies in Hc'.
      destruct (python_is_supported sh fs c') as [ok tr]. simpl in *.
      destruct ok; [congruence|].
      destruct (first_supported sh fs (before ++ c :: after)) as [r tr'].
      simpl in *. congruence.
  - apply first_supported_all_probed.
Qed.

(** *** What [ensure_runtime] leaves behind *)

Lemma ancestor_outside dir a :
  In a (ancestors dir) -> under dir a = false.
Proof.
  intros Ha. apply ancestors_length in Ha.
  destruct (under dir a) eqn:U; [|reflexivity].
  apply under_length in U. lia.
Qed.

Lemma crash_state_3 sh run_tool b (fs : FS.t) :
  crash_state sh run_tool b 3 fs =
  let r := mkdir_p (RUNTIME_DIR sh) (rm_rf (RUNTIME_DIR sh) fs) in
  if r.1 then
    (0, r.2,
     [ EvRmRf (RUNTIME_DIR sh); EvMkdirP (RUNTIME_DIR sh);
       EvEcho ("[clickspeak] Bootstrapping app runtime at " +:+ RUNTIME_DIR sh
               +:+ " using " +:+ b) ])
  else (1, r.2, [EvRmRf (RUNTIME_DIR sh); EvMkdirP (RUNTIME_DIR sh)]).
Proof.
  unfold crash_state. cbn [firstn rebuild_cmds run_cmds exec_cmd].
  destruct (mkdir_p (RUNTIME_DIR sh) (rm_rf (RUNTIME_DIR sh) fs)) as [ok fs1].
  destruct ok; reflexivity.
Qed.


Lemma run_cmds_cons_ok run_tool c rest (fs fs' : FS.t) tr :
  run_cmds run_tool (c :: rest) fs = (0, fs', tr) ->
  exists fs1 tr1 tr2,
    exec_cmd run_tool c fs = (0, fs1, tr1) /\
    run_cmds run_tool rest fs1 = (0, fs', tr2).
Proof.
  simpl. destruct (exec_cmd run_tool c fs) as [[st fs1] tr1].
  destruct st; [|discriminate].
  destruct (run_cmds run_tool rest fs1) as [[st2 fs2] tr2] eqn:R.
  intros H. injection H as -> -> _. exists fs1, tr1, tr2.
  split; [reflexivity|exact R].
Qed.

Lemma exec_run_ok run_tool p a (fs fs' : FS.t) tr :
  exec_cmd run_tool (CRun p a) fs = (0, fs', tr) -> run_tool p a fs = (0, fs').
Proof.
  simpl. destruct (run_tool p a fs) as [st fs1].
  intros H. injection H as -> -> _. reflexivity.
Qed.

Lemma exec_write_ok run_tool p d (fs fs' : FS.t) tr :
  exec_cmd run_tool (CPrintfTo p d) fs = (0, fs', tr) -> write p d fs = Some fs'.
Proof.
  simpl. destruct (write p d fs) as [fs1|]; [|discriminate].
  intros H. injection H as -> _. reflexivity.
Qed.

(** A rebuild that went through: the three programs came back with
    status 0, one after the other, and the marker was written on what
    the last of them left. *)
Lemma rebuild_success sh run_tool b (fs fs' : FS.t) tr :
  run_cmds run_tool (rebuild_cmds sh b) fs = (0, fs', tr) ->
  exists fs0 fs1 fs2 fs3 : FS.t,
    run_tool b ["-m"; "venv"; RUNTIME_DIR sh] fs0 = (0, fs1) /\
    run_tool (RUNTIME_PYTHON sh)
      ["-m"; "pip"; "install"; "--upgrade"; "pip"; "setuptools"; "wheel"] fs1
      = (0, fs2) /\
    run_tool (RUNTIME_PYTHON sh) ["-m"; "pip"; "install"; "-e"; PROJECT_DIR sh] fs2
      = (0, fs3) /\
    write (marker_path sh) (required_version +:+ nl) fs3 = Some fs'.
Proof.
  unfold rebuild_cmds. intros H.
  apply run_cmds_cons_ok in H as (fsa & ? & ? & _ & H).
  apply run_cmds_cons_ok in H as (fsb & ? & ? & _ & H).
  apply run_cmds_cons_ok in H as (fs0 & ? & ? & _ & H).
  apply run_cmds_cons_ok in H as (fs1 & ? & ? & H1 & H).
  apply run_cmds_cons_ok in H as (fs2 & ? & ? & H2 & H).
  apply run_cmds_cons_ok in H as (fs3 & ? & ? & H3 & H).
  apply run_cmds_cons_ok in H as (fs4 & ? & ? & H4 & H).
  simpl in H. injection H as <- _.
  apply exec_run_ok in H1, H2, H3. apply exec_write_ok in H4.
  exists fs0, fs1, fs2, fs3. auto.
Qed.

Lemma reported_same_node (fs fs' : FS.t) p :
  fs' !! p = fs !! p -> reported_version fs' p = reported_version fs p.
Proof. unfold reported_version, run_version. intros ->. reflexivity. Qed.

Lemma reported_interpreter sh fs v :
  reported_version fs (RUNTIME_PYTHON sh) = Some v -> interpreter_executable sh fs.
Proof.
  unfold reported_version, version_of, run_version, interpreter_executable.
  destruct (fs !! RUNTIME_PYTHON sh) as [[|f]|]; try discriminate.
  destruct (f_exec f) eqn:E; [|discriminate]. eauto.
Qed.

Lemma rebuild_success_ready sh run_tool b (fs fs' : FS.t) tr :
  venv_installs sh run_tool ->
  pip_preserves sh run_tool ->
  run_cmds run_tool (rebuild_cmds sh b) fs = (0, fs', tr) ->
  ready sh fs'.
Proof.
  intros Hvenv Hpip H.
  apply rebuild_success in H as (fs0 & fs1 & fs2 & fs3 & E1 & E2 & E3 & W).
  apply Hvenv in E1. apply (Hpip _ _ _ E2) in E1. apply (Hpip _ _ _ E3) in E1.
  destruct (write_lookup _ _ _ _ W) as (Hcat & Hf & Hframe).
  assert (Hq : reported_version fs' (RUNTIME_PYTHON sh) = Some required_version).
  { rewrite (reported_same_node fs3 fs'); [exact E1|].
    apply Hframe. intros E. symmetry in E. exact (marker_ne_python sh E). }
  split; [eapply reported_interpreter; exact Hq|].
  split; [|split; [|exact Hq]].
  - unfold marker_exists. unfold cat in Hcat.
    destruct (fs' !! marker_path sh); [eauto|discriminate].
  - unfold recorded_version. rewrite Hcat. reflexivity.
Qed.

(** X12. Provided a [python -m venv] that exits with status 0 leaves
    a working interpreter of the required version in the runtime
    directory and [pip] runs that exit with status 0 keep it working,
    an [ensure_runtime] that returns status 0 leaves an installation
    that satisfies the ready invariant, whether it found one or
    rebuilt it; running it again on the result changes nothing and
    runs only the version check. *)
Theorem ensure_runtime_success_ready sh run_tool fs fs' tr :
  venv_installs sh run_tool ->
  pip_preserves sh run_tool ->
  ensure_runtime sh run_tool fs = (0, fs', tr) ->
  ready sh fs' /\
  ensure_runtime sh run_tool fs'
  = (0, fs', [EvCat (marker_path sh); version_check (RUNTIME_PYTHON sh)]).
Proof.
  intros Hvenv Hpip Hrun.
  assert (Hready : ready sh fs').
  { destruct (ensure_runtime_cases sh run_tool fs)
      as [[Hr E]|[(_ & _ & E)|(_ & _ & E)]];
      rewrite E in Hrun.
    - injection Hrun as <- _.
      apply runtime_is_ready_sound. exact Hr.
    - discriminate.
    - destruct (run_cmds run_tool (rebuild_cmds sh (bootstrap_python sh fs)) fs)
        as [[st fs1] tr1] eqn:R.
      cbn [fst snd] in Hrun. injection Hrun as -> -> _.
      exact (rebuild_success_ready sh run_tool _ fs fs' tr1 Hvenv Hpip R). }
  split; [exact Hready|].
  apply ready_runtime_is_ready in Hready.
  pose proof (runtime_is_ready_trace sh fs' Hready) as Htr.
  unfold ensure_runtime.
  destruct (runtime_is_ready sh fs') as [r tr0]. simpl in *. subst.
  reflexivity.
Qed.


(** X24. [runtime_is_ready] runs the runtime's interpreter only when
    everything it can check without running it holds: the interpreter
    has the execute bit, the marker is a regular file and records the
    required version. For an installation whose marker is missing or
    stale no program is run at all. *)
Theorem runtime_is_ready_runs_last sh fs prog args :
  In (EvRun prog args) (runtime_is_ready sh fs).2 ->
  EvRun prog args = version_check (RUNTIME_PYTHON sh) /\
  test_x fs (RUNTIME_PYTHON sh) = true /\
  test_f fs (marker_path sh) = true /\
  recorded_version sh fs = Some required_version.
Proof.
  unfold runtime_is_ready.
  destruct (test_x fs (RUNTIME_PYTHON sh)) eqn:Hx; cbn [negb]; [|intros []].
  destruct (test_f fs (marker_path sh)) eqn:Hf; cbn [negb]; [|intros []].
  destruct (String.eqb _ required_version) eqn:Hv; cbn [negb];
    [|intros [H|[]]; discriminate].
  pose proof (python_is_supported_probe sh fs (RUNTIME_PYTHON sh)) as Hp.
  destruct (python_is_supported sh fs (RUNTIME_PYTHON sh)) as [ok tr].
  cbn [snd] in *. subst tr. rewrite Hx.
  intros [H|[H|[]]]; [discriminate|].
  split; [symmetry; exact H|]. split; [reflexivity|]. split; [reflexivity|].
  apply String.eqb_eq in Hv. unfold recorded_version, version_of.
  unfold test_f, cat in *.
  destruct (fs !! marker_path sh) as [[|m]|]; try discriminate.
  destruct (f_data m); simpl in *; [congruence|].
  vm_compute in Hv. discriminate.
Qed.

(** *** What [ensure_runtime] does *)

Lemma run_cmds_events run_tool cs (fs : FS.t) e :
  In e (run_cmds run_tool cs fs).2 -> exists c, In c cs /\ e = cmd_event c.
Proof.
  revert fs. induction cs as [|c cs IH]; intros fs; simpl; [intros []|].
  assert (Hc : In e (exec_cmd run_tool c fs).2 -> e = cmd_event c).
  { destruct c as [d|d|l|p a|p d]; simpl.
    - intros [<-|[]]; reflexivity.
    - destruct (mkdir_p d fs). intros [<-|[]]; reflexivity.
    - intros [<-|[]]; reflexivity.
    - destruct (run_tool p a fs). intros [<-|[]]; reflexivity.
    - destruct (write p d fs); [|intros []]. intros [<-|[]]; reflexivity. }
  destruct (exec_cmd run_tool c fs) as [[st fs1] tr1]. simpl in Hc.
  destruct st.
  - specialize (IH fs1).
    destruct (run_cmds run_tool cs fs1) as [[st2 fs2] tr2]. simpl in *.
    intros Hin. apply in_app_or in Hin as [Hin|Hin].
    + exists c. auto.
    + destruct (IH Hin) as (c' & Hc' & ->). eauto.
  - simpl. intros Hin. exists c. auto.
Qed.

(** X14. Whatever the file system and the external programs do, the
    commands of [ensure_runtime] itself are these and no others: it
    reads the marker, asks the runtime's interpreter and the
    bootstrap candidates for their version, prints lines, deletes the
    runtime directory, re-creates it with [mkdir -p] (which also
    makes the directories that lead to it where they are missing),
    creates the venv in it, runs [pip] with the runtime's
    interpreter, and writes the marker. In particular its only
    commands that delete or write are the [rm -rf] and the
    [mkdir -p] of the runtime directory and the write of the marker
    in it, and the project directory is only ever an argument of
    [pip install -e]. *)
Theorem ensure_runtime_events sh run_tool fs :
  Forall (provisioning_event sh) (ensure_runtime sh run_tool fs).2 /\
  (forall e,
      In e (ensure_runtime sh run_tool fs).2 -> is_write e = true ->
      e = EvRmRf (RUNTIME_DIR sh) \/ e = EvMkdirP (RUNTIME_DIR sh) \/
      e = EvWrite (marker_path sh) (required_version +:+ nl)).
Proof.
  assert (H : Forall (provisioning_event sh) (ensure_runtime sh run_tool fs).2).
  { apply List.Forall_forall. intros e.
    assert (Hres : In e (resolve_host_python sh fs).2 -> provisioning_event sh e).
    { intros Hin. apply first_supported_events in Hin as (c & Hc & ->).
      constructor. exact Hc. }
    assert (Hchk : In e (runtime_is_ready sh fs).2 -> provisioning_event sh e).
    { intros Hin. apply runtime_is_ready_events in Hin as [-> | ->]; constructor. }
    destruct (ensure_runtime_cases sh run_tool fs)
      as [[_ E]|[(_ & _ & E)|(_ & _ & E)]];
      rewrite E; cbn [fst snd]; intros Hin.
    - exact (Hchk Hin).
    - apply in_app_or in Hin as [Hin|Hin]; [exact (Hchk Hin)|].
      apply in_app_or in Hin as [Hin|Hin]; [exact (Hres Hin)|].
      apply in_map_iff in Hin as (line & <- & _). constructor.
    - apply in_app_or in Hin as [Hin|Hin]; [exact (Hchk Hin)|].
      apply in_app_or in Hin as [Hin|Hin]; [exact (Hres Hin)|].
      apply run_cmds_events in Hin as (c & Hc & ->).
      unfold rebuild_cmds in Hc. simpl in Hc.
      repeat (destruct Hc as [<-|Hc]; [constructor|]). destruct Hc. }
  split; [exact H|].
  intros e Hin Hw. rewrite List.Forall_forall in H.
  destruct (H e Hin); try discriminate; auto.
Qed.

(** An [ensure_runtime] that returned status 0 has a marker that is a
    regular file, whatever the external programs did. *)
Lemma ensure_runtime_success_marker sh run_tool fs fs' tr :
  ensure_runtime sh run_tool fs = (0, fs', tr) ->
  test_f fs' (marker_path sh) = true.
Proof.
  intros Hrun.
  destruct (ensure_runtime_cases sh run_tool fs)
    as [[Hr E]|[(_ & _ & E)|(_ & _ & E)]];
    rewrite E in Hrun.
  - injection Hrun as <- _. rewrite runtime_is_ready_bool in Hr.
    rewrite !andb_true_iff in Hr. tauto.
  - discriminate.
  - destruct (run_cmds run_tool (rebuild_cmds sh (bootstrap_python sh fs)) fs)
      as [[st fs1] tr1] eqn:R.
    cbn [fst snd] in Hrun. injection Hrun as -> -> _.
    apply rebuild_success in R as (_ & _ & _ & fs3 & _ & _ & _ & W).
    apply write_lookup in W as (_ & Hf & _). exact Hf.
Qed.

(** X15. An installation whose marker is missing, unreadable or
    records another version is rebuilt from scratch as soon as a
    bootstrap interpreter qualifies whose name does not come back
    empty from [echo] and the command substitution: the first thing
    [ensure_runtime] changes is the wholesale deletion of the runtime
    directory, before which it has only read. *)
Theorem stale_runtime_is_rebuilt sh run_tool fs c :
  recorded_version sh fs <> Some required_version ->
  first_qualifying sh fs (candidates sh) c ->
  echoed c <> "" ->
  exists pre post,
    (ensure_runtime sh run_tool fs).2
    = pre ++ EvRmRf (RUNTIME_DIR sh) :: post /\
    Forall (fun e => is_write e = false) pre.
Proof.
  intros Hrec Hc Hne.
  assert (Hnot : (runtime_is_ready sh fs).1 = false).
  { destruct ((runtime_is_ready sh fs).1) eqn:E; [|reflexivity].
    apply runtime_is_ready_sound in E. destruct E as (_ & _ & E & _).
    contradiction. }
  pose proof (bootstrap_of_first sh fs c Hc) as Hb.
  destruct (ensure_runtime_cases sh run_tool fs)
    as [[Hr _]|[(_ & Hb' & _)|(_ & _ & E)]].
  - congruence.
  - congruence.
  - rewrite E. cbn [snd].
    exists ((runtime_is_ready sh fs).2 ++ (resolve_host_python sh fs).2).
    change (rebuild_cmds sh (bootstrap_python sh fs))
      with (CRmRf (RUNTIME_DIR sh) :: tl (rebuild_cmds sh (bootstrap_python sh fs))).
    rewrite run_cmds_rm_first. cbn [snd].
    eexists. split; [|apply read_only_checks].
    rewrite <- app_assoc. reflexivity.
Qed.

(** *** The theorems at work on the sample machines *)

Lemma resolve_stops_at_first_witness :
  qualifies Samples.sh0 Samples.fs_fresh "/opt/homebrew/bin/python3.12" /\
  (resolve_host_python Samples.sh0 Samples.fs_fresh).2
    = [version_check "/opt/homebrew/bin/python3.12"].
Proof.
  assert (H : qualifies Samples.sh0 Samples.fs_fresh "/opt/homebrew/bin/python3.12").
  { split; [vm_compute; reflexivity|].
    exists "/opt/homebrew/bin/python3.12". split; vm_compute; reflexivity. }
  split; [exact H|].
  rewrite (proj1 (resolve_stops_at_first Samples.sh0 Samples.fs_fresh)
             [] "/opt/homebrew/bin/python3.12" ["/usr/bin/python3"]).
  - vm_compute. reflexivity.
  - vm_compute. reflexivity.
  - constructor.
  - exact H.
Defined.

Lemma tool0_venv_installs : venv_installs Samples.sh0 Samples.tool0.
Proof.
  intros b fs fs' H. unfold Samples.tool0 in H. injection H as <-.
  unfold reported_version, run_version.
  rewrite lookup_insert_eq. vm_compute. reflexivity.
Qed.

Lemma tool0_pip_preserves : pip_preserves Samples.sh0 Samples.tool0.
Proof.
  intros args fs fs' H _. unfold Samples.tool0 in H. injection H as <-.
  unfold reported_version, run_version.
  rewrite lookup_insert_eq. vm_compute. reflexivity.
Qed.

Lemma ensure_runtime_success_ready_witness :
  (ensure_runtime Samples.sh0 Samples.tool0 Samples.fs_fresh).1.1 = 0 /\
  ready Samples.sh0
    (ensure_runtime Samples.sh0 Samples.tool0 Samples.fs_fresh).1.2.
Proof.
  assert (H : (ensure_runtime Samples.sh0 Samples.tool0 Samples.fs_fresh).1.1 = 0)
    by (vm_compute; reflexivity).
  split; [exact H|].
  destruct (ensure_runtime Samples.sh0 Samples.tool0 Samples.fs_fresh)
    as [[st fs'] tr] eqn:E.
  cbn [fst snd] in *. subst st.
  exact (proj1 (ensure_runtime_success_ready Samples.sh0 Samples.tool0
                  Samples.fs_fresh fs' tr tool0_venv_installs
                  tool0_pip_preserves E)).
Defined.

Lemma tool_pip_fails_spares_marker :
  tools_spare_marker Samples.sh0 Samples.tool_pip_fails.
Proof.
  intros prog args fs H. unfold Samples.tool_pip_fails.
  destruct (String.eqb (nth 3 args "") "-e"); [exact H|].
  apply tool0_spares_marker. exact H.
Qed.


Lemma ensure_runtime_events_witness :
  In (EvRmRf (RUNTIME_DIR Samples.sh0))
    (ensure_runtime Samples.sh0 Samples.tool0 Samples.fs_fresh).2 /\
  Forall (provisioning_event Samples.sh0)
    (ensure_runtime Samples.sh0 Samples.tool0 Samples.fs_fresh).2.
Proof.
  split; [vm_compute; auto 10|].
  exact (proj1 (ensure_runtime_events Samples.sh0 Samples.tool0
                  Samples.fs_fresh)).
Defined.

Lemma stale_runtime_is_rebuilt_witness :
  recorded_version Samples.sh0
    (delete (marker_path Samples.sh0) Samples.fs_ready)
    <> Some required_version /\
  exists pre post,
    (ensure_runtime Samples.sh0 Samples.tool0
       (delete (marker_path Samples.sh0) Samples.fs_ready)).2
    = pre ++ EvRmRf (RUNTIME_DIR Samples.sh0) :: post.
Proof.
  assert (H : recorded_version Samples.sh0
                (delete (marker_path Samples.sh0) Samples.fs_ready)
              <> Some required_version)
    by (vm_compute; discriminate).
  split; [exact H|].
  destruct (stale_runtime_is_rebuilt Samples.sh0 Samples.tool0
              (delete (marker_path Samples.sh0) Samples.fs_ready)
              "/opt/homebrew/bin/python3.12" H)
    as (pre & post & Htr & _).
  - exists [], ["/usr/bin/python3"].
    split; [vm_compute; reflexivity|]. split; [constructor|].
    split; [vm_compute; reflexivity|].
    exists "/opt/homebrew/bin/python3.12". split; vm_compute; reflexivity.
  - vm_compute. discriminate.
  - exists pre, post. exact Htr.
Defined.

Lemma runtime_is_ready_runs_last_witness :
  In (version_check (RUNTIME_PYTHON Samples.sh0))
    (runtime_is_ready Samples.sh0 Samples.fs_ready).2 /\
  recorded_version Samples.sh0 Samples.fs_ready = Some required_version.
Proof.
  assert (H : In (version_check (RUNTIME_PYTHON Samples.sh0))
                (runtime_is_ready Samples.sh0 Samples.fs_ready).2)
    by (vm_compute; auto).
  split; [exact H|].
  exact (proj2 (proj2 (proj2 (runtime_is_ready_runs_last Samples.sh0
                                Samples.fs_ready _ _ H)))).
Defined.


End ProvisionerMore.

(** ** Provisioning, then launching *)

Module EndToEnd.
Import Str FS StrFacts FSFacts.
Import Provisioner ProvisionerSpec ProvisionerProofs ProvisionerMore.
Import Launcher LauncherSpec LauncherNotions LauncherProofs LauncherMore.

Lemma default_runtime_dir sh h :
  getenv (environ h) "HOME" = Some (HOME sh) ->
  no_override h "CLICKSPEAK_RUNTIME_DIR" ->
  (N.of_nat (String.length (HOME sh)) + 67 < PATH_MAX)%N ->
  get_runtime_dir h = Some (RUNTIME_DIR sh) /\
  marker_of (RUNTIME_DIR sh) = marker_path sh /\
  venv_python (RUNTIME_DIR sh) = RUNTIME_PYTHON sh.
Proof.
  intros Hhome Ho Hfit.
  assert (Hlen : String.length (RUNTIME_DIR sh) = String.length (HOME sh) + 47).
  { unfold RUNTIME_DIR. rewrite length_append. reflexivity. }
  split; [|split].
  - unfold get_runtime_dir. rewrite Hhome.
    fold (RUNTIME_DIR sh). rewrite snprintf_fits by lia.
    destruct Ho as [-> | ->]; reflexivity.
  - unfold marker_of, marker_path. apply snprintf_fits.
    rewrite length_append, Hlen.
    set (n := String.length (HOME sh)) in *. clearbody n. simpl. lia.
  - unfold venv_python, RUNTIME_PYTHON. apply snprintf_fits.
    rewrite length_append, Hlen.
    set (n := String.length (HOME sh)) in *. clearbody n. simpl. lia.
Qed.

(** X16. The launcher looks where the installer provisions. After an
    [ensure_runtime] that returned status 0, a launch on the resulting
    file system with the same [HOME] and no runtime override (and a
    home directory short enough for the path buffers) resolves the
    runtime directory the script provisioned, finds the marker it wrote,
    passes the runtime check, and names the provisioned interpreter
    path as the executable to configure; no tool hypothesis is
    needed. *)
Theorem provisioned_runtime_passes_check sh run_tool fs fs' tr h :
  ensure_runtime sh run_tool fs = (0, fs', tr) ->
  files h = fs' ->
  getenv (environ h) "HOME" = Some (HOME sh) ->
  no_override h "CLICKSPEAK_RUNTIME_DIR" ->
  (N.of_nat (String.length (HOME sh)) + 67 < PATH_MAX)%N ->
  get_runtime_dir h = Some (RUNTIME_DIR sh) /\
  validated h = true /\
  main h = launch h (RUNTIME_DIR sh) (find_project_dir h) /\
  venv_python (RUNTIME_DIR sh) = RUNTIME_PYTHON sh.
Proof.
  intros Hrun Hfiles Hhome Ho Hfit.
  destruct (default_runtime_dir sh h Hhome Ho Hfit) as (Hrt & Hm & Hpy).
  apply ensure_runtime_success_marker in Hrun.
  assert (Hex : runtime_exists h (RUNTIME_DIR sh) = true).
  { apply runtime_exists_lookup. rewrite Hm, Hfiles.
    unfold test_f in Hrun. destruct (fs' !! marker_path sh); [eauto|discriminate]. }
  split; [exact Hrt|]. split; [|split; [|exact Hpy]].
  - unfold validated. rewrite Hhome, Hrt. exact Hex.
  - rewrite (main_with_home h (HOME sh) (RUNTIME_DIR sh) Hhome Hrt), Hex.
    reflexivity.
Qed.

Lemma provisioned_runtime_passes_check_witness :
  (ensure_runtime Samples.sh0 Samples.tool0 Samples.fs_fresh).1.1 = 0 /\
  validated
    (Samples.mk_host Samples.env_home
       (ensure_runtime Samples.sh0 Samples.tool0 Samples.fs_fresh).1.2 Some)
  = true.
Proof.
  assert (H : (ensure_runtime Samples.sh0 Samples.tool0 Samples.fs_fresh).1.1 = 0)
    by (vm_compute; reflexivity).
  split; [exact H|].
  destruct (ensure_runtime Samples.sh0 Samples.tool0 Samples.fs_fresh)
    as [[st fs'] tr] eqn:E.
  cbn [fst snd] in *. subst st.
  refine (proj1 (proj2 (provisioned_runtime_passes_check Samples.sh0
                          Samples.tool0 Samples.fs_fresh fs' tr
                          (Samples.mk_host Samples.env_home fs' Some)
                          E _ _ _ _))).
  - reflexivity.
  - vm_compute. reflexivity.
  - left. vm_compute. reflexivity.
  - vm_compute. reflexivity.
Defined.

End EndToEnd.

(** ** The bundle and the script *)

Module InstallerProofs.
Import Str FS Provisioner ProvisionerSpec Installer InstallerNotions.
Import StrFacts FSFacts ProvisionerProofs ProvisionerMore.

(** *** Steps only add events *)

Lemma appends_ret {A} (a : A) : appends (ret a).
Proof. intros fs tr. unfold ret. rewrite app_nil_r. reflexivity. Qed.

Lemma appends_exit {A} n : appends (@exit A n).
Proof. intros fs tr. unfold exit. rewrite app_nil_r. reflexivity. Qed.

Lemma appends_bind {A B} (c : M A) (k : A -> M B) :
  appends c -> (forall a, appends (k a)) -> appends (bind c k).
Proof.
  intros Hc Hk fs tr. unfold bind. rewrite (Hc fs tr).
  destruct (c (fs, [])) as [[a|n] [fs1 evs1]].
  - rewrite (Hk a fs1 (tr ++ evs1)), (Hk a fs1 evs1).
    destruct (k a (fs1, [])) as [r [fs2 evs2]]. rewrite app_assoc. reflexivity.
  - reflexivity.
Qed.

Lemma appends_echo line : appends (echo line).
Proof. intros fs tr. reflexivity. Qed.

Lemma appends_mkdir dir : appends (do_mkdir_p dir).
Proof. intros fs tr. unfold do_mkdir_p. destruct (mkdir_p dir fs). reflexivity. Qed.

Lemma appends_rm dir : appends (do_rm_rf dir).
Proof. intros fs tr. reflexivity. Qed.

Lemma appends_test t : appends (test t).
Proof. intros fs tr. unfold test. rewrite app_nil_r. reflexivity. Qed.

Lemma appends_write path data : appends (write_file path data).
Proof.
  intros fs tr. unfold write_file. destruct (write path data fs);
    [reflexivity|rewrite app_nil_r; reflexivity].
Qed.

Create HintDb appends.

Section Steps.
Variable sh : shell.
Variable ext : tools.

Lemma appends_run prog args : appends (run ext prog args).
Proof. intros fs tr. unfold run. destruct (run_tool ext prog args fs). reflexivity. Qed.

Lemma appends_run_or_true prog args : appends (run_or_true ext prog args).
Proof.
  intros fs tr. unfold run_or_true. destruct (run_tool ext prog args fs).
  reflexivity.
Qed.

Lemma appends_assign prog args : appends (assign ext prog args).
Proof. intros fs tr. unfold assign. destruct (capture ext prog args fs). reflexivity. Qed.

Lemma appends_substitute prog args : appends (substitute ext prog args).
Proof.
  intros fs tr. unfold substitute. destruct (capture ext prog args fs).
  reflexivity.
Qed.

Lemma appends_cp src dst name : appends (cp_n_or_true src dst name).
Proof. intros fs tr. reflexivity. Qed.

Lemma appends_ensure_runtime : appends (do_ensure_runtime sh ext).
Proof.
  intros fs tr. unfold do_ensure_runtime.
  destruct (ensure_runtime sh (run_tool ext) fs) as [[st fs'] tr'].
  reflexivity.
Qed.

#[local] Hint Resolve appends_ret appends_exit appends_echo appends_mkdir appends_rm
  appends_test appends_write appends_run appends_run_or_true appends_assign
  appends_substitute appends_cp appends_ensure_runtime : appends.

Ltac appends_tac :=
  repeat first
    [ apply appends_bind; [|intros ?]
    | match goal with |- appends (if ?b then _ else _) => destruct b end
    | solve [auto with appends] ].

Lemma appends_compile bundle py : appends (compile_launcher sh ext bundle py).
Proof. unfold compile_launcher. appends_tac. Qed.

Lemma appends_write_bundle bundle : appends (write_bundle sh ext bundle).
Proof.
  unfold write_bundle, write_info_plist. appends_tac.
Qed.

(** *** The compiler run *)

Lemma python_is_not_cc : String.eqb (RUNTIME_PYTHON sh) "cc" = false.
Proof.
  apply String.eqb_neq. intros H. apply (f_equal String.length) in H.
  unfold RUNTIME_PYTHON, RUNTIME_DIR in H. rewrite !length_append in H.
  simpl in H. lia.
Qed.

(** What a step that has ended the script leaves to say. *)
Ltac ended Hpy :=
  simpl; rewrite ?Hpy; simpl; split; [discriminate|eauto].

Lemma compile_launcher_outcome bundle py (fs : FS.t) :
  String.eqb py "cc" = false ->
  let '(r, (fs', evs)) := compile_launcher sh ext bundle py (fs, []) in
  match r with
  | Next _ =>
      exists args, compiles evs = [args] /\ link_shape sh bundle args
  | Exit status =>
      status <> 0 /\
      (compiles evs = [] \/
       exists args, compiles evs = [args] /\ link_shape sh bundle args)
  end.
Proof.
  intros Hpy.
  unfold compile_launcher, bind, do_mkdir_p, echo, assign, test, exit, run,
    substitute.
  destruct (mkdir_p (bundle +:+ "/Contents/MacOS") fs) as [ok0 fs0].
  destruct ok0; cbn [app errexit]; [|ended Hpy].
  destruct (capture ext py ["-c"; sysconfig_include] _) as [st1 inc].
  destruct st1; [|ended Hpy].
  destruct (test_d _ (command_substitution inc)); cbn [negb]; [|ended Hpy].
  destruct (capture ext py ["-c"; sysconfig_framework] _) as [st2 fw].
  destruct st2; [|ended Hpy].
  destruct (String.eqb (command_substitution fw) "") eqn:Efw; cbn [negb].
  - destruct (capture ext py ["-c"; sysconfig_libdir] _) as [st3 libdir].
    destruct st3; [|ended Hpy].
    destruct (capture ext py ["-c"; sysconfig_ldversion] _) as [st4 ldv].
    destruct st4; [|ended Hpy].
    destruct (run_tool ext "cc" _ _) as [st5 fs5].
    assert (Hshape : link_shape sh bundle
              (cc_library (binary_of bundle) (source_of sh)
                 (command_substitution inc) (command_substitution libdir)
                 (command_substitution ldv)))
      by (eexists; right; eauto).
    destruct st5; cbn [errexit].
    + destruct (capture ext "file" _ _) as [st6 ty].
      simpl. rewrite Hpy. simpl. eauto.
    + ended Hpy.
  - apply String.eqb_neq in Efw.
    destruct (run_tool ext "cc" _ _) as [st5 fs5].
    assert (Hshape : link_shape sh bundle
              (cc_framework (binary_of bundle) (source_of sh)
                 (command_substitution inc) (command_substitution fw)))
      by (eexists; left; eauto).
    destruct st5; cbn [errexit].
    + destruct (capture ext "file" _ _) as [st6 ty].
      simpl. rewrite Hpy. simpl. eauto.
    + ended Hpy.
Qed.

Lemma compiles_app tr1 tr2 : compiles (tr1 ++ tr2) = compiles tr1 ++ compiles tr2.
Proof. apply omap_app. Qed.

(** Where a bundle write can end. *)
Lemma write_bundle_outcome bundle (fs : FS.t) :
  let '(r, (fs', evs)) := write_bundle sh ext bundle (fs, []) in
  match r with
  | Next _ =>
      exists args, compiles evs = [args] /\ link_shape sh bundle args
  | Exit status =>
      status <> 0 /\
      (compiles evs = [] \/
       exists args, compiles evs = [args] /\ link_shape sh bundle args)
  end /\
  (compiles evs <> [] ->
   In (EvWrite (bundle +:+ "/Contents/Info.plist") info_plist) evs).
Proof.
  unfold write_bundle, write_info_plist, bind at 1 2 3.
  unfold do_mkdir_p at 1 2, write_file.
  destruct (mkdir_p (bundle +:+ "/Contents/MacOS") fs) as [ok1 fs1].
  destruct ok1; cbn [app errexit];
    [|split; [split; [discriminate|left; reflexivity]|intros []; reflexivity]].
  destruct (mkdir_p (bundle +:+ "/Contents/Resources") fs1) as [ok2 fs2].
  destruct ok2; cbn [app errexit];
    [|split; [split; [discriminate|left; reflexivity]|intros []; reflexivity]].
  destruct (write _ info_plist _) as [fs3|];
    [|split; [split; [discriminate|left; reflexivity]|intros []; reflexivity]].
  unfold bind at 1. rewrite (appends_compile bundle (RUNTIME_PYTHON sh)).
  pose proof (compile_launcher_outcome bundle (RUNTIME_PYTHON sh) fs3
                python_is_not_cc) as Hc.
  destruct (compile_launcher sh ext bundle (RUNTIME_PYTHON sh) (fs3, []))
    as [[[]|st] [fs4 evs4]].
  - destruct Hc as (args & Hargs & Hshape).
    unfold bind, test, cp_n_or_true, echo, ret.
    destruct (test_f fs4 _); cbn [fst snd].
    + split.
      * exists args. split; [|exact Hshape].
        rewrite !compiles_app, Hargs. reflexivity.
      * intros _. apply in_or_app. left. apply in_or_app. left.
        simpl. auto.
    + split.
      * exists args. split; [|exact Hshape].
        rewrite !compiles_app, Hargs. reflexivity.
      * intros _. apply in_or_app. left. apply in_or_app. left.
        simpl. auto.
  - destruct Hc as (Hst & Hc). split.
    + split; [exact Hst|]. rewrite compiles_app.
      destruct Hc as [->|(args & -> & Hshape)]; [left; reflexivity|].
      right. exists args. auto.
    + intros _. apply in_or_app. left. simpl. auto.
Qed.


(** X18. When the directory [Contents/MacOS] could be made and the
    include directory the runtime's interpreter names is not a
    directory, [compile_launcher] prints the two error lines and ends
    the script with status 1: the compiler is not run, the framework
    prefix is not even asked for, and the file system is as
    [mkdir -p] left it, with nothing made but [Contents/MacOS] and
    the directories that lead to it. *)
Theorem missing_headers_stop_compile bundle py (fs fs1 : FS.t) tr out :
  mkdir_p (bundle +:+ "/Contents/MacOS") fs = (true, fs1) ->
  capture ext py ["-c"; sysconfig_include] fs1 = (0, out) ->
  test_d fs1 (command_substitution out) = false ->
  compile_launcher sh ext bundle py (fs, tr) =
  (Exit 1,
   (fs1,
    tr ++ [ EvMkdirP (bundle +:+ "/Contents/MacOS");
            EvEcho "[clickspeak] Compiling native launcher...";
            EvRun py ["-c"; sysconfig_include];
            EvEcho ("[clickspeak] ERROR: Python include directory not found: "
                    +:+ command_substitution out);
            EvEcho "[clickspeak] Install Python 3.12 development headers." ])).
Proof.
  intros Hmk Hcap Hdir.
  unfold compile_launcher, bind, do_mkdir_p, echo, assign, test, exit.
  rewrite Hmk. cbn [errexit]. rewrite Hcap. cbn [negb]. rewrite Hdir. cbn [negb].
  rewrite <- !app_assoc. reflexivity.
Qed.

(** *** The script as a whole *)

(** X19. When [ensure_runtime] fails, the script ends there with its
    status and has done nothing else: after the first progress line its
    events are those of [ensure_runtime], and the file system is the
    one [ensure_runtime] left; no bundle directory is made or removed,
    nothing is compiled or signed. *)
Theorem provisioning_failure_stops_install (fs : FS.t) :
  (ensure_runtime sh (run_tool ext) fs).1.1 <> 0 ->
  run_script sh ext fs =
  ((ensure_runtime sh (run_tool ext) fs).1.1,
   (ensure_runtime sh (run_tool ext) fs).1.2,
   EvEcho "[clickspeak] Building launch bundles..."
   :: (ensure_runtime sh (run_tool ext) fs).2).
Proof.
  intros Hst. unfold run_script, install_app, bind at 1 2, echo at 1,
    do_ensure_runtime. cbn [app].
  destruct (ensure_runtime sh (run_tool ext) fs) as [[st fs'] tr'].
  cbn [fst snd] in *. destruct st; [congruence|reflexivity].
Qed.

(** X20. When the script exits with 0, the runtime was provisioned
    with status 0; the bundle part of the run compiled the launcher
    exactly once, in one of the two linking shapes, to the binary of
    [/Applications/ClickSpeak.app]; and the run ended with the
    signing of that bundle, two progress lines and the permissions
    check of that same binary. *)
Theorem install_success_shape (fs : FS.t) :
  (run_script sh ext fs).1.1 = 0 ->
  (ensure_runtime sh (run_tool ext) fs).1.1 = 0 /\
  exists bundle_events args,
    (run_script sh ext fs).2 =
    EvEcho "[clickspeak] Building launch bundles..."
    :: (ensure_runtime sh (run_tool ext) fs).2
    ++ bundle_events
    ++ [ EvRun "codesign" ["--force"; "--deep"; "--sign"; "-"; APP_BUNDLE];
         EvEcho "[clickspeak] Launch bundles ready";
         EvEcho "[clickspeak] Quick permissions check:";
         EvRun (binary_of APP_BUNDLE) ["--check-permissions"] ] /\
    compiles bundle_events = [args] /\
    link_shape sh APP_BUNDLE args.
Proof.
  remember (run_script sh ext fs) as r eqn:Hr.
  unfold run_script, install_app, bind at 1 2, echo at 1, do_ensure_runtime
    in Hr.
  cbn [app] in Hr.
  destruct (ensure_runtime sh (run_tool ext) fs) as [[st fs1] tr1].
  cbn [fst snd] in *.
  destruct st as [|n]; cbn [errexit] in Hr;
    [|subst r; cbn [fst snd]; discriminate].
  unfold bind at 1 2, test at 1 in Hr.
  set (legacy := if test_d fs1 LEGACY_APP_BUNDLE
                 then do_rm_rf LEGACY_APP_BUNDLE else ret tt) in Hr.
  assert (Hlegacy : exists fs2 evs2,
             legacy (fs1, EvEcho "[clickspeak] Building launch bundles..."
                          :: tr1)
             = (Next tt, (fs2, (EvEcho "[clickspeak] Building launch bundles..."
                                 :: tr1) ++ evs2)) /\
             compiles evs2 = []).
  { subst legacy. destruct (test_d fs1 LEGACY_APP_BUNDLE).
    - eexists _, [_]. split; reflexivity.
    - exists fs1, []. rewrite app_nil_r. split; reflexivity. }
  destruct Hlegacy as (fs2 & evs2 & Hl & Hc2). rewrite Hl in Hr.
  unfold bind at 1 in Hr. rewrite (appends_write_bundle APP_BUNDLE fs2) in Hr.
  pose proof (write_bundle_outcome APP_BUNDLE fs2) as Hb.
  destruct (write_bundle sh ext APP_BUNDLE (fs2, [])) as [[[]|stb] [fs3 evs3]];
    destruct Hb as [Hb _].
  - destruct Hb as (args & Hargs & Hshape).
    unfold bind, run, echo, run_or_true in Hr.
    destruct (run_tool ext "codesign" _ fs3) as [st4 fs4].
    destruct st4; cbn [errexit] in Hr; [|subst r; discriminate].
    destruct (run_tool ext _ ["--check-permissions"] fs4) as [st5 fs5].
    subst r. intros _. split; [reflexivity|].
    exists (evs2 ++ evs3), args. cbn [fst snd].
    split; [|split; [rewrite compiles_app, Hc2, Hargs; reflexivity|exact Hshape]].
    simpl. rewrite <- !app_assoc. reflexivity.
  - destruct Hb as (Hst & _). subst r. cbn [fst snd]. congruence.
Qed.

Lemma bind_ext {A B} (c c' : M A) (k k' : A -> M B) st :
  (forall st, c' st = c st) ->
  (forall a st, k' a st = k a st) ->
  bind c k st = bind c' k' st.
Proof.
  intros Hc Hk. unfold bind. rewrite Hc.
  destruct (c st) as [[a|n] st']; [rewrite Hk|]; reflexivity.
Qed.

Lemma bind_assoc {A B C} (m : M A) (k1 : A -> M B) (k2 : B -> M C) st :
  bind (bind m k1) k2 st = bind m (fun a => bind (k1 a) k2) st.
Proof. unfold bind. destruct (m st) as [[a|n] st']; reflexivity. Qed.

(** X21. Once the runtime is provisioned, the first thing the script
    does is look at the legacy bundle [/Applications/clickspeak.app]:
    if it is a directory it is deleted wholesale, and only then is the
    first directory of the canonical bundle made; if it is not a
    directory nothing is deleted. *)
Theorem legacy_bundle_removed_first (fs : FS.t) :
  (ensure_runtime sh (run_tool ext) fs).1.1 = 0 ->
  exists rest,
    (run_script sh ext fs).2 =
    EvEcho "[clickspeak] Building launch bundles..."
    :: (ensure_runtime sh (run_tool ext) fs).2
    ++ (if test_d (ensure_runtime sh (run_tool ext) fs).1.2 LEGACY_APP_BUNDLE
        then [EvRmRf LEGACY_APP_BUNDLE] else [])
    ++ EvMkdirP (APP_BUNDLE +:+ "/Contents/MacOS") :: rest.
Proof.
  intros Hst.
  remember (run_script sh ext fs) as r eqn:Hr.
  unfold run_script, install_app, bind at 1 2, echo at 1, do_ensure_runtime
    in Hr.
  cbn [app] in Hr.
  destruct (ensure_runtime sh (run_tool ext) fs) as [[st fs1] tr1].
  cbn [fst snd] in *. subst st. cbn [errexit] in Hr.
  unfold bind at 1 2, test at 1 in Hr.
  set (legacy_events := if test_d fs1 LEGACY_APP_BUNDLE
                        then [EvRmRf LEGACY_APP_BUNDLE] else []).
  set (legacy := if test_d fs1 LEGACY_APP_BUNDLE
                 then do_rm_rf LEGACY_APP_BUNDLE else ret tt) in Hr.
  assert (Hlegacy : exists fs2,
             legacy (fs1, EvEcho "[clickspeak] Building launch bundles..."
                          :: tr1)
             = (Next tt, (fs2, (EvEcho "[clickspeak] Building launch bundles..."
                                 :: tr1) ++ legacy_events))).
  { subst legacy legacy_events. destruct (test_d fs1 LEGACY_APP_BUNDLE).
    - eexists. reflexivity.
    - exists fs1. rewrite app_nil_r. reflexivity. }
  destruct Hlegacy as (fs2 & Hl). rewrite Hl in Hr.
  unfold write_bundle in Hr. rewrite bind_assoc in Hr.
  unfold bind at 1, do_mkdir_p at 1 in Hr.
  destruct (mkdir_p (APP_BUNDLE +:+ "/Contents/MacOS") fs2) as [ok fs3].
  destruct ok; cbn [errexit] in Hr;
    [|subst r; cbn [fst snd]; exists []; rewrite <- !app_assoc; reflexivity].
  match type of Hr with
  | context [bind ?c ?k (?fs3, ?tr3)] =>
      assert (Ha : appends (bind c k))
        by (unfold write_info_plist; appends_tac);
      rewrite (Ha fs3 tr3) in Hr;
      destruct (bind c k (fs3, [])) as [[[]|stb] [fs4 evs4]]
  end; subst r; cbn [fst snd]; exists evs4;
    rewrite <- !app_assoc; reflexivity.
Qed.

(** X25. The result of the permissions check that ends the script
    never matters: with external programs that differ only in the
    exit status of the runs with the arguments [--check-permissions],
    the script exits with the same status, leaves the same file
    system and does the same things. *)
Theorem permissions_check_result_ignored status (fs : FS.t) :
  run_script sh (with_check_result ext status) fs = run_script sh ext fs.
Proof.
  assert (He : forall st,
             do_ensure_runtime sh (with_check_result ext status) st
             = do_ensure_runtime sh ext st).
  { intros [fs0 tr0]. unfold do_ensure_runtime, ensure_runtime.
    destruct (runtime_is_ready sh fs0) as [ready tr1].
    destruct ready; [reflexivity|].
    destruct (resolve_host_python sh fs0) as [[st out] tr2].
    destruct (String.eqb (command_substitution out) ""); reflexivity. }
  assert (Hcheck : forall prog st,
             run_or_true (with_check_result ext status) prog
               ["--check-permissions"] st
             = run_or_true ext prog ["--check-permissions"] st).
  { intros prog [fs0 tr0]. unfold run_or_true. cbn.
    destruct (run_tool ext prog ["--check-permissions"] fs0). reflexivity. }
  unfold run_script.
  replace (install_app sh (with_check_result ext status) (fs, []))
    with (install_app sh ext (fs, [])); [reflexivity|].
  unfold install_app.
  repeat (apply bind_ext; [intros ?|intros ? ?]);
    first [ apply He | apply Hcheck | symmetry; apply He
          | symmetry; apply Hcheck | reflexivity ].
Qed.

End Steps.

(** *** The theorems at work on the sample machines *)


Lemma missing_headers_stop_compile_witness :
  (compile_launcher Samples.sh0 MoreSamples.ext_framework APP_BUNDLE
     (RUNTIME_PYTHON Samples.sh0) (Samples.fs_fresh, [])).1 = Exit 1.
Proof.
  rewrite (missing_headers_stop_compile Samples.sh0 MoreSamples.ext_framework
             APP_BUNDLE (RUNTIME_PYTHON Samples.sh0) Samples.fs_fresh
             (mkdir_p (APP_BUNDLE +:+ "/Contents/MacOS") Samples.fs_fresh).2 []
             (MoreSamples.include_dir +:+ nl)).
  - reflexivity.
  - vm_compute. reflexivity.
  - vm_compute. reflexivity.
  - vm_compute. reflexivity.
Defined.

Lemma provisioning_failure_stops_install_witness :
  (ensure_runtime Samples.sh0 (run_tool MoreSamples.ext_framework)
     Samples.fs_old_python).1.1 <> 0 /\
  (run_script Samples.sh0 MoreSamples.ext_framework Samples.fs_old_python).1.1
    = 1.
Proof.
  assert (H : (ensure_runtime Samples.sh0 (run_tool MoreSamples.ext_framework)
                 Samples.fs_old_python).1.1 <> 0)
    by (vm_compute; discriminate).
  split; [exact H|].
  rewrite (provisioning_failure_stops_install Samples.sh0
             MoreSamples.ext_framework Samples.fs_old_python H).
  vm_compute. reflexivity.
Defined.

Lemma install_success_shape_witness :
  (run_script Samples.sh0 MoreSamples.ext_framework
     MoreSamples.fs_with_headers).1.1 = 0 /\
  (ensure_runtime Samples.sh0 (run_tool MoreSamples.ext_framework)
     MoreSamples.fs_with_headers).1.1 = 0.
Proof.
  assert (H : (run_script Samples.sh0 MoreSamples.ext_framework
                 MoreSamples.fs_with_headers).1.1 = 0)
    by (vm_compute; reflexivity).
  split; [exact H|].
  exact (proj1 (install_success_shape Samples.sh0
                  MoreSamples.ext_framework
                  MoreSamples.fs_with_headers H)).
Defined.

Lemma legacy_bundle_removed_first_witness :
  (ensure_runtime Samples.sh0 (run_tool MoreSamples.ext_framework)
     MoreSamples.fs_legacy).1.1 = 0 /\
  In (EvRmRf LEGACY_APP_BUNDLE)
    (run_script Samples.sh0 MoreSamples.ext_framework MoreSamples.fs_legacy).2.
Proof.
  assert (H : (ensure_runtime Samples.sh0 (run_tool MoreSamples.ext_framework)
                 MoreSamples.fs_legacy).1.1 = 0)
    by (vm_compute; reflexivity).
  split; [exact H|].
  destruct (legacy_bundle_removed_first Samples.sh0 MoreSamples.ext_framework
              MoreSamples.fs_legacy H) as [rest ->].
  right. apply in_or_app. right.
  replace (test_d _ LEGACY_APP_BUNDLE) with true by (vm_compute; reflexivity).
  left. reflexivity.
Defined.

End InstallerProofs.
